(** * Resonance-Index assessor: a shallow embedding and its checked properties

    The development follows the Python sources file by file:
    [dimensions/iai.py], [cai.py], [pas.py], [sas.py], [cps.py], [css.py],
    [am.py] and the aggregation done by [analyze_interaction] in [app.py].

    Conventions.
    - Python floats are idealised as exact rationals ([Q]); [round(x, 3)] is
      round-half-to-even on the third decimal.  Equality of scores is [==].
      A binary float can sit a hair off the decimal it stands for, so where
      an exact value falls on a rounding tie or on a threshold the float
      run may go the other way ([round] of 0.2435, [0.1 + 0.1 + 0.1 > 0.3]).
      Statements about a rounded value of the reply therefore say that it
      is a number of three decimals within 0.0005 of the exact one
      ([rounded_to_3]), and statements about a threshold keep away from it.
    - Text is a [string] of bytes holding ASCII text (UTF-8 bytes for the one
      non-ASCII literal of the sources).  [str.lower], [str.split],
      [str.strip], [in], [str.count] are written out for such text.
    - Calls into Python's [re] module with a genuine pattern are calls into
      an engine, a parameter of the development (class [PyRe]); every theorem
      holds for every engine.  The two fixed splits ([[.!?]+] and [\n\n+])
      and the escaped keyword search [\b<keyword>\b] are written out. *)

From Stdlib Require Import ZArith QArith Qround Lqa Lia List String Ascii Bool.
Import ListNotations.
Open Scope string_scope.
Open Scope Q_scope.

(* ================================================================== *)
(** * Numbers                                                          *)
(* ================================================================== *)

Module Num.

(** Python's [a < b] and [a <= b] on numbers. *)
Definition Qleb (a b : Q) : bool := Qle_bool a b.
Definition Qltb (a b : Q) : bool := negb (Qle_bool b a).

(** Python's two-argument [min] and [max]: the first argument is kept
    unless the second is strictly better. *)
Definition pymin (a b : Q) : Q := if Qltb b a then b else a.
Definition pymax (a b : Q) : Q := if Qltb a b then b else a.

(** An [int] used in float arithmetic. *)
Definition Qn (n : nat) : Q := inject_Z (Z.of_nat n).

(** Round-half-to-even to the nearest integer. *)
Definition round_half_even (q : Q) : Z :=
  let n := Qnum q in
  let d := Zpos (Qden q) in
  let f := (n / d)%Z in
  let r := (n mod d)%Z in
  match (2 * r ?= d)%Z with
  | Lt => f
  | Gt => (f + 1)%Z
  | Eq => if Z.even f then f else (f + 1)%Z
  end.

(** [round(x, 3)]. *)
Definition round3 (q : Q) : Q := inject_Z (round_half_even (q * 1000)) / 1000.

(** Python's [lst[-k:]]. *)
Definition last_n {A} (k : nat) (l : list A) : list A :=
  skipn (List.length l - k) l.

End Num.
Import Num.

Notation "a <=? b" := (Qleb a b) : Q_scope.
Notation "a <? b" := (Qltb a b) : Q_scope.

(* ================================================================== *)
(** * Text primitives of [str]                                         *)
(* ================================================================== *)

Module Py.

Definition chr (n : nat) : ascii := ascii_of_nat n.
Definition LF : ascii := chr 10.

(** [str.isspace] on one ASCII character: TAB, LF, VT, FF, CR, the four
    separators FS..US, and SPACE. *)
Definition isspace (c : ascii) : bool :=
  let n := nat_of_ascii c in
  ((9 <=? n) && (n <=? 13) || (28 <=? n) && (n <=? 32))%nat.

(** A word character of [\w] / [\b]: letter, digit or underscore. *)
Definition isword (c : ascii) : bool :=
  let n := nat_of_ascii c in
  ((48 <=? n) && (n <=? 57) || (65 <=? n) && (n <=? 90)
   || (97 <=? n) && (n <=? 122) || (n =? 95))%nat.

Definition lower_char (c : ascii) : ascii :=
  let n := nat_of_ascii c in
  if ((65 <=? n) && (n <=? 90))%nat then chr (n + 32) else c.

(** [s.lower()]. *)
Fixpoint lower (s : string) : string :=
  match s with
  | EmptyString => EmptyString
  | String c t => String (lower_char c) (lower t)
  end.

(** [len(s)]. *)
Definition len (s : string) : nat := String.length s.

(** [s.startswith(p)]. *)
Fixpoint startswith (p s : string) : bool :=
  match p, s with
  | EmptyString, _ => true
  | String a p', String b s' => Ascii.eqb a b && startswith p' s'
  | String _ _, EmptyString => false
  end.

(** [p in s]. *)
Fixpoint contains (p s : string) : bool :=
  startswith p s ||
  match s with
  | EmptyString => false
  | String _ t => contains p t
  end.

Fixpoint drop (n : nat) (s : string) : string :=
  match n, s with
  | O, _ => s
  | S k, String _ t => drop k t
  | S _, EmptyString => EmptyString
  end.

(** [s.count(p)] for a non-empty [p]: occurrences counted left to right
    without overlap.  [fuel] bounds the scan; [String.length s + 1] is
    always enough. *)
Fixpoint count_from (fuel : nat) (p s : string) : nat :=
  match fuel with
  | O => O
  | S k =>
      match s with
      | EmptyString => O
      | String _ t =>
          if startswith p s
          then S (count_from k p (drop (String.length p) s))
          else count_from k p t
      end
  end.

Definition count (p s : string) : nat :=
  count_from (S (String.length s)) p s.

(** Splitting on a class of separator characters, keeping empty pieces:
    the pieces between consecutive separators. *)
Fixpoint split_on (sep : ascii -> bool) (cur : string) (s : string)
  : list string :=
  match s with
  | EmptyString => [cur]
  | String c t =>
      if sep c then cur :: split_on sep EmptyString t
      else split_on sep (cur ++ String c EmptyString) t
  end.

Definition nonempty (s : string) : bool :=
  match s with EmptyString => false | _ => true end.

(** [s.split()]: the maximal runs of non-whitespace characters. *)
Definition split (s : string) : list string :=
  filter nonempty (split_on isspace EmptyString s).

(** [len(s.split())]. *)
Definition word_count (s : string) : nat := List.length (split s).

Fixpoint lstrip (s : string) : string :=
  match s with
  | String c t => if isspace c then lstrip t else s
  | EmptyString => EmptyString
  end.

Fixpoint rev_string (acc s : string) : string :=
  match s with
  | EmptyString => acc
  | String c t => rev_string (String c acc) t
  end.

(** [s.strip()]. *)
Definition strip (s : string) : string :=
  rev_string EmptyString (lstrip (rev_string EmptyString (lstrip s))).

(** [sum(1 for k in keys if k in text)]. *)
Definition count_present (keys : list string) (text : string) : nat :=
  List.length (filter (fun k => contains k text) keys).

(** [any(k in text for k in keys)]. *)
Definition any_present (keys : list string) (text : string) : bool :=
  existsb (fun k => contains k text) keys.

End Py.

(* ================================================================== *)
(** * The [re] module                                                  *)
(* ================================================================== *)

Module Re.

Inductive flag := NOFLAG | MULTILINE | IGNORECASE.

(** The calls made with a genuine pattern.  [re_search f p s] is
    [re.search(p, s, f) is not None]; [re_findall f p s] is
    [len(re.findall(p, s, f))]; [re_finditer p s] lists [m.group(0)] for
    the matches [m] of [re.finditer(p, s)]. *)
Class PyRe := {
  re_search : flag -> string -> string -> bool;
  re_findall : flag -> string -> string -> nat;
  re_finditer : string -> string -> list string
}.

(** The engine none of whose patterns ever matches.  It serves where a
    run reaches no call of [re] (a request without response), or where any
    engine will do. *)
Definition silent_engine : PyRe :=
  {| re_search := fun _ _ _ => false;
     re_findall := fun _ _ _ => O;
     re_finditer := fun _ _ => [] |}.

(** The engine that reads a pattern as plain text.  It agrees with [re] on
    the patterns that hold no special character, such as the style words
    "data" or "story" of sas.py, and lets a run be followed on texts where
    these patterns match. *)
Definition literal_engine : PyRe :=
  {| re_search := fun _ pattern s => Py.contains pattern s;
     re_findall := fun _ pattern s => Py.count pattern s;
     re_finditer := fun pattern s => repeat pattern (Py.count pattern s) |}.

Definition is_sentence_end (c : ascii) : bool :=
  (Ascii.eqb c "." || Ascii.eqb c "!" || Ascii.eqb c "?")%char.

(** [re.split(r'[.!?]+', s)]: cut at every maximal run of terminators.
    [in_run] tells that the previous character was a terminator. *)
Fixpoint split_runs (in_run : bool) (cur : string) (s : string)
  : list string :=
  match s with
  | EmptyString => [cur]
  | String c t =>
      if is_sentence_end c
      then (if in_run then split_runs true cur t
            else cur :: split_runs true EmptyString t)
      else split_runs false (cur ++ String c EmptyString) t
  end.

Definition split_sentences (s : string) : list string :=
  split_runs false EmptyString s.

(** [len(re.split(r'\n\n+', s)) > 1]: the pattern matches somewhere, that
    is, two consecutive line feeds occur. *)
Definition has_paragraph_break (s : string) : bool :=
  Py.contains (String Py.LF (String Py.LF EmptyString)) s.

(** [re.search(rf'\b{re.escape(keyword)}\b', text)]: the escaped keyword is
    a literal, so the pattern matches where [keyword] occurs with a word
    boundary on both sides.  [prev] is the character before the position
    examined ([None] at the start of the text). *)
Definition boundary (prev next : option ascii) : bool :=
  let w o := match o with Some c => Py.isword c | None => false end in
  xorb (w prev) (w next).

Definition head_char (s : string) : option ascii :=
  match s with String c _ => Some c | EmptyString => None end.

Fixpoint last_char (d : option ascii) (s : string) : option ascii :=
  match s with
  | EmptyString => d
  | String c t => last_char (Some c) t
  end.

Definition match_word_here (kw : string) (prev : option ascii) (s : string)
  : bool :=
  Py.startswith kw s
  && boundary prev (head_char s)
  && boundary (last_char prev kw) (head_char (Py.drop (String.length kw) s)).

Fixpoint search_word_from (kw : string) (prev : option ascii) (s : string)
  : bool :=
  match_word_here kw prev s ||
  match s with
  | EmptyString => false
  | String c t => search_word_from kw (Some c) t
  end.

Definition search_word (kw text : string) : bool :=
  search_word_from kw None text.

End Re.
Export Re.

(* ================================================================== *)
(** * dimensions/iai.py                                                *)
(* ================================================================== *)

Module IAI.
Import Py.

(** [scoring_rules]. *)
Definition context_keywords : list string :=
  ["for"; "about"; "context"; "because"; "since"; "given"].
Definition concrete_words : list string :=
  ["specific"; "exact"; "precise"; "concrete"; "detailed"].
Definition parameters : list string :=
  ["number"; "count"; "length"; "size"; "time"; "budget"].
Definition organizers : list string :=
  ["first"; "second"; "then"; "finally"; "step"].
Definition clarity_indicators : list string :=
  ["please"; "clearly"; "specifically"].
Definition optimal_word_count : nat * nat := (20, 150)%nat.

Definition w_context_completeness : Q := 20 # 100.
Definition w_specificity_level : Q := 25 # 100.
Definition w_language_quality : Q := 20 # 100.
Definition w_structure_quality : Q := 15 # 100.
Definition w_information_sufficiency : Q := 10 # 100.
Definition w_tone_sentiment : Q := 10 # 100.

Record components := {
  context_completeness : Q;
  specificity_level : Q;
  language_quality : Q;
  structure_quality : Q;
  information_sufficiency : Q;
  tone_sentiment : Q
}.

Record result := {
  iai_score : Q;
  comps : components;
  word_count : nat;
  sentence_count : nat
}.

Definition _score_context_completeness (prompt : string) : Q :=
  let context_markers := count_present context_keywords (lower prompt) in
  pymin (Qn context_markers / 3) 1.

Definition _score_specificity (prompt : string) (word_count : nat) : Q :=
  let prompt_lower := lower prompt in
  let concrete_score := count_present concrete_words prompt_lower in
  let param_score := count_present parameters prompt_lower in
  let specificity :=
    (Qn concrete_score * (7 # 10) + Qn param_score * (3 # 10)) / 5 in
  pymin specificity 1.

Definition _score_language_quality
    (prompt : string) (sentence_count word_count : nat) : Q :=
  if (word_count =? 0)%nat then 0
  else
    let avg_sentence_length := Qn word_count / Qn (Nat.max sentence_count 1) in
    if avg_sentence_length <? 5 then 3 # 10
    else if avg_sentence_length <=? 20 then 8 # 10
    else if avg_sentence_length <=? 30 then 5 # 10
    else 2 # 10.

Definition _score_structure (prompt : string) : Q :=
  let prompt_lower := lower prompt in
  let organizers := count_present organizers prompt_lower in
  let has_question := contains "?" prompt in
  let question_bonus := if has_question then 2 # 10 else 0 in
  let structure_score := pymin (Qn organizers / 3) (8 # 10) + question_bonus in
  pymin structure_score 1.

Definition _score_sufficiency (word_count : nat) : Q :=
  let '(optimal_min, optimal_max) := optimal_word_count in
  if (word_count <? 5)%nat then 1 # 10
  else if (word_count <? optimal_min)%nat then
    (3 # 10) + (Qn word_count / Qn optimal_min) * (3 # 10)
  else if (word_count <=? optimal_max)%nat then
    (6 # 10)
    + ((Qn word_count - Qn optimal_min) / (Qn optimal_max - Qn optimal_min))
      * (3 # 10)
  else 9 # 10.

Definition _score_tone (prompt : string) : Q :=
  let prompt_lower := lower prompt in
  let clarity_indicators := count_present clarity_indicators prompt_lower in
  let base_score := 6 # 10 in
  let clarity_bonus := pymin (Qn clarity_indicators * (2 # 10)) (4 # 10) in
  pymin (base_score + clarity_bonus) 1.

Definition analyze (prompt : string) : result :=
  let word_count := Py.word_count prompt in
  let sentence_count :=
    List.length (filter (fun s => nonempty (strip s)) (split_sentences prompt)) in
  let components := {|
    context_completeness := _score_context_completeness prompt;
    specificity_level := _score_specificity prompt word_count;
    language_quality := _score_language_quality prompt sentence_count word_count;
    structure_quality := _score_structure prompt;
    information_sufficiency := _score_sufficiency word_count;
    tone_sentiment := _score_tone prompt |} in
  let iai_score :=
    0 + context_completeness components * w_context_completeness
      + specificity_level components * w_specificity_level
      + language_quality components * w_language_quality
      + structure_quality components * w_structure_quality
      + information_sufficiency components * w_information_sufficiency
      + tone_sentiment components * w_tone_sentiment in
  {| iai_score := pymin iai_score 1;
     comps := components;
     word_count := word_count;
     sentence_count := sentence_count |}.

End IAI.

(* ================================================================== *)
(** * dimensions/cps.py                                                *)
(* ================================================================== *)

(** Python's [max(items, key=...)] over the items of a dict, in insertion
    order: the first item whose value is maximal. *)
Module PyMax.

Fixpoint max_item {K V} (lt : V -> V -> bool) (best : K * V)
    (items : list (K * V)) : K * V :=
  match items with
  | [] => best
  | x :: rest => max_item lt (if lt (snd best) (snd x) then x else best) rest
  end.

Definition max_by_value {K V} (lt : V -> V -> bool) (items : list (K * V))
  : option (K * V) :=
  match items with
  | [] => None
  | x :: rest => Some (max_item lt x rest)
  end.

(** [max(xs)] on a non-empty list of ints; [d] stands for the empty case,
    which the callers exclude. *)
Definition max_int (d : Z) (xs : list Z) : Z :=
  match xs with
  | [] => d
  | x :: rest => fold_left Z.max rest x
  end.

End PyMax.

(** One entry of [conversation_history]: the dict built in [app.py].  A key
    may be missing from a dict, hence the option read by [turn.get]. *)
Module History.
Record turn := {
  user_prompt : string;
  ai_response : string;
  cps_level : option Z
}.
End History.

Module CPS.
Import Py PyMax.

Record level_data := {
  name : string;
  user_keywords : list string;
  ai_keywords : list string
}.

Definition levels : list (Z * level_data) :=
  [ (1%Z, {| name := "Awareness";
             user_keywords :=
               ["what is"; "define"; "explain"; "tell me about";
                "what does"; "how does"; "why is"; "when should"];
             ai_keywords :=
               ["definition"; "explanation"; "introduction"; "overview";
                "basic concept"; "fundamental"; "simple terms"] |});
    (2%Z, {| name := "Exploration";
             user_keywords :=
               ["options"; "examples"; "compare"; "different ways";
                "alternatives"; "possibilities"; "what are some";
                "show me"; "give me examples"];
             ai_keywords :=
               ["options include"; "examples are"; "compare and contrast";
                "different approaches"; "several ways"; "alternatives";
                "for instance"; "such as"] |});
    (3%Z, {| name := "Application";
             user_keywords :=
               ["how to"; "apply"; "steps"; "implement"; "process";
                "method"; "procedure"; "guide"; "tutorial";
                "walk me through"; "show me how"];
             ai_keywords :=
               ["step by step"; "first then"; "process involves";
                "implementation guide"; "actionable steps"; "methodology";
                "to apply this"; "practical approach"] |});
    (4%Z, {| name := "Co-Creation";
             user_keywords :=
               ["let's"; "we can"; "we should"; "build together";
                "collaborate"; "partner"; "your input"; "what do you think";
                "our"; "together"; "jointly"; "work with me"];
             ai_keywords :=
               ["let's"; "we can"; "we should"; "together we";
                "collaboratively"; "partnership"; "your thoughts";
                "what are your ideas"; "how shall we"; "shall we"] |});
    (5%Z, {| name := "Expansion";
             user_keywords :=
               ["could also"; "apply to"; "broader use"; "generalize";
                "other applications"; "beyond this"; "what if";
                "how else"; "future implications"; "long-term"];
             ai_keywords :=
               ["broader implications"; "can be applied to"; "generalizes to";
                "other contexts"; "future applications"; "extending this";
                "similar principles"; "across domains"] |}) ].

(** The inner loop: [score += 1] for each keyword found between word
    boundaries. *)
Definition keyword_score (keywords : list string) (text_lower : string) : nat :=
  List.length (filter (fun keyword => search_word keyword text_lower) keywords).

Definition user_level_scores (prompt : string) : list (Z * Q) :=
  let prompt_lower := lower prompt in
  map (fun '(level_num, level_data) =>
         let score := keyword_score (user_keywords level_data) prompt_lower in
         (level_num, Qn score * (1 + inject_Z level_num * (1 # 10))))
      levels.

Definition _detect_user_level (prompt : string) : Z :=
  match max_by_value Qltb (user_level_scores prompt) with
  | Some (level, _) => level
  | None => 1%Z
  end.

Definition ai_level_scores (response : string) : list (Z * nat) :=
  let response_lower := lower response in
  map (fun '(level_num, level_data) =>
         (level_num, keyword_score (ai_keywords level_data) response_lower))
      levels.

Definition _detect_ai_level (response : string) : Z :=
  match max_by_value Nat.ltb (ai_level_scores response) with
  | Some (level, _) => level
  | None => 2%Z
  end.

Definition get_cps_level (t : History.turn) : Z :=
  match History.cps_level t with Some l => l | None => 1%Z end.

Definition _determine_achieved_level
    (user_level ai_level : Z) (history : list History.turn) : Z :=
  let base_level := Z.max user_level ai_level in
  let base_level :=
    match history with
    | [] => base_level
    | _ :: _ =>
        let previous_levels := map get_cps_level (last_n 3 history) in
        if (max_int 1 previous_levels <? base_level)%Z
        then Z.min (base_level + 1) 5
        else base_level
    end in
  let achieved_level := Z.max base_level user_level in
  Z.min achieved_level 5.

Definition lookup_level (level : Z) : option level_data :=
  option_map snd (find (fun '(n, _) => (n =? level)%Z) levels).

Definition _get_found_keywords (text : string) (level : Z) : list string :=
  let text_lower := lower text in
  match lookup_level level with
  | None => []
  | Some level_data =>
      filter (fun keyword => search_word keyword text_lower)
             (user_keywords level_data ++ ai_keywords level_data)
  end.

Record result := {
  cps_score : Q;
  achieved_level : Z;
  user_detected_level : Z;
  ai_detected_level : Z;
  user_keywords_found : list string;
  ai_keywords_found : list string
}.

Definition analyze (user_prompt ai_response : string)
    (conversation_history : list History.turn) : result :=
  let user_level := _detect_user_level user_prompt in
  let ai_level := _detect_ai_level ai_response in
  let achieved_level :=
    _determine_achieved_level user_level ai_level conversation_history in
  let cps_score := inject_Z achieved_level / 5 in
  {| cps_score := round3 cps_score;
     achieved_level := achieved_level;
     user_detected_level := user_level;
     ai_detected_level := ai_level;
     user_keywords_found := _get_found_keywords user_prompt user_level;
     ai_keywords_found := _get_found_keywords ai_response ai_level |}.

End CPS.

(* ================================================================== *)
(** * dimensions/cai.py                                                *)
(* ================================================================== *)

Module CAI.
Import Py.

Inductive anchor_type := boundary_anchors | analogy_anchors | hypothesis_anchors.

Definition tail_group : string := "([^.!?]+?(?=\.|\?|!|,|$))".

(** [anchor_patterns], in dict order. *)
Definition anchor_patterns : list (anchor_type * list string) :=
  [ (boundary_anchors,
     [ "(?:this is|we are|focus(?:ing)?|concentrat(?:ing|e)) (?:on|about) " ++ tail_group;
       "(?:not about|excluding|without|ignore) " ++ tail_group;
       "(?:scope is|limited to|specifically) " ++ tail_group;
       "(?:rather than|instead of) " ++ tail_group;
       "(?:this isn't about|this is not about) " ++ tail_group ]);
    (analogy_anchors,
     [ "(?:like|similar to|comparable to) (?:a |an )?" ++ tail_group;
       "(?:think of|imagine|picture) (?:it as |this as )?(?:a |an )?" ++ tail_group;
       "(?:as if|as though) " ++ tail_group;
       "(?:analogous to|akin to) " ++ tail_group;
       "(?:metaphor|analogy) (?:of|for) " ++ tail_group ]);
    (hypothesis_anchors,
     [ "(?:if|when) " ++ tail_group ++ ",? (?:then )?" ++ tail_group;
       "(?:might|could|would|should) " ++ tail_group ++ " (?:if|when) " ++ tail_group;
       "(?:hypothesis|theory|assumption):? " ++ tail_group;
       "(?:we can test|let's test|test this by) " ++ tail_group;
       "(?:suppose|assuming) " ++ tail_group ]) ].

(** [validation_rules]. *)
Definition min_specificity_words : nat := 1.
Definition banned_vague_terms : list string :=
  ["this thing"; "that stuff"; "something"].

Definition filler_words : list string :=
  ["and"; "or"; "but"; "so"; "then"; "also"].

(** [re.sub(r'\s+', ' ', text)]: every maximal run of whitespace becomes
    one space. *)
Fixpoint collapse_spaces (in_run : bool) (s : string) : string :=
  match s with
  | EmptyString => EmptyString
  | String c t =>
      if isspace c
      then (if in_run then collapse_spaces true t
            else String " " (collapse_spaces true t))
      else String c (collapse_spaces false t)
  end.

(** [re.sub(r'^(?:and|or|but|so|then|also)\s+', '', text)]: a leading filler
    word followed by whitespace is removed together with that whitespace. *)
Fixpoint strip_leading_filler (words : list string) (text : string) : string :=
  match words with
  | [] => text
  | w :: rest =>
      let after := drop (String.length w) text in
      if startswith w text && negb (String.eqb (lstrip after) after)
      then lstrip after
      else strip_leading_filler rest text
  end.

(** [re.sub(r'\s+(?:and|or|but|so|then|also)$', '', text)]: the same at the
    end of the text, read backwards. *)
Definition strip_trailing_filler (text : string) : string :=
  let reversed := rev_string EmptyString text in
  rev_string EmptyString
    (strip_leading_filler (map (rev_string EmptyString) filler_words) reversed).

Definition _clean_anchor_text (text : string) : string :=
  let text := strip (collapse_spaces false text) in
  let text := strip_leading_filler filler_words text in
  strip_trailing_filler text.

Definition _validate_anchor (anchor_text : string) (ty : anchor_type) : bool :=
  let words := split anchor_text in
  if (List.length words <? min_specificity_words)%nat then false
  else if any_present banned_vague_terms anchor_text then false
  else
    match ty with
    | analogy_anchors =>
        let meaningful_words := filter (fun w => (2 <? len w)%nat) words in
        negb (List.length meaningful_words <? 1)%nat
    | hypothesis_anchors => negb (List.length words <? 2)%nat
    | boundary_anchors => true
    end.

Record anchor := {
  text : string;
  valid : bool;
  type : anchor_type;
  sentence : string
}.

Definition preview (sentence : string) : string :=
  if (100 <? len sentence)%nat then substring 0 100 sentence ++ "..."
  else sentence.

Section WithEngine.
Context {engine : PyRe}.

(** The body of the innermost loops for one pattern.  The fifteen patterns
    compile, so the [except re.error] branch, which skips a pattern, is
    never taken. *)
Definition anchors_of_pattern
    (ty : anchor_type) (sentences : list string) (pattern : string)
  : list anchor :=
  flat_map
    (fun sentence =>
       let sentence := strip sentence in
       if nonempty sentence then
         flat_map
           (fun group0 =>
              let anchor_text := _clean_anchor_text group0 in
              if _validate_anchor anchor_text ty
              then [ {| text := anchor_text; valid := true; type := ty;
                        sentence := preview sentence |} ]
              else [])
           (re_finditer pattern sentence)
       else [])
    sentences.

Definition anchors_found (txt : string) : list (anchor_type * list anchor) :=
  let text_lower := lower txt in
  let sentences := split_sentences text_lower in
  map (fun '(ty, patterns) =>
         (ty, flat_map (anchors_of_pattern ty sentences) patterns))
      anchor_patterns.

Record result := {
  cai_score : Q;
  found : list (anchor_type * list anchor);
  total_valid_anchors : nat;
  boundary_count : nat;
  analogy_count : nat;
  hypothesis_count : nat
}.

Definition count_of (ty : anchor_type)
    (found : list (anchor_type * list anchor)) : nat :=
  match find (fun '(t, _) =>
                match t, ty with
                | boundary_anchors, boundary_anchors
                | analogy_anchors, analogy_anchors
                | hypothesis_anchors, hypothesis_anchors => true
                | _, _ => false
                end) found with
  | Some (_, l) => List.length l
  | None => O
  end.

Definition analyze (txt : string) : result :=
  let found := anchors_found txt in
  let total_valid_anchors :=
    fold_left Nat.add (map (fun '(_, anchors) => List.length anchors) found) O in
  let cai_score :=
    if (total_valid_anchors =? 0)%nat then 0
    else if (total_valid_anchors =? 1)%nat then 25 # 100
    else if (total_valid_anchors =? 2)%nat then 5 # 10
    else if (total_valid_anchors =? 3)%nat then 75 # 100
    else 1 in
  {| cai_score := cai_score;
     found := found;
     total_valid_anchors := total_valid_anchors;
     boundary_count := count_of boundary_anchors found;
     analogy_count := count_of analogy_anchors found;
     hypothesis_count := count_of hypothesis_anchors found |}.

End WithEngine.

End CAI.

(* ================================================================== *)
(** * dimensions/pas.py                                                *)
(* ================================================================== *)

Module PAS.
Import Py.

(** [weights]. *)
Definition w_chunking : Q := 30 # 100.
Definition w_structure : Q := 25 # 100.
Definition w_collaboration : Q := 25 # 100.
Definition w_rhythm : Q := 20 # 100.

Definition sequencing_words : list string :=
  ["first"; "next"; "then"; "finally"; "step"; "phase"].
Definition list_patterns : list string := ["\n- "; "\n\* "; "\n\d+\."].
Definition heading_patterns : list string := ["^#+"; "^[A-Z][^.!?]*:"].
Definition structural_elements : list string :=
  ["table:"; "chart:"; "diagram:"; "summary:"].
Definition collaboration_phrases : list string :=
  ["let's"; "we can"; "we should"; "our"; "together"; "collaborate";
   "what do you think"; "how about"; "your thoughts"; "partner";
   "does this make sense"; "shall we"; "would you like"; "build with"].

(** The em dash, as its three UTF-8 bytes. *)
Definition em_dash : string :=
  String (chr 226) (String (chr 128) (String (chr 148) EmptyString)).
Definition pause_indicators : list string :=
  ["..."; em_dash; "briefly"; "in summary"; "to recap"].

Definition sum_nat (l : list nat) : nat := fold_left Nat.add l O.

Definition max_nat (x : nat) (rest : list nat) : nat := fold_left Nat.max rest x.
Definition min_nat (x : nat) (rest : list nat) : nat := fold_left Nat.min rest x.

Definition _analyze_collaboration (txt : string) : Q :=
  let text_lower := lower txt in
  let collab_count := count_present collaboration_phrases text_lower in
  if (3 <=? collab_count)%nat then 1
  else if (collab_count =? 2)%nat then 7 # 10
  else if (collab_count =? 1)%nat then 4 # 10
  else 1 # 10.

Definition _analyze_rhythm (txt : string) : Q :=
  let score := 0 in
  let question_count := count "?" txt in
  let score := score + pymin (Qn question_count * (2 # 10)) (4 # 10) in
  let pause_count := sum_nat (map (fun indicator => count indicator txt) pause_indicators) in
  let score := score + pymin (Qn pause_count * (15 # 100)) (3 # 10) in
  let sentences := split_sentences txt in
  let score :=
    if (3 <=? List.length sentences)%nat then
      let sentence_lengths :=
        map (fun sent => len (strip sent))
            (filter (fun sent => nonempty (strip sent)) sentences) in
      match sentence_lengths with
      | [] => score
      | x :: rest =>
          let hi := max_nat x rest in
          let lo := min_nat x rest in
          let variation := if (0 <? lo)%nat then Qn hi / Qn lo else 1 in
          if (2 <=? variation) && (variation <=? 5) then score + (3 # 10)
          else score
      end
    else score in
  pymin score 1.

Section WithEngine.
Context {engine : PyRe}.

Definition _analyze_chunking (txt : string) : Q :=
  let score := 0 in
  let score := if has_paragraph_break txt then score + (3 # 10) else score in
  let seq_count := count_present sequencing_words (lower txt) in
  let score := score + pymin (Qn seq_count * (15 # 100)) (3 # 10) in
  let list_count :=
    sum_nat (map (fun pattern => re_findall NOFLAG pattern txt) list_patterns) in
  let score := score + pymin (Qn list_count * (1 # 10)) (4 # 10) in
  pymin score 1.

Definition _analyze_structure (txt : string) : Q :=
  let score := 0 in
  let has_headings :=
    existsb (fun pattern => re_search MULTILINE pattern txt) heading_patterns in
  let score := if has_headings then score + (4 # 10) else score in
  let list_count := re_findall NOFLAG "\n\d+\.|\n- |\n\* " txt in
  let score :=
    if (2 <=? list_count)%nat then score + (4 # 10)
    else if (list_count =? 1)%nat then score + (2 # 10)
    else score in
  let has_elements := any_present structural_elements (lower txt) in
  let score := if has_elements then score + (2 # 10) else score in
  pymin score 1.

Record result := {
  pas_score : Q;
  chunking : Q;
  structure : Q;
  collaboration : Q;
  rhythm : Q
}.

Definition analyze (response : string) : result :=
  let chunking_score := _analyze_chunking response in
  let structure_score := _analyze_structure response in
  let collaboration_score := _analyze_collaboration response in
  let rhythm_score := _analyze_rhythm response in
  let pas_score :=
    chunking_score * w_chunking
    + structure_score * w_structure
    + collaboration_score * w_collaboration
    + rhythm_score * w_rhythm in
  {| pas_score := round3 pas_score;
     chunking := chunking_score;
     structure := structure_score;
     collaboration := collaboration_score;
     rhythm := rhythm_score |}.

End WithEngine.

End PAS.

(* ================================================================== *)
(** * dimensions/sas.py                                                *)
(* ================================================================== *)

Module SAS.
Import Py PyMax.

(** [weights]. *)
Definition w_style_sync : Q := 35 # 100.
Definition w_goal_sync : Q := 25 # 100.
Definition w_expectation_sync : Q := 20 # 100.
Definition w_depth_sync : Q := 20 # 100.

(** [style_patterns], in dict order. *)
Definition style_patterns : list (string * list string) :=
  [ ("formal",
     [ "\b(?:therefore|however|furthermore|consequently|accordingly)\b";
       "[A-Z][a-z]+ly\b"; "in conclusion"; "in summary"; "it is evident" ]);
    ("informal",
     [ "\b(?:hey|hi|hello|thanks|cheers|awesome|great|perfect)\b";
       "let's"; "we'll"; "we're"; "i'm"; "you're"; "!\s*$"; ":\)|:D|;\)" ]);
    ("direct",
     [ "^[A-Z][^.!?]*:"; "\b(?:yes|no|exactly|precisely|correct|incorrect)\b";
       "\d+\.\s+"; "-\s+"; "key points?"; "main idea"; "bottom line" ]);
    ("narrative",
     [ "[^.!?]{30,}"; "story"; "example"; "scenario"; "imagine";
       "for instance"; "to illustrate"; "in other words" ]);
    ("data_driven",
     [ "\d+%"; "\d+\.\d+"; "statistics?"; "data"; "research"; "study";
       "analysis"; "metrics"; "chart"; "graph"; "table"; "figure" ]) ].

Definition goal_keywords : list string :=
  ["goal"; "objective"; "target"; "aim"; "purpose"; "want"; "need";
   "looking for"; "trying to"; "achieve"; "accomplish"; "solve"; "fix"].
Definition goal_acknowledgement : list string :=
  ["your goal"; "your objective"; "what you want"; "to achieve";
   "to accomplish"; "as you requested"].
Definition expectation_words : list string :=
  ["list"; "bullet"; "summary"; "detailed"; "brief"; "simple"; "complex";
   "step by step"; "example"; "explain"; "define"; "compare"; "analyze"].

(** A dict from style name to intensity, in insertion order. *)
Definition style_dict := list (string * Q).

(** [d[key]] for a key the dict holds; both dicts of [_calculate_style_sync]
    come from the same loop over [style_patterns]. *)
Definition item (d : style_dict) (key : string) : Q :=
  match find (fun '(k, _) => String.eqb k key) d with
  | Some (_, v) => v
  | None => 0
  end.

Definition pyabs (x : Q) : Q := if x <? 0 then - x else x.

(** The bonus test [user_dominant[1] > 0.3] is made here on the exact
    intensity: an intensity of exactly three tenths does not pass it, while
    the float sum of three tenths does. *)
Definition _calculate_style_sync (user_style ai_style : style_dict) : Q :=
  let sync_score := 0 in
  match max_by_value Qltb user_style, max_by_value Qltb ai_style with
  | Some user_dominant, Some ai_dominant =>
      let sync_score :=
        if String.eqb (fst user_dominant) (fst ai_dominant)
           && ((3 # 10) <? snd user_dominant)
        then sync_score + (4 # 10) else sync_score in
      let style_similarity :=
        fold_left
          (fun acc '(style, user_value) =>
             let similarity := 1 - pyabs (user_value - item ai_style style) in
             acc + similarity * (2 # 10))
          user_style 0 in
      let sync_score := sync_score + pymin style_similarity (6 # 10) in
      pymin sync_score 1
  | _, _ => 0
  end.

Definition _calculate_goal_sync (user_prompt ai_response : string) : Q :=
  let prompt_lower := lower user_prompt in
  let response_lower := lower ai_response in
  let user_has_goals := any_present goal_keywords prompt_lower in
  if negb user_has_goals then 7 # 10
  else if any_present goal_acknowledgement response_lower then 9 # 10
  else 6 # 10.

Definition mem (w : string) (l : list string) : bool :=
  existsb (String.eqb w) l.

Definition list_marker_dash : string := String LF "- ".
Definition list_marker_star : string := String LF "* ".

(** One turn of the loop over [expectation_words]: does this word, found
    in the prompt, count as an expectation the response met? *)
Definition expectation_met (word response_lower : string) : bool :=
  if mem word ["list"; "bullet"]
     && (contains list_marker_dash response_lower
         || contains list_marker_star response_lower) then true
  else if mem word ["summary"; "brief"]
          && (Py.word_count response_lower <? 150)%nat then true
  else if mem word ["detailed"; "complex"]
          && (200 <? Py.word_count response_lower)%nat then true
  else contains word response_lower.

Definition expectation_matches (user_prompt ai_response : string) : nat :=
  let prompt_lower := lower user_prompt in
  let response_lower := lower ai_response in
  fold_left
    (fun matches word =>
       if contains word prompt_lower then
         (if expectation_met word response_lower then S matches else matches)
       else matches)
    expectation_words O.

Definition _calculate_expectation_sync (user_prompt ai_response : string) : Q :=
  let matches := expectation_matches user_prompt ai_response in
  if (0 <? matches)%nat then pymin ((5 # 10) + Qn matches * (2 # 10)) 1
  else 7 # 10.

Definition _calculate_depth_sync (user_prompt ai_response : string) : Q :=
  let prompt_words := Py.word_count user_prompt in
  let response_words := Py.word_count ai_response in
  let ideal_response :=
    if (prompt_words <? 10)%nat then 50%nat
    else if (prompt_words <? 30)%nat then 100%nat
    else 200%nat in
  let ratio :=
    if (0 <? ideal_response)%nat then Qn response_words / Qn ideal_response
    else 1 in
  if ((7 # 10) <=? ratio) && (ratio <=? (13 # 10)) then 9 # 10
  else if ((4 # 10) <=? ratio) && (ratio <=? (16 # 10)) then 7 # 10
  else 4 # 10.

Section WithEngine.
Context {engine : PyRe}.

Definition _analyze_user_style (prompt : string) : style_dict :=
  let prompt_lower := lower prompt in
  map (fun '(style_name, patterns) =>
         let score :=
           fold_left
             (fun score pattern =>
                let matches := re_findall IGNORECASE pattern prompt_lower in
                score + Qn matches * (1 # 10))
             patterns 0 in
         (style_name, pymin score 1))
      style_patterns.

Definition _analyze_ai_style (response : string) : style_dict :=
  _analyze_user_style response.

Record result := {
  sas_score : Q;
  style_sync : Q;
  goal_sync : Q;
  expectation_sync : Q;
  depth_sync : Q;
  user_style : style_dict;
  ai_style : style_dict
}.

Definition analyze (user_prompt ai_response : string) : result :=
  let user_style := _analyze_user_style user_prompt in
  let ai_style := _analyze_ai_style ai_response in
  let style_sync := _calculate_style_sync user_style ai_style in
  let goal_sync := _calculate_goal_sync user_prompt ai_response in
  let expectation_sync := _calculate_expectation_sync user_prompt ai_response in
  let depth_sync := _calculate_depth_sync user_prompt ai_response in
  let sas_score :=
    style_sync * w_style_sync
    + goal_sync * w_goal_sync
    + expectation_sync * w_expectation_sync
    + depth_sync * w_depth_sync in
  {| sas_score := round3 sas_score;
     style_sync := style_sync;
     goal_sync := goal_sync;
     expectation_sync := expectation_sync;
     depth_sync := depth_sync;
     user_style := user_style;
     ai_style := ai_style |}.

End WithEngine.

End SAS.

(* ================================================================== *)
(** * dimensions/css.py                                                *)
(* ================================================================== *)

Module CSS.
Import Py.

(** [safety_patterns]. *)
Definition positive_signals : list string :=
  ["does this make sense"; "please clarify"; "let me know";
   "your thoughts"; "what do you think"; "feel free to ask";
   "i want to ensure"; "correct me if I'm wrong"; "am I understanding";
   "we can adjust"; "your feedback"; "how does that sound";
   "comfortable with"; "happy to explain"; "take your time"].
Definition negative_signals : list string :=
  ["obviously"; "clearly"; "everyone knows";
   "you should know"; "basic knowledge"; "simple concept";
   "easy to understand"; "no excuse for not knowing";
   "if you can't understand this"; "even a child could"].
Definition collaborative_language : list string :=
  ["let's"; "we can"; "we should"; "our"; "together";
   "collaborate"; "partner"; "jointly"; "build with";
   "work together"; "team effort"].
Definition empowerment_signals : list string :=
  ["you can"; "you have the ability"; "your expertise";
   "build on your knowledge"; "apply this to"; "generalize";
   "expand this concept"; "future applications"].

Definition comfortable_signals : list string :=
  ["confident"; "comfortable"; "clear"; "understand";
   "excited"; "interested"; "curious"; "ready"].
Definition uncomfortable_signals : list string :=
  ["confused"; "frustrated"; "overwhelmed"; "lost";
   "complicated"; "difficult"; "hard"; "struggling"].

(** The dict [interaction_data]; a key may be missing. *)
Record interaction_data := {
  response_length : option nat;
  user_prompt_length : option nat;
  has_ai_response : option bool
}.

Definition get (o : option nat) (d : nat) : nat :=
  match o with Some v => v | None => d end.

Definition _analyze_user_comfort (prompt : string) : Q :=
  let prompt_lower := lower prompt in
  let comfort_score := 5 # 10 in
  let comfortable_count := count_present comfortable_signals prompt_lower in
  let uncomfortable_count := count_present uncomfortable_signals prompt_lower in
  let comfort_score := comfort_score + Qn comfortable_count * (1 # 10) in
  let comfort_score := comfort_score - Qn uncomfortable_count * (15 # 100) in
  pymax 0 (pymin comfort_score 1).

Definition _analyze_context (data : interaction_data) : Q :=
  let context_score := 7 # 10 in
  let response_length := get (response_length data) 0 in
  let prompt_length := get (user_prompt_length data) 0 in
  let context_score :=
    if (0 <? prompt_length)%nat && (0 <? response_length)%nat then
      let ratio := Qn response_length / Qn prompt_length in
      if 5 <? ratio then context_score - (2 # 10)
      else if ratio <? (5 # 10) then context_score + (1 # 10)
      else context_score
    else context_score in
  pymax 0 (pymin context_score 1).

Definition _determine_css_level (ai_safety user_comfort context : Q) : Z :=
  let combined_score :=
    ai_safety * (6 # 10) + user_comfort * (3 # 10) + context * (1 # 10) in
  if (8 # 10) <=? combined_score then 5%Z
  else if (7 # 10) <=? combined_score then 4%Z
  else if (6 # 10) <=? combined_score then 3%Z
  else if (4 # 10) <=? combined_score then 2%Z
  else 1%Z.

Section WithEngine.
Context {engine : PyRe}.

(** One of the four counting loops. *)
Definition count_matching (patterns : list string) (response_lower : string)
  : nat :=
  List.length (filter (fun pattern => re_search NOFLAG pattern response_lower)
                      patterns).

Definition _analyze_ai_safety (response : string) : Q :=
  let response_lower := lower response in
  let safety_score := 5 # 10 in
  let positive_count := count_matching positive_signals response_lower in
  let collaborative_count := count_matching collaborative_language response_lower in
  let empowerment_count := count_matching empowerment_signals response_lower in
  let negative_count := count_matching negative_signals response_lower in
  let safety_score := safety_score + Qn positive_count * (1 # 10) in
  let safety_score := safety_score + Qn collaborative_count * (8 # 100) in
  let safety_score := safety_score + Qn empowerment_count * (7 # 100) in
  let safety_score := safety_score - Qn negative_count * (15 # 100) in
  pymax 0 (pymin safety_score 1).

Record result := {
  css_score : Q;
  css_level : Z;
  ai_safety_score : Q;
  user_comfort_level : Q;
  context_score : Q
}.

Definition analyze (user_prompt ai_response : string)
    (data : interaction_data) : result :=
  let ai_safety_score := _analyze_ai_safety ai_response in
  let user_comfort_level := _analyze_user_comfort user_prompt in
  let context_score := _analyze_context data in
  let css_level :=
    _determine_css_level ai_safety_score user_comfort_level context_score in
  let css_score := inject_Z css_level / 5 in
  {| css_score := round3 css_score;
     css_level := css_level;
     ai_safety_score := ai_safety_score;
     user_comfort_level := user_comfort_level;
     context_score := context_score |}.

End WithEngine.

End CSS.

(* ================================================================== *)
(** * dimensions/am.py                                                 *)
(* ================================================================== *)

Module AM.
Import Py.

Inductive uip := precision_seeker | strategic_explorer | co_creation_partner.

Definition uip_eqb (a b : uip) : bool :=
  match a, b with
  | precision_seeker, precision_seeker
  | strategic_explorer, strategic_explorer
  | co_creation_partner, co_creation_partner => true
  | _, _ => false
  end.

Record uip_data := {
  keywords : list string;
  preferred_response_style : list string
}.

(** [uip_patterns], in dict order. *)
Definition uip_patterns : list (uip * uip_data) :=
  [ (precision_seeker,
     {| keywords := ["exact"; "define"; "list"; "specifically"; "no fluff";
                     "correct"; "only"; "step-by-step"];
        preferred_response_style :=
          ["concise"; "structured"; "bounded"; "bullet points"] |});
    (strategic_explorer,
     {| keywords := ["framework"; "model"; "system"; "big picture";
                     "how does this fit"; "map"; "concept"];
        preferred_response_style :=
          ["framework"; "analogy"; "structured"; "overview"] |});
    (co_creation_partner,
     {| keywords := ["let's"; "build"; "together"; "collaborate";
                     "your input"; "what do you think"];
        preferred_response_style :=
          ["interactive"; "iterative"; "suggestive"; "questioning"] |}) ].

(** One entry of [response_styles]: the keys [max_words] and [patterns]
    are each present in some entries only. *)
Record style_data := {
  indicators : list string;
  max_words : option nat;
  patterns : option (list string)
}.

Definition response_styles : list (string * style_data) :=
  [ ("concise",
     {| indicators := ["short sentences"; "bullet points"; "direct answers";
                       "minimal explanation"];
        max_words := Some 150%nat; patterns := None |});
    ("structured",
     {| indicators := ["numbered lists"; "headings"; "sections"; "first/then/next"];
        max_words := None;
        patterns := Some ["\n\d+\."; "\n- "; "first"; "next"; "finally"] |});
    ("interactive",
     {| indicators := ["questions"; "your thoughts"; "what do you think"; "shall we"];
        max_words := None;
        patterns := Some ["\?"; "your input"; "collaborate"] |});
    ("framework",
     {| indicators := ["analogies"; "models"; "systems"; "like a"; "similar to"];
        max_words := None;
        patterns := Some ["like a"; "similar to"; "framework"; "model"] |}) ].

(** The dict [ai_style] and [ai_style.get(key, default)]. *)
Definition style_scores := list (string * Q).

Definition get (d : style_scores) (key : string) (default : Q) : Q :=
  match find (fun '(k, _) => String.eqb k key) d with
  | Some (_, v) => v
  | None => default
  end.

Definition preferred_styles_of (detected : uip) : list string :=
  match find (fun '(u, _) => uip_eqb u detected) uip_patterns with
  | Some (_, d) => preferred_response_style d
  | None => []
  end.

(** [_detect_uip]: the loop keeps [(best_uip, best_score)]. *)
Definition _detect_uip (prompt : string) : uip * Q :=
  let prompt_lower := lower prompt in
  let '(best_uip, best_score) :=
    fold_left
      (fun '(best_uip, best_score) '(uip_name, data) =>
         let score :=
           List.length (filter (fun keyword => search_word keyword prompt_lower)
                               (keywords data)) in
         if (best_score <? score)%nat then (uip_name, score)
         else (best_uip, best_score))
      uip_patterns (precision_seeker, O) in
  let confidence := pymin (Qn best_score / 3) 1 in
  (best_uip, confidence).

(** The normalised [style_match_score] of [_calculate_am]. *)
Definition style_match_score (detected_uip : uip) (ai_style : style_scores) : Q :=
  let preferred_styles := preferred_styles_of detected_uip in
  let style_match_score :=
    fold_left (fun acc preferred_style => acc + get ai_style preferred_style 0)
              preferred_styles 0 in
  pymin (style_match_score / Qn (List.length preferred_styles)) 1.

Definition _calculate_am (detected_uip : uip) (ai_style : style_scores)
    (ai_response : string) : Q :=
  let style_match_score := style_match_score detected_uip ai_style in
  let am_score :=
    if (8 # 10) <=? style_match_score then 12 # 10
    else if (6 # 10) <=? style_match_score then 11 # 10
    else if (4 # 10) <=? style_match_score then 1
    else if (2 # 10) <=? style_match_score then 9 # 10
    else 8 # 10 in
  let word_count := Py.word_count ai_response in
  let am_score :=
    if uip_eqb detected_uip precision_seeker && (300 <? word_count)%nat
    then am_score - (1 # 10) else am_score in
  let am_score :=
    if uip_eqb detected_uip co_creation_partner
       && ((5 # 10) <? get ai_style "interactive" 0)
    then am_score + (1 # 10) else am_score in
  pymax (8 # 10) (pymin am_score (12 # 10)).

Section WithEngine.
Context {engine : PyRe}.

(** One turn of the loop of [_analyze_ai_style].  Every pattern is a [str],
    so the test is always [re.search(pattern, response_lower)]. *)
Definition style_score (response : string) (style_name : string)
    (data : style_data) : Q :=
  let response_lower := lower response in
  let score := 0 in
  let score :=
    if String.eqb style_name "concise" then
      let word_count := Py.word_count response in
      match max_words data with
      | Some limit => if (word_count <=? limit)%nat then score + (5 # 10) else score
      | None => score
      end
    else score in
  let score :=
    match patterns data with
    | Some ps =>
        fold_left
          (fun score pattern =>
             if re_search NOFLAG pattern response_lower
             then score + (3 # 10) else score)
          ps score
    | None => score
    end in
  pymin score 1.

Definition _analyze_ai_style (response : string) : style_scores :=
  map (fun '(style_name, data) => (style_name, style_score response style_name data))
      response_styles.

Record result := {
  am_score : Q;
  detected : uip;
  confidence : Q;
  ai_response_style : style_scores
}.

Definition analyze (user_prompt ai_response : string) : result :=
  let '(detected_uip, uip_confidence) := _detect_uip user_prompt in
  let ai_style := _analyze_ai_style ai_response in
  let am_score := _calculate_am detected_uip ai_style ai_response in
  {| am_score := round3 am_score;
     detected := detected_uip;
     confidence := uip_confidence;
     ai_response_style := ai_style |}.

End WithEngine.

End AM.

(* ================================================================== *)
(** * app.py: the aggregation in [analyze_interaction]                 *)
(* ================================================================== *)

Module App.
Import Py.

Record dimension_scores := {
  iai : Q; cai : Q; pas : Q; sas : Q; cps : Q; css : Q
}.

Section WithEngine.
Context {engine : PyRe}.

(** [component_breakdown]: an analyzer that did not run leaves [{}]. *)
Record component_breakdown := {
  iai_details : IAI.result;
  cai_details : option CAI.result;
  pas_details : option PAS.result;
  sas_details : option SAS.result;
  cps_details : option CPS.result;
  css_details : option CSS.result;
  am_details : option AM.result
}.

(** [response_data], without the interpretation strings and the
    timestamp. *)
Record response_data := {
  resonance_index : Q;
  alignment_modulator : Q;
  uip_detected : AM.uip;
  uip_confidence : Q;
  scores : dimension_scores;
  breakdown : component_breakdown
}.

Inductive outcome :=
| BadRequest (error : string)
| Success (reply : response_data).

(** The weighted sum of lines 128-135. *)
Definition ri_score (iai_score cai_score pas_score sas_score cps_score
                     css_score am_score : Q) : Q :=
  (iai_score * (25 # 100)
   + cai_score * (20 # 100)
   + pas_score * (20 # 100)
   + sas_score * (15 # 100)
   + cps_score * (10 # 100)
   + css_score * (10 # 100)) * am_score.

(** The local variables set by lines 50-125, one group per analyzer,
    and the history as line 93 leaves it. *)
Record locals := {
  iai_result : IAI.result;
  cai_score : Q;  cai_result : option CAI.result;
  pas_score : Q;  pas_result : option PAS.result;
  sas_score : Q;  sas_result : option SAS.result;
  cps_score : Q;  cps_result : option CPS.result;
  css_score : Q;  css_result : option CSS.result;
  am_score : Q;   am_uip : AM.uip;  am_confidence : Q;
  am_result : option AM.result;
  history_after : list History.turn
}.

Definition run_analyzers
    (conversation_history : list History.turn)
    (user_prompt ai_response : string) : locals :=
  let iai_result := IAI.analyze user_prompt in
  let '(cai_score, cai_result) :=
    if nonempty ai_response
    then let r := CAI.analyze ai_response in (CAI.cai_score r, Some r)
    else (0, None) in
  let '(pas_score, pas_result) :=
    if nonempty ai_response
    then let r := PAS.analyze ai_response in (PAS.pas_score r, Some r)
    else (0, None) in
  let '(sas_score, sas_result) :=
    if nonempty ai_response && nonempty user_prompt
    then let r := SAS.analyze user_prompt ai_response in
         (SAS.sas_score r, Some r)
    else (5 # 10, None) in
  let '(cps_score, cps_result, conversation_history') :=
    if nonempty ai_response && nonempty user_prompt
    then let r := CPS.analyze user_prompt ai_response conversation_history in
         (CPS.cps_score r, Some r,
          last_n 10
            (conversation_history ++
             [ {| History.user_prompt := user_prompt;
                  History.ai_response := ai_response;
                  History.cps_level := Some (CPS.achieved_level r) |} ]))
    else (5 # 10, None, conversation_history) in
  let '(css_score, css_result) :=
    if nonempty ai_response && nonempty user_prompt
    then
      let interaction_data := {|
        CSS.response_length := Some (word_count ai_response);
        CSS.user_prompt_length := Some (word_count user_prompt);
        CSS.has_ai_response := Some (nonempty (strip ai_response)) |} in
      let r := CSS.analyze user_prompt ai_response interaction_data in
      (CSS.css_score r, Some r)
    else (5 # 10, None) in
  let '(am_score, uip_detected, uip_confidence, am_result) :=
    if nonempty ai_response && nonempty user_prompt
    then let r := AM.analyze user_prompt ai_response in
         (AM.am_score r, AM.detected r, AM.confidence r, Some r)
    else (1, AM.precision_seeker, 5 # 10, None) in
  {| iai_result := iai_result;
     cai_score := cai_score; cai_result := cai_result;
     pas_score := pas_score; pas_result := pas_result;
     sas_score := sas_score; sas_result := sas_result;
     cps_score := cps_score; cps_result := cps_result;
     css_score := css_score; css_result := css_result;
     am_score := am_score; am_uip := uip_detected;
     am_confidence := uip_confidence; am_result := am_result;
     history_after := conversation_history' |}.

(** Lines 127-176: the index and the reply. *)
Definition build_response (v : locals) : response_data :=
  let ri_score :=
    ri_score (IAI.iai_score (iai_result v)) (cai_score v) (pas_score v)
             (sas_score v) (cps_score v) (css_score v) (am_score v) in
  {| resonance_index := round3 ri_score;
     alignment_modulator := am_score v;
     uip_detected := am_uip v;
     uip_confidence := round3 (am_confidence v);
     scores := {| iai := round3 (IAI.iai_score (iai_result v));
                  cai := round3 (cai_score v);
                  pas := round3 (pas_score v);
                  sas := round3 (sas_score v);
                  cps := round3 (cps_score v);
                  css := round3 (css_score v) |};
     breakdown := {| iai_details := iai_result v;
                     cai_details := cai_result v;
                     pas_details := pas_result v;
                     sas_details := sas_result v;
                     cps_details := cps_result v;
                     css_details := css_result v;
                     am_details := am_result v |} |}.

(** [analyze_interaction] on the request fields [user_prompt] and
    [ai_response] when they are strings (a missing field reads as the empty
    string), threading the global [conversation_history].  On strings no
    analyzer raises; the handler of [except Exception], which answers a
    request whose fields are of another JSON type, is outside this
    function. *)
Definition analyze_interaction
    (conversation_history : list History.turn)
    (user_prompt ai_response : string)
  : outcome * list History.turn :=
  if negb (nonempty user_prompt)
  then (BadRequest "User prompt is required", conversation_history)
  else
    let v := run_analyzers conversation_history user_prompt ai_response in
    (Success (build_response v), history_after v).

(** A session: the requests are served one after the other on the shared
    history; the replies are collected. *)
Fixpoint serve (conversation_history : list History.turn)
    (requests : list (string * string))
  : list outcome * list History.turn :=
  match requests with
  | [] => ([], conversation_history)
  | (user_prompt, ai_response) :: rest =>
      let '(out, h) :=
        analyze_interaction conversation_history user_prompt ai_response in
      let '(outs, h') := serve h rest in
      (out :: outs, h')
  end.

End WithEngine.

End App.

(* ================================================================== *)
(** * Vocabulary of the statements                                     *)
(* ================================================================== *)

Module Terms.

Definition unit_interval (x : Q) : Prop := 0 <= x <= 1.

Definition is_level (l : Z) : Prop := (1 <= l <= 5)%Z.

Definition unit_values (d : list (string * Q)) : Prop :=
  Forall (fun kv => unit_interval (snd kv)) d.

(** [y] is a number of three decimals nearest to [x]: what [round(x, 3)]
    returns, whichever way a tie is broken. *)
Definition rounded_to_3 (x y : Q) : Prop :=
  (exists k : Z, y == inject_Z k / 1000)
  /\ x - (1 # 2000) <= y <= x + (1 # 2000).

(** The weighted sum of the claim, written with its decimal weights. *)
Definition weighted (IAI CAI PAS SAS CPS CSS AM : Q) : Q :=
  ((25 # 100) * IAI + (20 # 100) * CAI + (20 # 100) * PAS
   + (15 # 100) * SAS + (10 # 100) * CPS + (10 # 100) * CSS) * AM.

(** The request a turn records, and the requests that record a turn. *)
Definition request_of (t : History.turn) : string * string :=
  (History.user_prompt t, History.ai_response t).

Definition answered (request : string * string) : bool :=
  Py.nonempty (fst request) && Py.nonempty (snd request).

(** The style names that the intents prefer and no detector scores. *)
Definition undetected_styles : list string :=
  ["bounded"; "bullet points"; "analogy"; "overview"; "iterative";
   "suggestive"; "questioning"].

(** The four detected styles, with the most each can score. *)
Definition style_table (c s i f : Q) : AM.style_scores :=
  [("concise", c); ("structured", s); ("interactive", i); ("framework", f)].

Section WithEngine.
Context {engine : PyRe}.

(** The two shapes of the locals: with and without a response. *)
Definition locals_with_response h p r : App.locals :=
  let cps := CPS.analyze p r h in
  let am := AM.analyze p r in
  {| App.iai_result := IAI.analyze p;
     App.cai_score := CAI.cai_score (CAI.analyze r);
     App.cai_result := Some (CAI.analyze r);
     App.pas_score := PAS.pas_score (PAS.analyze r);
     App.pas_result := Some (PAS.analyze r);
     App.sas_score := SAS.sas_score (SAS.analyze p r);
     App.sas_result := Some (SAS.analyze p r);
     App.cps_score := CPS.cps_score cps;
     App.cps_result := Some cps;
     App.css_score :=
       CSS.css_score
         (CSS.analyze p r
            {| CSS.response_length := Some (Py.word_count r);
               CSS.user_prompt_length := Some (Py.word_count p);
               CSS.has_ai_response := Some (Py.nonempty (Py.strip r)) |});
     App.css_result :=
       Some (CSS.analyze p r
            {| CSS.response_length := Some (Py.word_count r);
               CSS.user_prompt_length := Some (Py.word_count p);
               CSS.has_ai_response := Some (Py.nonempty (Py.strip r)) |});
     App.am_score := AM.am_score am;
     App.am_uip := AM.detected am;
     App.am_confidence := AM.confidence am;
     App.am_result := Some am;
     App.history_after :=
       last_n 10
         (h ++ [ {| History.user_prompt := p;
                    History.ai_response := r;
                    History.cps_level := Some (CPS.achieved_level cps) |} ]) |}.

Definition locals_without_response h p : App.locals :=
  {| App.iai_result := IAI.analyze p;
     App.cai_score := 0; App.cai_result := None;
     App.pas_score := 0; App.pas_result := None;
     App.sas_score := 5 # 10; App.sas_result := None;
     App.cps_score := 5 # 10; App.cps_result := None;
     App.css_score := 5 # 10; App.css_result := None;
     App.am_score := 1; App.am_uip := AM.precision_seeker;
     App.am_confidence := 5 # 10; App.am_result := None;
     App.history_after := h |}.

(** The anchors of a family, read off the text: the patterns of the
    family, the sentences that are searched (the non-blank ones, stripped),
    and the cleaned matches that pass the validation of the family, in the
    order of the search (pattern by pattern, sentence by sentence). *)
Definition same_family (a b : CAI.anchor_type) : bool :=
  match a, b with
  | CAI.boundary_anchors, CAI.boundary_anchors
  | CAI.analogy_anchors, CAI.analogy_anchors
  | CAI.hypothesis_anchors, CAI.hypothesis_anchors => true
  | _, _ => false
  end.

Definition family_patterns (ty : CAI.anchor_type) : list string :=
  match find (fun entry => same_family (fst entry) ty) CAI.anchor_patterns with
  | Some (_, patterns) => patterns
  | None => []
  end.

Definition searched_sentences (t : string) : list string :=
  filter Py.nonempty (map Py.strip (split_sentences (Py.lower t))).

Definition valid_anchor_texts (ty : CAI.anchor_type) (t : string)
  : list string :=
  filter (fun anchor_text => CAI._validate_anchor anchor_text ty)
    (map CAI._clean_anchor_text
       (flat_map
          (fun pattern => flat_map (re_finditer pattern) (searched_sentences t))
          (family_patterns ty))).

Definition valid_anchors (t : string) : nat :=
  (List.length (valid_anchor_texts CAI.boundary_anchors t)
   + List.length (valid_anchor_texts CAI.analogy_anchors t)
   + List.length (valid_anchor_texts CAI.hypothesis_anchors t))%nat.

(** The turn that lines 87-91 append. *)
Definition recorded (h : list History.turn) (p r : string) : History.turn :=
  {| History.user_prompt := p;
     History.ai_response := r;
     History.cps_level := Some (CPS.achieved_level (CPS.analyze p r h)) |}.

End WithEngine.

(** The reply to a request, when there is one. *)
Definition reply_to (h : list History.turn) (p r : string)
  : option App.response_data :=
  match fst (@App.analyze_interaction silent_engine h p r) with
  | App.Success reply => Some reply
  | App.BadRequest _ => None
  end.

End Terms.

(* ================================================================== *)
(** * Sample requests                                                  *)
(* ================================================================== *)

Module Samples.

Definition a_prompt : string := "Summarize this article about climate policy".

Definition for_loop_prompt : string := "What is a for-loop?".

Definition words_21 : string := "a a a a a a a a a a a a a a a a a a a a a".

Definition words_25 : string :=
  "a a a a a a a a a a a a a a a a a a a a a a a a a".

Definition eleven_answered_requests : list (string * string) :=
  [ ("what is a loop", "A loop repeats."); ("show me examples", "Such as for.");
    ("how to apply it", "Step by step."); ("empty response", "");
    ("let's build one", "Shall we start?"); ("what if it fails", "Then retry.");
    ("q6", "a6"); ("q7", "a7"); ("q8", "a8"); ("q9", "a9"); ("q10", "a10");
    ("q11", "a11") ].

Definition level_2_turn (p r : string) : History.turn :=
  {| History.user_prompt := p; History.ai_response := r;
     History.cps_level := Some 2%Z |}.

Definition three_turns_at_level_2 : list History.turn :=
  [ level_2_turn "show me examples" "For instance, a list.";
    level_2_turn "compare them" "Such as these two.";
    level_2_turn "what are some options" "Several ways exist." ].

Definition plain_response : string := "Sounds good to me.".

Definition detailed_list_prompt : string := "give me a detailed list".

End Samples.

(* ================================================================== *)
(** * The interpretation strings of am.py and sas.py                   *)
(* ================================================================== *)

Module Interpretation.

(** The name of an intent, as the f-strings print it. *)
Definition uip_name (u : AM.uip) : string :=
  match u with
  | AM.precision_seeker => "precision_seeker"
  | AM.strategic_explorer => "strategic_explorer"
  | AM.co_creation_partner => "co_creation_partner"
  end.

(** [AMAnalyzer._generate_interpretation]. *)
Definition am_generate_interpretation (am_score : Q) (u : AM.uip) : string :=
  if (115 # 100) <=? am_score then
    "AM: Excellent alignment - AI perfectly matched " ++ uip_name u ++ " intent"
  else if (105 # 100) <=? am_score then
    "AM: Good alignment - AI understood " ++ uip_name u ++ " requirements"
  else if (95 # 100) <=? am_score then
    "AM: Neutral alignment - Basic " ++ uip_name u ++ " understanding"
  else if (85 # 100) <=? am_score then
    "AM: Slight misalignment - Some " ++ uip_name u ++ " style mismatches"
  else
    "AM: Significant misalignment - Poor " ++ uip_name u ++ " style matching".

(** [SASAnalyzer._generate_interpretation]. *)
Definition sas_generate_interpretation (score : Q) : string :=
  if (8 # 10) <=? score then
    "Excellent synchronization - AI perfectly matched your style"
  else if (6 # 10) <=? score then
    "Good synchronization - AI understood your approach"
  else if (4 # 10) <=? score then
    "Moderate synchronization - some style mismatches"
  else if (2 # 10) <=? score then
    "Poor synchronization - significant style differences"
  else "Very poor synchronization - complete style mismatch".

Section WithEngine.
Context {engine : PyRe}.

(** The entry ['interpretation'] of [AMAnalyzer.analyze]: built from the
    multiplier before it is rounded. *)
Definition am_interpretation (user_prompt ai_response : string) : string :=
  let '(detected_uip, _) := AM._detect_uip user_prompt in
  let ai_style := AM._analyze_ai_style ai_response in
  let am_score := AM._calculate_am detected_uip ai_style ai_response in
  am_generate_interpretation am_score detected_uip.

(** The entry ['interpretation'] of [SASAnalyzer.analyze]: built from the
    weighted sum before it is rounded. *)
Definition sas_interpretation (user_prompt ai_response : string) : string :=
  let res := SAS.analyze user_prompt ai_response in
  let sas_score :=
    SAS.style_sync res * SAS.w_style_sync
    + SAS.goal_sync res * SAS.w_goal_sync
    + SAS.expectation_sync res * SAS.w_expectation_sync
    + SAS.depth_sync res * SAS.w_depth_sync in
  sas_generate_interpretation sas_score.

End WithEngine.

End Interpretation.

(* ================================================================== *)
(** * app.py: the feedback records                                     *)
(* ================================================================== *)

Module Feedback.

(** Python's [s[:n]]. *)
Definition take (n : nat) (s : string) : string := substring 0 n s.

Section WithResults.

(** The JSON value under ['analysis_results'], and the empty dict. *)
Variable results : Type.
Variable empty_results : results.

(** The body of a feedback request; a key may be missing. *)
Record request := {
  req_user_prompt : option string;
  req_ai_response : option string;
  req_analysis_results : option results;
  req_user_rating : option string;
  req_user_comments : option string;
  req_user_email : option string
}.

(** [data.get(key, default)]. *)
Definition get {A} (field : option A) (default : A) : A :=
  match field with Some v => v | None => default end.

Record interaction_data := {
  user_prompt : string;
  ai_response : string;
  analysis_results : results
}.

(** [feedback_data], without its timestamp. *)
Record feedback_data := {
  user_rating : string;
  user_comments : string;
  user_email : string;
  interaction : interaction_data
}.

(** The record that [submit_feedback] hands to [save_feedback_to_file]. *)
Definition submit_feedback (data : request) : feedback_data :=
  let user_prompt := get (req_user_prompt data) "" in
  let ai_response := get (req_ai_response data) "" in
  let analysis_results := get (req_analysis_results data) empty_results in
  let user_rating := get (req_user_rating data) "" in
  let user_comments := get (req_user_comments data) "" in
  let user_email := get (req_user_email data) "anonymous@example.com" in
  {| user_rating := user_rating;
     user_comments := user_comments;
     user_email := user_email;
     interaction := {| user_prompt := take 500 user_prompt;
                       ai_response := take 1000 ai_response;
                       analysis_results := analysis_results |} |}.

(** The record that [download_feedback] returns. *)
Definition download_feedback (data : request) : feedback_data :=
  {| user_rating := get (req_user_rating data) "";
     user_comments := get (req_user_comments data) "";
     user_email := get (req_user_email data) "";
     interaction :=
       {| user_prompt := take 500 (get (req_user_prompt data) "");
          ai_response := take 1000 (get (req_ai_response data) "");
          analysis_results := get (req_analysis_results data) empty_results |} |}.

End WithResults.

End Feedback.

(* ================================================================== *)
(** * Further vocabulary and samples                                   *)
(* ================================================================== *)

Module MoreTerms.

(** [n] words separated by single spaces. *)
Fixpoint words (n : nat) : string :=
  match n with
  | O => EmptyString
  | S O => "a"
  | S k => "a " ++ words k
  end.

(** The response lengths, in words, that [_calculate_depth_sync] rewards
    for a prompt of [prompt_words] words: the window of score 0.9 and the
    wider window of score 0.7. *)
Definition depth_windows (prompt_words : nat) : (nat * nat) * (nat * nat) :=
  if (prompt_words <? 10)%nat then ((35, 65), (20, 80))%nat
  else if (prompt_words <? 30)%nat then ((70, 130), (40, 160))%nat
  else ((140, 260), (80, 320))%nat.

Definition within (window : nat * nat) (n : nat) : bool :=
  (fst window <=? n)%nat && (n <=? snd window)%nat.

(** The weighted score that [_detect_user_level] gives to a level. *)
Definition score_at (scores : list (Z * Q)) (level : Z) : Q :=
  match find (fun '(l, _) => (l =? level)%Z) scores with
  | Some (_, s) => s
  | None => 0
  end.

(** The user keywords of a level, the number of them found in a prompt and
    the weight of the level: that number times 1 + 0.1 level. *)
Definition user_keywords_at (level : Z) : list string :=
  match CPS.lookup_level level with
  | Some level_data => CPS.user_keywords level_data
  | None => []
  end.

Definition user_keyword_count (level : Z) (prompt : string) : nat :=
  List.length (filter (fun keyword => search_word keyword (Py.lower prompt))
                      (user_keywords_at level)).

Definition level_weight (level : Z) (prompt : string) : Q :=
  Qn (user_keyword_count level prompt) * (1 + inject_Z level * (1 # 10)).

(** The keywords of an intent and the number of them that [_detect_uip]
    finds in a prompt; the position of an intent in [uip_patterns]. *)
Definition keywords_of (u : AM.uip) : list string :=
  match find (fun '(v, _) => AM.uip_eqb v u) AM.uip_patterns with
  | Some (_, d) => AM.keywords d
  | None => []
  end.

Definition uip_count (u : AM.uip) (prompt : string) : nat :=
  List.length (filter (fun keyword => search_word keyword (Py.lower prompt))
                      (keywords_of u)).

Definition uip_rank (u : AM.uip) : nat :=
  match u with
  | AM.precision_seeker => 0
  | AM.strategic_explorer => 1
  | AM.co_creation_partner => 2
  end.

(** The score of the style "concise": 0.5 up to 150 words, else 0. *)
Definition concise_score (response : string) : Q :=
  pymin (if (Py.word_count response <=? 150)%nat then 0 + (5 # 10) else 0) 1.

Section WithEngine.
Context {engine : PyRe}.

(** The number of matches that [_analyze_user_style] finds for a style
    family in a text, all patterns of the family together. *)
Definition style_matches (patterns : list string) (text : string) : nat :=
  list_sum
    (map (fun pattern => re_findall IGNORECASE pattern (Py.lower text))
         patterns).

(** Prompt and response match every style pattern equally often. *)
Definition same_style_counts (prompt response : string) : Prop :=
  Forall
    (fun pattern =>
       re_findall IGNORECASE pattern (Py.lower prompt)
       = re_findall IGNORECASE pattern (Py.lower response))
    (flat_map snd SAS.style_patterns).

End WithEngine.

(** A text in which the pattern "data" of the family data_driven matches
    four times, and one that uses the word as often. *)
Definition four_data_prompt : string := "data data data data".
Definition four_data_response : string := "data, data, data and data".

(** What a validated anchor text satisfies. *)
Definition meets_minimum (anchor_text : string) (ty : CAI.anchor_type) : Prop :=
  (1 <= Py.word_count anchor_text)%nat
  /\ anchor_text <> ""
  /\ Py.any_present CAI.banned_vague_terms anchor_text = false
  /\ match ty with
     | CAI.boundary_anchors => True
     | CAI.analogy_anchors =>
         existsb (fun w => (2 <? Py.len w)%nat) (Py.split anchor_text) = true
     | CAI.hypothesis_anchors => (2 <= Py.word_count anchor_text)%nat
     end.

End MoreTerms.

(* ================================================================== *)
(** * Facts about the numeric primitives                               *)
(* ================================================================== *)

Module NumFacts.

Lemma Qleb_true a b : (a <=? b) = true -> a <= b.
Proof. unfold Qleb. apply Qle_bool_imp_le. Qed.

Lemma Qleb_false a b : (a <=? b) = false -> b < a.
Proof.
  unfold Qleb. intros H. apply Qnot_le_lt. intros Hle.
  apply Qle_bool_iff in Hle. congruence.
Qed.

Lemma Qltb_true a b : (a <? b) = true -> a < b.
Proof.
  unfold Qltb. intros H. apply negb_true_iff in H. now apply Qleb_false.
Qed.

Lemma Qltb_false a b : (a <? b) = false -> b <= a.
Proof.
  unfold Qltb. intros H. apply negb_false_iff in H. now apply Qleb_true.
Qed.

Lemma Qn_nonneg n : 0 <= Qn n.
Proof.
  unfold Qn. change 0 with (inject_Z 0). rewrite <- Zle_Qle. lia.
Qed.

Lemma Qn_le n m : (n <= m)%nat -> Qn n <= Qn m.
Proof. intros H. unfold Qn. rewrite <- Zle_Qle. lia. Qed.

Lemma Qn_lt n m : (n < m)%nat -> Qn n < Qn m.
Proof. intros H. unfold Qn. rewrite <- Zlt_Qlt. lia. Qed.

Lemma Qn_pos n : (0 < n)%nat -> 0 < Qn n.
Proof. intros H. change 0 with (Qn 0). now apply Qn_lt. Qed.

(** [lra] does not read a division; a division by a literal is turned
    into the product with its inverse. *)
Ltac qdiv_consts :=
  repeat match goal with
  | |- context [?a / (?n # ?d)] =>
      let c := eval compute in (/ (n # d)) in
      change (a / (n # d)) with (a * c)
  | H : context [?a / (?n # ?d)] |- _ =>
      let c := eval compute in (/ (n # d)) in
      change (a / (n # d)) with (a * c) in H
  end.

Ltac qlra := qdiv_consts; lra.

(** A quotient of non-negative numbers is non-negative. *)
Lemma Qdiv_nonneg a b : 0 <= a -> 0 <= b -> 0 <= a / b.
Proof.
  intros Ha Hb. unfold Qdiv. apply Qmult_le_0_compat; [assumption|].
  apply Qinv_le_0_compat. assumption.
Qed.

(** ** Rounding *)

Lemma round_half_even_spec q :
  inject_Z (round_half_even q) - (1 # 2) <= q
  /\ q <= inject_Z (round_half_even q) + (1 # 2).
Proof.
  destruct q as [n d]. unfold round_half_even. cbn [Qnum Qden].
  pose proof (Z.div_mod n (Zpos d) ltac:(lia)) as Hdm.
  pose proof (Z.mod_pos_bound n (Zpos d) ltac:(lia)) as Hr.
  set (f := (n / Zpos d)%Z) in *. set (r := (n mod Zpos d)%Z) in *.
  assert (Hcases :
    forall k, (k = f /\ 2 * r <= Zpos d \/ k = f + 1 /\ Zpos d <= 2 * r)%Z ->
    inject_Z k - (1 # 2) <= n # d /\ n # d <= inject_Z k + (1 # 2)).
  { intros k Hk. unfold Qle, Qminus, Qplus, Qopp, inject_Z. cbn.
    destruct Hk as [[-> H]|[-> H]]; split; nia. }
  destruct (Z.compare_spec (2 * r) (Zpos d)) as [H|H|H].
  - destruct (Z.even f); apply Hcases; lia.
  - apply Hcases; lia.
  - apply Hcases; lia.
Qed.

(** On an exact tie the even neighbour is chosen. *)
Lemma round_half_even_tie q :
  q == inject_Z (round_half_even q) + (1 # 2)
  \/ q == inject_Z (round_half_even q) - (1 # 2) ->
  Z.even (round_half_even q) = true.
Proof.
  destruct q as [n d]. unfold round_half_even. cbn [Qnum Qden].
  pose proof (Z.div_mod n (Zpos d) ltac:(lia)) as Hdm.
  pose proof (Z.mod_pos_bound n (Zpos d) ltac:(lia)) as Hr.
  set (f := (n / Zpos d)%Z) in *. set (r := (n mod Zpos d)%Z) in *.
  destruct (Z.compare_spec (2 * r) (Zpos d)) as [H|H|H].
  - destruct (Z.even f) eqn:Hev; [intros _; exact Hev|].
    intros _. rewrite Z.even_add, Hev. reflexivity.
  - unfold Qeq, Qminus, Qplus, Qopp, inject_Z. cbn.
    intros [Ht|Ht]; exfalso; nia.
  - unfold Qeq, Qminus, Qplus, Qopp, inject_Z. cbn.
    intros [Ht|Ht]; exfalso; nia.
Qed.

Lemma round_half_even_mono q1 q2 :
  q1 <= q2 -> (round_half_even q1 <= round_half_even q2)%Z.
Proof.
  intros Hle.
  destruct (round_half_even_spec q1) as [L1 U1].
  destruct (round_half_even_spec q2) as [L2 U2].
  pose proof (round_half_even_tie q1) as T1.
  pose proof (round_half_even_tie q2) as T2.
  set (k1 := round_half_even q1) in *. set (k2 := round_half_even q2) in *.
  destruct (Z_le_gt_dec k1 k2) as [|Hgt]; [assumption|exfalso].
  assert (Hk : inject_Z k2 + 1 <= inject_Z k1).
  { change 1 with (inject_Z 1). rewrite <- inject_Z_plus, <- Zle_Qle. lia. }
  assert (E1 : q1 == inject_Z k1 - (1 # 2)) by lra.
  assert (E2 : q2 == inject_Z k2 + (1 # 2)) by lra.
  assert (Hk' : inject_Z k1 <= inject_Z k2 + 1) by lra.
  change 1 with (inject_Z 1) in Hk'.
  rewrite <- inject_Z_plus, <- Zle_Qle in Hk'.
  assert (k1 = k2 + 1)%Z by lia.
  specialize (T1 (or_intror E1)). specialize (T2 (or_introl E2)).
  subst k1. rewrite H, Z.even_add, T2 in T1. discriminate.
Qed.

Lemma round_half_even_int n : round_half_even (inject_Z n) = n.
Proof.
  unfold round_half_even, inject_Z. cbn [Qnum Qden].
  rewrite Z.mod_1_r, Z.div_1_r. reflexivity.
Qed.

Lemma round3_mono q1 q2 : q1 <= q2 -> round3 q1 <= round3 q2.
Proof.
  intros H. unfold round3.
  assert (Hm : (round_half_even (q1 * 1000) <= round_half_even (q2 * 1000))%Z).
  { apply round_half_even_mono. lra. }
  rewrite Zle_Qle in Hm. unfold Qdiv.
  apply Qmult_le_compat_r; [assumption | discriminate].
Qed.

Lemma round3_compat q1 q2 : q1 == q2 -> round3 q1 == round3 q2.
Proof.
  intros H. apply Qle_antisym; apply round3_mono; lra.
Qed.

(** A number with at most three decimals is left as it is. *)
Lemma round3_fix n : round3 (inject_Z n / 1000) == inject_Z n / 1000.
Proof.
  assert (Hq : inject_Z n / 1000 * 1000 == inject_Z n) by field.
  unfold round3.
  assert (Hm : round_half_even (inject_Z n / 1000 * 1000) = n).
  { apply Z.le_antisymm.
    - rewrite <- (round_half_even_int n) at 2.
      apply round_half_even_mono. rewrite Hq. apply Qle_refl.
    - rewrite <- (round_half_even_int n) at 1.
      apply round_half_even_mono. rewrite Hq. apply Qle_refl. }
  rewrite Hm. reflexivity.
Qed.

Lemma round3_ge n q : inject_Z n / 1000 <= q -> inject_Z n / 1000 <= round3 q.
Proof.
  intros H. rewrite <- (round3_fix n). now apply round3_mono.
Qed.

Lemma round3_le n q : q <= inject_Z n / 1000 -> round3 q <= inject_Z n / 1000.
Proof.
  intros H. rewrite <- (round3_fix n). now apply round3_mono.
Qed.

Lemma round3_range lo hi q :
  inject_Z lo / 1000 <= q <= inject_Z hi / 1000 ->
  inject_Z lo / 1000 <= round3 q <= inject_Z hi / 1000.
Proof. intros [H1 H2]. split; [now apply round3_ge | now apply round3_le]. Qed.

Lemma round3_between lo hi nlo nhi q :
  lo == inject_Z nlo / 1000 -> hi == inject_Z nhi / 1000 ->
  lo <= q <= hi -> lo <= round3 q <= hi.
Proof.
  intros Elo Ehi [H1 H2]. rewrite Elo, Ehi in *.
  apply round3_range. now split.
Qed.

(** The rounded value is within half a thousandth of the exact one. *)
Lemma round3_error q :
  q - (1 # 2000) <= round3 q /\ round3 q <= q + (1 # 2000).
Proof.
  unfold round3. destruct (round_half_even_spec (q * 1000)) as [L U].
  split; qlra.
Qed.

(** [round3] returns a number of three decimals nearest to its argument,
    and so for every number equal to its argument. *)
Lemma round3_is_rounded x q : x == q -> Terms.rounded_to_3 x (round3 q).
Proof.
  intros E. split.
  - exists (round_half_even (q * 1000)). reflexivity.
  - destruct (round3_error q) as [L U]. split; lra.
Qed.

End NumFacts.

(* ================================================================== *)
(** * Ranges of the analyzers                                          *)
(* ================================================================== *)

Module Ranges.
Import NumFacts Terms.

Ltac qcases :=
  repeat match goal with
  | |- context [Qltb ?a ?b] =>
      let H := fresh "Hc" in
      destruct (Qltb a b) eqn:H;
      [apply Qltb_true in H | apply Qltb_false in H]
  | |- context [Qleb ?a ?b] =>
      let H := fresh "Hc" in
      destruct (Qleb a b) eqn:H;
      [apply Qleb_true in H | apply Qleb_false in H]
  end.

Ltac note_Qn :=
  repeat match goal with
  | |- context [Qn ?n] =>
      lazymatch goal with
      | _ : 0 <= Qn n |- _ => fail
      | _ => pose proof (Qn_nonneg n)
      end
  end.

Ltac natcases :=
  repeat match goal with
  | |- context [Nat.ltb ?a ?b] => destruct (Nat.ltb_spec a b)
  | |- context [Nat.leb ?a ?b] => destruct (Nat.leb_spec a b)
  | |- context [Nat.eqb ?a ?b] => destruct (Nat.eqb_spec a b)
  end.

(** Scores built from [min], [max], comparisons and counts. *)
Ltac qrange :=
  unfold unit_interval, pymin, pymax; note_Qn; qcases;
  cbn [andb orb negb]; try split; qlra.

Lemma pymin_le_r a b : pymin a b <= b.
Proof. unfold pymin. qcases; lra. Qed.

Lemma pymin_le_l a b : pymin a b <= a.
Proof. unfold pymin. qcases; lra. Qed.

Lemma pymin_ge a b c : c <= a -> c <= b -> c <= pymin a b.
Proof. unfold pymin. qcases; lra. Qed.

(** ** IAI *)

Lemma iai_context_range p : unit_interval (IAI._score_context_completeness p).
Proof. unfold IAI._score_context_completeness. qrange. Qed.

Lemma iai_specificity_range p n : unit_interval (IAI._score_specificity p n).
Proof. unfold IAI._score_specificity. qrange. Qed.

Lemma iai_language_range p s n : unit_interval (IAI._score_language_quality p s n).
Proof.
  unfold IAI._score_language_quality.
  destruct (n =? 0)%nat; [unfold unit_interval; lra|].
  generalize (Qn n / Qn (Nat.max s 1)). intros avg. qrange.
Qed.

Lemma iai_structure_range p : unit_interval (IAI._score_structure p).
Proof.
  unfold IAI._score_structure. destruct (Py.contains "?" p); qrange.
Qed.

Lemma iai_sufficiency_range n : unit_interval (IAI._score_sufficiency n).
Proof.
  unfold IAI._score_sufficiency, IAI.optimal_word_count.
  change (Qn 20) with 20. change (Qn 150) with 150.
  change (150 - 20) with 130.
  natcases; unfold unit_interval.
  - lra.
  - pose proof (Qn_lt _ _ H0) as Hlt. change (Qn 20) with 20 in Hlt.
    note_Qn. split; qlra.
  - pose proof (Qn_le _ _ H0) as Hge. change (Qn 20) with 20 in Hge.
    pose proof (Qn_le _ _ H1) as Hle. change (Qn 150) with 150 in Hle.
    split; qlra.
  - lra.
Qed.

Lemma iai_tone_range p : unit_interval (IAI._score_tone p).
Proof. unfold IAI._score_tone. qrange. Qed.

Lemma iai_range p : unit_interval (IAI.iai_score (IAI.analyze p)).
Proof.
  unfold IAI.analyze. cbn [IAI.iai_score IAI.context_completeness
    IAI.specificity_level IAI.language_quality IAI.structure_quality
    IAI.information_sufficiency IAI.tone_sentiment].
  pose proof (iai_context_range p) as [? ?].
  pose proof (iai_specificity_range p (Py.word_count p)) as [? ?].
  pose proof (iai_language_range p
    (List.length (filter (fun s => Py.nonempty (Py.strip s)) (split_sentences p)))
    (Py.word_count p)) as [? ?].
  pose proof (iai_structure_range p) as [? ?].
  pose proof (iai_sufficiency_range (Py.word_count p)) as [? ?].
  pose proof (iai_tone_range p) as [? ?].
  unfold IAI.w_context_completeness, IAI.w_specificity_level,
    IAI.w_language_quality, IAI.w_structure_quality,
    IAI.w_information_sufficiency, IAI.w_tone_sentiment.
  unfold unit_interval, pymin. qcases; split; lra.
Qed.

(** ** The first-maximum search returns one of the items *)

Lemma max_item_in {K V} (lt : V -> V -> bool) items :
  forall best : K * V,
    PyMax.max_item lt best items = best \/ In (PyMax.max_item lt best items) items.
Proof.
  induction items as [|x rest IH]; intros best; cbn; [now left|].
  destruct (IH (if lt (snd best) (snd x) then x else best)) as [E|Hin].
  - rewrite E. destruct (lt (snd best) (snd x)); [right; now left | now left].
  - right. now right.
Qed.

Lemma max_by_value_in {K V} (lt : V -> V -> bool) (items : list (K * V)) kv :
  PyMax.max_by_value lt items = Some kv -> In kv items.
Proof.
  destruct items as [|x rest]; cbn; [discriminate|].
  intros [= <-]. destruct (max_item_in lt rest x) as [E|Hin].
  - rewrite E. now left.
  - now right.
Qed.

(** ** CPS *)

Lemma detect_user_level_range p : is_level (CPS._detect_user_level p).
Proof.
  unfold CPS._detect_user_level.
  destruct (PyMax.max_by_value Qltb (CPS.user_level_scores p)) as [[l v]|] eqn:E;
    [|unfold is_level; lia].
  apply max_by_value_in in E. unfold CPS.user_level_scores, CPS.levels in E.
  cbn [map In] in E. unfold is_level.
  repeat (destruct E as [E|E]; [inversion E; lia|]). contradiction.
Qed.

Lemma detect_ai_level_range r : is_level (CPS._detect_ai_level r).
Proof.
  unfold CPS._detect_ai_level.
  destruct (PyMax.max_by_value Nat.ltb (CPS.ai_level_scores r)) as [[l v]|] eqn:E;
    [|unfold is_level; lia].
  apply max_by_value_in in E. unfold CPS.ai_level_scores, CPS.levels in E.
  cbn [map In] in E. unfold is_level.
  repeat (destruct E as [E|E]; [inversion E; lia|]). contradiction.
Qed.

Lemma determine_achieved_level_range u a h :
  is_level u -> is_level (CPS._determine_achieved_level u a h).
Proof.
  unfold is_level, CPS._determine_achieved_level. intros Hu.
  destruct h as [|t h']; [lia|].
  destruct (_ <? _)%Z; lia.
Qed.

Lemma level_score_range l : is_level l -> (1 # 5) <= round3 (inject_Z l / 5) <= 1.
Proof.
  unfold is_level. intros [Hlo Hhi].
  rewrite Zle_Qle in Hlo, Hhi.
  apply (round3_between _ _ 200 1000); [reflexivity | reflexivity |].
  change (inject_Z 1) with 1 in Hlo. change (inject_Z 5) with 5 in Hhi.
  generalize dependent (inject_Z l). intros x Hlo Hhi. split; qlra.
Qed.

Lemma cps_range p r h : (1 # 5) <= CPS.cps_score (CPS.analyze p r h) <= 1.
Proof.
  unfold CPS.analyze. cbn [CPS.cps_score].
  apply level_score_range, determine_achieved_level_range,
    detect_user_level_range.
Qed.

(** ** CSS *)

Lemma css_level_range s c x : is_level (CSS._determine_css_level s c x).
Proof.
  unfold CSS._determine_css_level, is_level. qcases; lia.
Qed.

(** ** Rounding keeps a score inside the unit interval *)

Lemma round3_unit x : unit_interval x -> unit_interval (round3 x).
Proof.
  unfold unit_interval. intros H.
  apply (round3_between _ _ 0 1000); [reflexivity | reflexivity | exact H].
Qed.

Lemma unit_of_level_score x : (1 # 5) <= x <= 1 -> unit_interval x.
Proof. unfold unit_interval. lra. Qed.

Lemma unit_interval_half : unit_interval (5 # 10).
Proof. unfold unit_interval. lra. Qed.

(** ** PAS, without the engine *)

Lemma pas_collaboration_range t : unit_interval (PAS._analyze_collaboration t).
Proof.
  unfold PAS._analyze_collaboration. natcases; unfold unit_interval; lra.
Qed.

Lemma pas_rhythm_range t : unit_interval (PAS._analyze_rhythm t).
Proof.
  unfold PAS._analyze_rhythm.
  destruct (3 <=? List.length (split_sentences t))%nat; [|qrange].
  destruct (map _ _) as [|x rest]; [qrange|].
  destruct (_ && _); qrange.
Qed.

(** ** SAS, without the engine *)

Lemma sas_goal_range p r : unit_interval (SAS._calculate_goal_sync p r).
Proof.
  unfold SAS._calculate_goal_sync.
  destruct (negb _); [unfold unit_interval; lra|].
  destruct (Py.any_present _ _); unfold unit_interval; lra.
Qed.

Lemma sas_expectation_range p r : unit_interval (SAS._calculate_expectation_sync p r).
Proof.
  unfold SAS._calculate_expectation_sync.
  destruct (0 <? _)%nat; [qrange | unfold unit_interval; lra].
Qed.

Lemma sas_depth_range p r : unit_interval (SAS._calculate_depth_sync p r).
Proof.
  unfold SAS._calculate_depth_sync.
  repeat (destruct (_ && _)); unfold unit_interval; lra.
Qed.

Lemma item_unit d k : unit_values d -> unit_interval (SAS.item d k).
Proof.
  intros Hd. unfold SAS.item.
  destruct (find _ d) as [[k' v]|] eqn:E; [|unfold unit_interval; lra].
  apply find_some in E. destruct E as [Hin _].
  unfold unit_values in Hd. rewrite Forall_forall in Hd.
  exact (Hd _ Hin).
Qed.

Lemma similarity_nonneg ai us :
  unit_values ai -> unit_values us ->
  forall acc, 0 <= acc ->
    0 <= fold_left
           (fun acc '(style, user_value) =>
              let similarity := 1 - SAS.pyabs (user_value - SAS.item ai style) in
              acc + similarity * (2 # 10))
           us acc.
Proof.
  intros Hai Hus. induction Hus as [|[k v] us Hv _ IH]; intros acc Hacc; cbn;
    [assumption|].
  apply IH. cbn in Hv. pose proof (item_unit ai k Hai) as Hi.
  unfold unit_interval in *. unfold SAS.pyabs. qcases; lra.
Qed.

Lemma sas_style_sync_range us ai :
  unit_values us -> unit_values ai ->
  unit_interval (SAS._calculate_style_sync us ai).
Proof.
  intros Hus Hai. unfold SAS._calculate_style_sync.
  destruct (PyMax.max_by_value Qltb us) as [ud|]; [|unfold unit_interval; lra].
  destruct (PyMax.max_by_value Qltb ai) as [ad|]; [|unfold unit_interval; lra].
  pose proof (similarity_nonneg ai us Hai Hus 0 ltac:(lra)) as Hsim.
  cbv zeta. set (sim := fold_left _ us 0) in *. clearbody sim.
  destruct (String.eqb _ _ && _); unfold unit_interval, pymin; qcases; split; lra.
Qed.

Section WithEngine.
Context {engine : PyRe}.

(** ** CAI *)

Lemma cai_range t : unit_interval (CAI.cai_score (CAI.analyze t)).
Proof.
  unfold CAI.analyze. cbn [CAI.cai_score].
  natcases; unfold unit_interval; lra.
Qed.

(** ** PAS *)

Lemma pas_chunking_range t : unit_interval (PAS._analyze_chunking t).
Proof.
  unfold PAS._analyze_chunking. destruct (has_paragraph_break t); qrange.
Qed.

Lemma pas_structure_range t : unit_interval (PAS._analyze_structure t).
Proof.
  unfold PAS._analyze_structure.
  destruct (existsb _ _); destruct (Py.any_present _ _); natcases; qrange.
Qed.

Lemma pas_range t : unit_interval (PAS.pas_score (PAS.analyze t)).
Proof.
  unfold PAS.analyze. cbn [PAS.pas_score]. apply round3_unit.
  pose proof (pas_chunking_range t) as [? ?].
  pose proof (pas_structure_range t) as [? ?].
  pose proof (pas_collaboration_range t) as [? ?].
  pose proof (pas_rhythm_range t) as [? ?].
  unfold PAS.w_chunking, PAS.w_structure, PAS.w_collaboration, PAS.w_rhythm.
  unfold unit_interval. split; lra.
Qed.

(** ** SAS *)

Lemma style_fold_nonneg text patterns :
  forall acc, 0 <= acc ->
    0 <= fold_left
           (fun score pattern =>
              let matches := re_findall IGNORECASE pattern text in
              score + Qn matches * (1 # 10))
           patterns acc.
Proof.
  induction patterns as [|pat rest IH]; intros acc Hacc; cbn; [assumption|].
  apply IH. pose proof (Qn_nonneg (re_findall IGNORECASE pat text)). lra.
Qed.

Lemma sas_style_unit p : unit_values (SAS._analyze_user_style p).
Proof.
  unfold SAS._analyze_user_style, unit_values.
  apply Forall_forall. intros [k v] Hin. apply in_map_iff in Hin.
  destruct Hin as [[name pats] [E _]]. inversion E; subst. cbn [snd].
  pose proof (style_fold_nonneg (Py.lower p) pats 0 ltac:(lra)) as H.
  set (x := fold_left _ pats 0) in *. clearbody x.
  unfold unit_interval, pymin. qcases; split; lra.
Qed.

Lemma sas_range p r : unit_interval (SAS.sas_score (SAS.analyze p r)).
Proof.
  unfold SAS.analyze. cbn [SAS.sas_score]. apply round3_unit.
  pose proof (sas_style_sync_range _ _ (sas_style_unit p) (sas_style_unit r))
    as [? ?].
  pose proof (sas_goal_range p r) as [? ?].
  pose proof (sas_expectation_range p r) as [? ?].
  pose proof (sas_depth_range p r) as [? ?].
  unfold SAS._analyze_ai_style.
  unfold SAS.w_style_sync, SAS.w_goal_sync, SAS.w_expectation_sync,
    SAS.w_depth_sync.
  unfold unit_interval. split; lra.
Qed.

(** ** CSS *)

Lemma css_range p r d : (1 # 5) <= CSS.css_score (CSS.analyze p r d) <= 1.
Proof.
  unfold CSS.analyze. cbn [CSS.css_score].
  apply level_score_range, css_level_range.
Qed.

(** ** AM *)

Lemma am_calculate_range u st r :
  (8 # 10) <= AM._calculate_am u st r <= (12 # 10).
Proof.
  unfold AM._calculate_am. cbv zeta.
  generalize (AM.style_match_score u st). intros m.
  destruct (AM.uip_eqb u AM.precision_seeker && _);
    destruct (AM.uip_eqb u AM.co_creation_partner && _);
    unfold pymax, pymin; qcases; split; lra.
Qed.

Lemma am_range p r : (8 # 10) <= AM.am_score (AM.analyze p r) <= (12 # 10).
Proof.
  unfold AM.analyze. destruct (AM._detect_uip p) as [u c].
  cbn [AM.am_score].
  apply (round3_between _ _ 800 1200); [reflexivity | reflexivity |].
  apply am_calculate_range.
Qed.

Lemma am_confidence_range p : unit_interval (snd (AM._detect_uip p)).
Proof.
  unfold AM._detect_uip.
  destruct (fold_left _ _ _) as [u n]. cbn [snd]. qrange.
Qed.

End WithEngine.

End Ranges.

(* ================================================================== *)
(** * The aggregation: [analyze_interaction]                           *)
(* ================================================================== *)

Module Aggregation.
Import NumFacts Ranges Terms Samples.

Section WithEngine.
Context {engine : PyRe}.

Lemma nonempty_true s : s <> "" -> Py.nonempty s = true.
Proof. destruct s; [congruence | reflexivity]. Qed.

Lemma analyze_interaction_success h p r :
  p <> "" ->
  App.analyze_interaction h p r
  = (App.Success (App.build_response (App.run_analyzers h p r)),
     App.history_after (App.run_analyzers h p r)).
Proof.
  intros Hp. unfold App.analyze_interaction.
  rewrite (nonempty_true p Hp). reflexivity.
Qed.

Lemma run_with_response h p r :
  p <> "" -> r <> "" ->
  App.run_analyzers h p r = locals_with_response h p r.
Proof.
  intros Hp Hr. unfold App.run_analyzers.
  rewrite (nonempty_true p Hp), (nonempty_true r Hr). reflexivity.
Qed.

Lemma run_without_response h p :
  App.run_analyzers h p "" = locals_without_response h p.
Proof. reflexivity. Qed.

Lemma response_cases (r : string) : r = "" \/ r <> "".
Proof. destruct r; [now left | right; discriminate]. Qed.

(** Every local score is in its range, whichever branch set it. *)
Lemma locals_ranges h p r :
  p <> "" ->
  let v := App.run_analyzers h p r in
  unit_interval (IAI.iai_score (App.iai_result v))
  /\ unit_interval (App.cai_score v)
  /\ unit_interval (App.pas_score v)
  /\ unit_interval (App.sas_score v)
  /\ unit_interval (App.cps_score v)
  /\ unit_interval (App.css_score v)
  /\ (8 # 10) <= App.am_score v <= (12 # 10).
Proof.
  intros Hp. cbv zeta. destruct (response_cases r) as [->|Hr].
  - rewrite run_without_response. unfold locals_without_response.
    cbn [App.iai_result App.cai_score App.pas_score App.sas_score
         App.cps_score App.css_score App.am_score].
    repeat split; try apply iai_range; lra.
  - rewrite (run_with_response h p r Hp Hr). unfold locals_with_response.
    cbn [App.iai_result App.cai_score App.pas_score App.sas_score
         App.cps_score App.css_score App.am_score].
    split; [apply iai_range|]. split; [apply cai_range|].
    split; [apply pas_range|]. split; [apply sas_range|].
    split; [apply unit_of_level_score, cps_range|].
    split; [apply unit_of_level_score, css_range|].
    apply am_range.
Qed.

Lemma ri_score_weighted a b c d e f m :
  App.ri_score a b c d e f m == weighted a b c d e f m.
Proof. unfold App.ri_score, weighted. ring. Qed.

(** The weighted sum of six scores of the unit interval, times a
    multiplier of [0.8, 1.2], lies in [0, 1.2]. *)
Lemma ri_score_range a b c d e f m :
  unit_interval a -> unit_interval b -> unit_interval c ->
  unit_interval d -> unit_interval e -> unit_interval f ->
  (8 # 10) <= m <= (12 # 10) ->
  0 <= App.ri_score a b c d e f m <= (12 # 10).
Proof.
  unfold unit_interval, App.ri_score.
  intros [? ?] [? ?] [? ?] [? ?] [? ?] [? ?] [? ?].
  set (S := a * (25 # 100) + b * (20 # 100) + c * (20 # 100)
            + d * (15 # 100) + e * (10 # 100) + f * (10 # 100)).
  assert (HS : 0 <= S <= 1) by (unfold S; split; lra).
  clearbody S. destruct HS as [HS0 HS1]. split.
  - apply Qmult_le_0_compat; lra.
  - apply Qle_trans with (1 * m); [|lra].
    apply Qmult_le_compat_r; lra.
Qed.

(** C2: for every non-empty prompt and every response (present or not)
    the request succeeds, each of the six dimension scores lies in [0,1],
    as the analyzers return it and as the reply reports it, the alignment
    multiplier lies in [0.8,1.2] and the resonance index lies in
    [0,1.2]. *)
Theorem scores_within_ranges h p r :
  p <> "" ->
  exists reply h',
    App.analyze_interaction h p r = (App.Success reply, h')
    /\ unit_interval (App.iai (App.scores reply))
    /\ unit_interval (App.cai (App.scores reply))
    /\ unit_interval (App.pas (App.scores reply))
    /\ unit_interval (App.sas (App.scores reply))
    /\ unit_interval (App.cps (App.scores reply))
    /\ unit_interval (App.css (App.scores reply))
    /\ (8 # 10) <= App.alignment_modulator reply <= (12 # 10)
    /\ 0 <= App.resonance_index reply <= (12 # 10)
    /\ (let v := App.run_analyzers h p r in
        unit_interval (IAI.iai_score (App.iai_result v))
        /\ unit_interval (App.cai_score v)
        /\ unit_interval (App.pas_score v)
        /\ unit_interval (App.sas_score v)
        /\ unit_interval (App.cps_score v)
        /\ unit_interval (App.css_score v)).
Proof.
  intros Hp. eexists. eexists.
  split; [apply analyze_interaction_success; exact Hp|].
  destruct (locals_ranges h p r Hp) as (Hi & Hc & Hpa & Hs & Hcp & Hcs & Ham).
  unfold App.build_response.
  cbn [App.scores App.iai App.cai App.pas App.sas App.cps App.css
       App.alignment_modulator App.resonance_index].
  repeat (split; [now apply round3_unit|]).
  split; [exact Ham|]. split.
  - apply (round3_between _ _ 0 1200); [reflexivity | reflexivity |].
    now apply ri_score_range.
  - exact (conj Hi (conj Hc (conj Hpa (conj Hs (conj Hcp Hcs))))).
Qed.

(** C1, as the code has it: for every analyzed exchange the reported
    resonance index is the weighted sum
    (0.25 IAI + 0.20 CAI + 0.20 PAS + 0.15 SAS + 0.10 CPS + 0.10 CSS) AM
    of the analyzers' scores rounded to three decimals: a number of three
    decimals within 0.0005 of the sum; the reported multiplier is the
    analyzer's, and the six weights sum to one. *)
Theorem resonance_index_is_rounded_weighted_sum h p r :
  p <> "" ->
  exists reply h',
    App.analyze_interaction h p r = (App.Success reply, h')
    /\ let v := App.run_analyzers h p r in
       let exact :=
         weighted (IAI.iai_score (App.iai_result v)) (App.cai_score v)
                  (App.pas_score v) (App.sas_score v) (App.cps_score v)
                  (App.css_score v) (App.am_score v) in
       rounded_to_3 exact (App.resonance_index reply)
       /\ App.alignment_modulator reply == App.am_score v
       /\ (forall s m, App.ri_score s s s s s s m == s * m).
Proof.
  intros Hp. eexists. eexists.
  split; [apply analyze_interaction_success; exact Hp|].
  cbv zeta. unfold App.build_response.
  cbn [App.resonance_index App.alignment_modulator].
  set (v := App.run_analyzers h p r).
  split; [apply round3_is_rounded, Qeq_sym, ri_score_weighted|].
  split; [reflexivity|]. intros s m. unfold App.ri_score. ring.
Qed.

(** The index of a request without response, for any IAI score. *)
Lemma fallback_index q :
  rounded_to_3 ((25 # 100) * q + (15 # 100) * (5 # 10)
                + (10 # 100) * (5 # 10) + (10 # 100) * (5 # 10))
               (round3 (App.ri_score q 0 0 (5 # 10) (5 # 10) (5 # 10) 1)).
Proof. apply round3_is_rounded. unfold App.ri_score. ring. Qed.

Lemma fallback_reply_index h p :
  App.resonance_index (App.build_response (locals_without_response h p))
  = round3 (App.ri_score (IAI.iai_score (IAI.analyze p))
                         0 0 (5 # 10) (5 # 10) (5 # 10) 1).
Proof. reflexivity. Qed.

Lemma round3_half : round3 (5 # 10) == 5 # 10.
Proof. vm_compute. reflexivity. Qed.

Lemma round3_zero : round3 0 == 0.
Proof. vm_compute. reflexivity. Qed.

(** C3, as the code has it: without a response the fallback constants
    cai = 0, pas = 0, sas = cps = css = 0.5, am = 1, intent
    precision_seeker with confidence 0.5 are used, no analyzer but IAI
    runs, the resonance index is 0.25 IAI(prompt) + 0.15*0.5 + 0.10*0.5
    + 0.10*0.5 rounded to three decimals (a number of three decimals
    within 0.0005 of that sum), and the history is returned unchanged. *)
Theorem no_response_fallbacks h p :
  p <> "" ->
  exists reply,
    App.analyze_interaction h p "" = (App.Success reply, h)
    /\ App.cai (App.scores reply) == 0
    /\ App.pas (App.scores reply) == 0
    /\ App.sas (App.scores reply) == 5 # 10
    /\ App.cps (App.scores reply) == 5 # 10
    /\ App.css (App.scores reply) == 5 # 10
    /\ App.alignment_modulator reply == 1
    /\ App.uip_detected reply = AM.precision_seeker
    /\ App.uip_confidence reply == 5 # 10
    /\ rounded_to_3 ((25 # 100) * IAI.iai_score (IAI.analyze p)
                     + (15 # 100) * (5 # 10) + (10 # 100) * (5 # 10)
                     + (10 # 100) * (5 # 10))
                    (App.resonance_index reply)
    /\ App.cps_details (App.breakdown reply) = None.
Proof.
  intros Hp. exists (App.build_response (locals_without_response h p)).
  split.
  { rewrite (analyze_interaction_success h p "" Hp).
    rewrite run_without_response. reflexivity. }
  split; [exact round3_zero|]. split; [exact round3_zero|].
  split; [exact round3_half|]. split; [exact round3_half|].
  split; [exact round3_half|].
  split; [apply Qeq_refl|]. split; [exact eq_refl|].
  split; [exact round3_half|]. split; [|exact eq_refl].
  rewrite fallback_reply_index. apply fallback_index.
Qed.

(** C9, as the code has it: for a multiplier in [0.8, 1.2] the weighted
    sum is strictly increasing in each of the six scores, and the
    reported index, its rounding to three decimals, never decreases. *)
Theorem resonance_index_monotone a b c d e f m x :
  (8 # 10) <= m <= (12 # 10) ->
  (a < x -> App.ri_score a b c d e f m < App.ri_score x b c d e f m
            /\ round3 (App.ri_score a b c d e f m)
               <= round3 (App.ri_score x b c d e f m))
  /\ (b < x -> App.ri_score a b c d e f m < App.ri_score a x c d e f m
               /\ round3 (App.ri_score a b c d e f m)
                  <= round3 (App.ri_score a x c d e f m))
  /\ (c < x -> App.ri_score a b c d e f m < App.ri_score a b x d e f m
               /\ round3 (App.ri_score a b c d e f m)
                  <= round3 (App.ri_score a b x d e f m))
  /\ (d < x -> App.ri_score a b c d e f m < App.ri_score a b c x e f m
               /\ round3 (App.ri_score a b c d e f m)
                  <= round3 (App.ri_score a b c x e f m))
  /\ (e < x -> App.ri_score a b c d e f m < App.ri_score a b c d x f m
               /\ round3 (App.ri_score a b c d e f m)
                  <= round3 (App.ri_score a b c d x f m))
  /\ (f < x -> App.ri_score a b c d e f m < App.ri_score a b c d e x m
               /\ round3 (App.ri_score a b c d e f m)
                  <= round3 (App.ri_score a b c d e x m)).
Proof.
  intros [Hm _].
  assert (Hpos : 0 < m) by lra.
  assert (Hstrict : forall u w, u < w -> u * m < w * m).
  { intros u w Huw. apply Qmult_lt_compat_r; assumption. }
  assert (Hboth : forall u w, u < w ->
            u * m < w * m /\ round3 (u * m) <= round3 (w * m)).
  { intros u w Huw. pose proof (Hstrict u w Huw).
    split; [assumption|]. apply round3_mono. lra. }
  unfold App.ri_score.
  repeat match goal with |- _ /\ _ => split end;
    intros Hlt; apply Hboth; lra.
Qed.

End WithEngine.

(** ** Worked requests *)

(** C1 fails as stated: for the prompt
    "Summarize this article about climate policy" sent without response,
    IAI is 977/3000 and the weighted sum is 3077/12000 = 0.25641...;
    the reply carries resonance_index 0.256, which is neither the weighted
    sum of the analyzers' scores nor that of the reported scores. *)
Lemma resonance_index_not_the_exact_sum :
  exists reply,
    reply_to [] a_prompt "" = Some reply
    /\ App.resonance_index reply == 256 # 1000
    /\ (let v := @App.run_analyzers silent_engine [] a_prompt "" in
        weighted (IAI.iai_score (App.iai_result v)) (App.cai_score v)
                 (App.pas_score v) (App.sas_score v) (App.cps_score v)
                 (App.css_score v) (App.am_score v) == 3077 # 12000
        /\ ~ App.resonance_index reply
             == weighted (IAI.iai_score (App.iai_result v)) (App.cai_score v)
                  (App.pas_score v) (App.sas_score v) (App.cps_score v)
                  (App.css_score v) (App.am_score v))
    /\ ~ App.resonance_index reply
         == weighted (App.iai (App.scores reply)) (App.cai (App.scores reply))
              (App.pas (App.scores reply)) (App.sas (App.scores reply))
              (App.cps (App.scores reply)) (App.css (App.scores reply))
              (App.alignment_modulator reply).
Proof.
  eexists. split; [reflexivity|].
  vm_compute. repeat split; intros; discriminate.
Qed.

(** C3 fails as stated: for the prompt "What is a for-loop?" without
    response, IAI is 17/75 and 0.25 IAI + 0.15*0.5 + 0.10*0.5 + 0.10*0.5 is
    139/600 = 0.23166..., while the reply carries resonance_index 0.232. *)
Lemma for_loop_index_is_rounded :
  exists reply,
    reply_to [] for_loop_prompt "" = Some reply
    /\ IAI.iai_score (IAI.analyze for_loop_prompt) == 17 # 75
    /\ App.resonance_index reply == 232 # 1000
    /\ ~ App.resonance_index reply
         == (25 # 100) * IAI.iai_score (IAI.analyze for_loop_prompt)
            + (15 # 100) * (5 # 10) + (10 # 100) * (5 # 10)
            + (10 # 100) * (5 # 10).
Proof.
  eexists. split; [reflexivity|].
  vm_compute. repeat split; intros; discriminate.
Qed.

(** C9 fails as stated: a prompt of 21 words and one of 25 words, both
    without response, differ in IAI only (0.2202... against 0.2211...,
    reported as 0.22 and 0.221); the other five scores and the multiplier
    are the same, yet both replies carry resonance_index 0.23. *)
Lemma higher_iai_same_index :
  exists r21 r25,
    reply_to [] words_21 "" = Some r21
    /\ reply_to [] words_25 "" = Some r25
    /\ IAI.iai_score (IAI.analyze words_21) < IAI.iai_score (IAI.analyze words_25)
    /\ App.iai (App.scores r21) < App.iai (App.scores r25)
    /\ App.cai (App.scores r21) == App.cai (App.scores r25)
    /\ App.pas (App.scores r21) == App.pas (App.scores r25)
    /\ App.sas (App.scores r21) == App.sas (App.scores r25)
    /\ App.cps (App.scores r21) == App.cps (App.scores r25)
    /\ App.css (App.scores r21) == App.css (App.scores r25)
    /\ App.alignment_modulator r21 == App.alignment_modulator r25
    /\ App.resonance_index r21 == App.resonance_index r25
    /\ ~ App.resonance_index r21 < App.resonance_index r25.
Proof.
  eexists. eexists. split; [reflexivity|]. split; [reflexivity|].
  vm_compute. repeat split; intros; discriminate.
Qed.

(** ** Instances *)

Lemma scores_within_ranges_witness :
  for_loop_prompt <> ""
  /\ exists reply h',
       @App.analyze_interaction silent_engine [] for_loop_prompt "A loop." =
         (App.Success reply, h')
       /\ 0 <= App.resonance_index reply <= (12 # 10).
Proof.
  assert (H : for_loop_prompt <> "") by discriminate.
  split; [exact H|].
  destruct (@scores_within_ranges silent_engine [] for_loop_prompt "A loop." H)
    as (reply & h' & E & _ & _ & _ & _ & _ & _ & _ & R & _).
  exists reply, h'. split; [exact E | exact R].
Defined.

Lemma resonance_index_is_rounded_weighted_sum_witness :
  a_prompt <> ""
  /\ exists reply h',
       @App.analyze_interaction silent_engine [] a_prompt "Sure." =
         (App.Success reply, h')
       /\ (forall s m, App.ri_score s s s s s s m == s * m).
Proof.
  assert (H : a_prompt <> "") by discriminate.
  split; [exact H|].
  destruct (@resonance_index_is_rounded_weighted_sum silent_engine []
              a_prompt "Sure." H) as (reply & h' & E & _ & _ & W).
  exists reply, h'. split; [exact E | exact W].
Defined.

Lemma no_response_fallbacks_witness :
  for_loop_prompt <> ""
  /\ exists reply,
       @App.analyze_interaction silent_engine [] for_loop_prompt "" =
         (App.Success reply, [])
       /\ App.uip_detected reply = AM.precision_seeker.
Proof.
  assert (H : for_loop_prompt <> "") by discriminate.
  split; [exact H|].
  destruct (@no_response_fallbacks silent_engine [] for_loop_prompt H)
    as (reply & E & _ & _ & _ & _ & _ & _ & U & _).
  exists reply. split; [exact E | exact U].
Defined.

Lemma resonance_index_monotone_witness :
  (8 # 10) <= 1 <= (12 # 10)
  /\ (2 # 10) < (3 # 10)
  /\ App.ri_score (2 # 10) 0 0 (5 # 10) (5 # 10) (5 # 10) 1
     < App.ri_score (3 # 10) 0 0 (5 # 10) (5 # 10) (5 # 10) 1
  /\ round3 (App.ri_score (2 # 10) 0 0 (5 # 10) (5 # 10) (5 # 10) 1)
     <= round3 (App.ri_score (3 # 10) 0 0 (5 # 10) (5 # 10) (5 # 10) 1).
Proof.
  assert (H : (8 # 10) <= 1 <= (12 # 10)) by (split; discriminate).
  assert (Hlt : (2 # 10) < (3 # 10)) by reflexivity.
  split; [exact H|]. split; [exact Hlt|].
  exact (proj1 (resonance_index_monotone
                  (2 # 10) 0 0 (5 # 10) (5 # 10) (5 # 10) 1 (3 # 10) H) Hlt).
Defined.

End Aggregation.

(* ================================================================== *)
(** * The conversation history                                         *)
(* ================================================================== *)

Module Window.
Import Terms Samples.

Lemma length_last_n {A} k (l : list A) :
  List.length (last_n k l) = Nat.min k (List.length l).
Proof. unfold last_n. rewrite length_skipn. lia. Qed.

Lemma last_n_short {A} k (l : list A) :
  (List.length l <= k)%nat -> last_n k l = l.
Proof.
  intros H. unfold last_n.
  replace (List.length l - k)%nat with 0%nat by lia. reflexivity.
Qed.

(** Truncating early does not change a later truncation. *)
Lemma last_n_absorb {A} k (l m : list A) :
  last_n k (last_n k l ++ m) = last_n k (l ++ m).
Proof.
  destruct (Nat.le_gt_cases (List.length l) k) as [Hle|Hgt].
  - now rewrite (last_n_short k l Hle).
  - unfold last_n at 1 3. rewrite !length_app, length_last_n.
    rewrite !skipn_app, length_last_n. unfold last_n.
    rewrite skipn_skipn. f_equal; f_equal; lia.
Qed.

Lemma last_n_one_over {A} k (l : list A) :
  List.length l = S k -> last_n k l = tl l.
Proof.
  intros H. unfold last_n. rewrite H.
  replace (S k - k)%nat with 1%nat by lia.
  destruct l; reflexivity.
Qed.

Section WithEngine.
Context {engine : PyRe}.

Lemma history_step h p r :
  snd (App.analyze_interaction h p r)
  = if answered (p, r) then last_n 10 (h ++ [recorded h p r]) else h.
Proof.
  unfold App.analyze_interaction, answered, App.run_analyzers. cbn [fst snd].
  destruct (Py.nonempty p); destruct (Py.nonempty r); reflexivity.
Qed.

Lemma serve_cons h p r rest :
  snd (App.serve h ((p, r) :: rest))
  = snd (App.serve (snd (App.analyze_interaction h p r)) rest).
Proof.
  cbn [App.serve]. destruct (App.analyze_interaction h p r) as [out h1].
  cbn [snd]. destruct (App.serve h1 rest). reflexivity.
Qed.

Lemma serve_log requests :
  forall h,
    (List.length h <= 10)%nat ->
    exists log,
      map request_of log = filter answered requests
      /\ snd (App.serve h requests) = last_n 10 (h ++ log).
Proof.
  induction requests as [|[p r] rest IH]; intros h Hh.
  - exists []. split; [reflexivity|].
    rewrite app_nil_r. cbn [App.serve snd]. now rewrite last_n_short.
  - rewrite serve_cons, history_step. cbn [filter].
    destruct (answered (p, r)) eqn:Ha.
    + destruct (IH (last_n 10 (h ++ [recorded h p r]))) as (log & Hm & Hs).
      { rewrite length_last_n. lia. }
      exists (recorded h p r :: log). split.
      { cbn [map]. now rewrite Hm. }
      rewrite Hs, last_n_absorb, <- app_assoc. reflexivity.
    + destruct (IH h Hh) as (log & Hm & Hs).
      exists log. now split.
Qed.

(** C4: the history never exceeds 10 entries.  The turns appended are
    exactly the requests that carry a response (and a prompt), in
    order; the history is the last 10 of the old entries followed by
    the appended ones; and after 11 appends to an empty history the
    oldest turn is gone while the 10 most recent remain in order. *)
Theorem history_keeps_last_ten h requests :
  (List.length h <= 10)%nat ->
  exists log,
    map request_of log = filter answered requests
    /\ snd (App.serve h requests) = last_n 10 (h ++ log)
    /\ (List.length (snd (App.serve h requests)) <= 10)%nat
    /\ (h = [] -> List.length log = 11%nat ->
        snd (App.serve h requests) = tl log
        /\ List.length (snd (App.serve h requests)) = 10%nat).
Proof.
  intros Hh. destruct (serve_log requests h Hh) as (log & Hm & Hs).
  exists log. split; [exact Hm|]. split; [exact Hs|]. split.
  - rewrite Hs, length_last_n. lia.
  - intros -> Hlen. cbn [app] in Hs. rewrite Hs.
    rewrite (last_n_one_over 10 log Hlen). split; [reflexivity|].
    destruct log; cbn in *; lia.
Qed.

End WithEngine.

Lemma history_keeps_last_ten_witness :
  (List.length (@nil History.turn) <= 10)%nat
  /\ exists log,
       List.length log = 11%nat
       /\ map request_of log = filter answered eleven_answered_requests
       /\ snd (@App.serve silent_engine [] eleven_answered_requests) = tl log.
Proof.
  assert (H : (List.length (@nil History.turn) <= 10)%nat) by (cbn; lia).
  split; [exact H|].
  destruct (@history_keeps_last_ten silent_engine [] eleven_answered_requests H)
    as (log & Hm & _ & _ & Hlast).
  assert (Hlen : List.length log = 11%nat).
  { rewrite <- (length_map request_of), Hm. reflexivity. }
  exists log. split; [exact Hlen|]. split; [exact Hm|].
  exact (proj1 (Hlast eq_refl Hlen)).
Defined.

End Window.

(* ================================================================== *)
(** * CAI: the anchor ladder                                           *)
(* ================================================================== *)

Module Anchors.
Import Terms.

Section WithEngine.
Context {engine : PyRe}.

(** The dict of anchors always has the three families, in order. *)
Lemma anchors_found_shape t :
  exists bs ans hs,
    CAI.anchors_found t
    = [ (CAI.boundary_anchors, bs); (CAI.analogy_anchors, ans);
        (CAI.hypothesis_anchors, hs) ].
Proof.
  unfold CAI.anchors_found, CAI.anchor_patterns. cbn [map].
  eexists. eexists. eexists. reflexivity.
Qed.

(** The anchors recorded for the matches of one sentence are the cleaned
    matches that pass the validation. *)
Lemma texts_of_matches ty sentence matches :
  map CAI.text
    (flat_map
       (fun group0 =>
          if CAI._validate_anchor (CAI._clean_anchor_text group0) ty
          then [ {| CAI.text := CAI._clean_anchor_text group0;
                    CAI.valid := true; CAI.type := ty;
                    CAI.sentence := CAI.preview sentence |} ]
          else [])
       matches)
  = filter (fun anchor_text => CAI._validate_anchor anchor_text ty)
           (map CAI._clean_anchor_text matches).
Proof.
  induction matches as [|m rest IH]; [reflexivity|].
  cbn [flat_map map filter]. rewrite map_app, IH.
  destruct (CAI._validate_anchor (CAI._clean_anchor_text m) ty); reflexivity.
Qed.

(** One pattern: the blank sentences are skipped, the others are searched
    in order. *)
Lemma texts_of_pattern ty sentences pattern :
  map CAI.text (CAI.anchors_of_pattern ty sentences pattern)
  = filter (fun anchor_text => CAI._validate_anchor anchor_text ty)
      (map CAI._clean_anchor_text
         (flat_map (re_finditer pattern)
                   (filter Py.nonempty (map Py.strip sentences)))).
Proof.
  unfold CAI.anchors_of_pattern. cbv zeta.
  induction sentences as [|s rest IH]; [reflexivity|].
  cbn [flat_map map filter]. rewrite map_app, IH.
  destruct (Py.nonempty (Py.strip s)).
  - cbn [flat_map]. rewrite map_app, filter_app, texts_of_matches.
    reflexivity.
  - reflexivity.
Qed.

(** One family: its patterns are tried one after the other. *)
Lemma texts_of_patterns ty sentences patterns :
  map CAI.text (flat_map (CAI.anchors_of_pattern ty sentences) patterns)
  = filter (fun anchor_text => CAI._validate_anchor anchor_text ty)
      (map CAI._clean_anchor_text
         (flat_map
            (fun pattern =>
               flat_map (re_finditer pattern)
                        (filter Py.nonempty (map Py.strip sentences)))
            patterns)).
Proof.
  induction patterns as [|pattern rest IH]; [reflexivity|].
  cbn [flat_map]. rewrite !map_app, filter_app, IH, texts_of_pattern.
  reflexivity.
Qed.

(** The three lists of the result hold the valid anchor texts of their
    families. *)
Lemma found_texts t :
  exists bs ans hs,
    CAI.anchors_found t
    = [ (CAI.boundary_anchors, bs); (CAI.analogy_anchors, ans);
        (CAI.hypothesis_anchors, hs) ]
    /\ map CAI.text bs = valid_anchor_texts CAI.boundary_anchors t
    /\ map CAI.text ans = valid_anchor_texts CAI.analogy_anchors t
    /\ map CAI.text hs = valid_anchor_texts CAI.hypothesis_anchors t.
Proof.
  unfold CAI.anchors_found, CAI.anchor_patterns. cbn [map].
  eexists. eexists. eexists. split; [reflexivity|].
  split; [|split]; rewrite texts_of_patterns; reflexivity.
Qed.

(** C5: the CAI score is the step function of the number of valid
    anchors, counted over the three families together: 0, 0.25, 0.5,
    0.75 for 0, 1, 2, 3 anchors and 1.0 from 4 anchors on; hence it is
    one of these five values.  The anchors counted are the ones found in
    the text: the result lists, family by family, the cleaned matches of
    the family's patterns that pass its validation, the three counts are
    the lengths of these lists and the total is their sum. *)
Theorem cai_score_ladder t :
  let res := CAI.analyze t in
  (exists bs ans hs,
     CAI.found res
     = [ (CAI.boundary_anchors, bs); (CAI.analogy_anchors, ans);
         (CAI.hypothesis_anchors, hs) ]
     /\ map CAI.text bs = valid_anchor_texts CAI.boundary_anchors t
     /\ map CAI.text ans = valid_anchor_texts CAI.analogy_anchors t
     /\ map CAI.text hs = valid_anchor_texts CAI.hypothesis_anchors t)
  /\ CAI.boundary_count res
     = List.length (valid_anchor_texts CAI.boundary_anchors t)
  /\ CAI.analogy_count res
     = List.length (valid_anchor_texts CAI.analogy_anchors t)
  /\ CAI.hypothesis_count res
     = List.length (valid_anchor_texts CAI.hypothesis_anchors t)
  /\ CAI.total_valid_anchors res = valid_anchors t
  /\ CAI.total_valid_anchors res
     = (CAI.boundary_count res + CAI.analogy_count res
        + CAI.hypothesis_count res)%nat
  /\ CAI.cai_score res
     = match valid_anchors t with
       | 0%nat => 0
       | 1%nat => 25 # 100
       | 2%nat => 5 # 10
       | 3%nat => 75 # 100
       | _ => 1
       end
  /\ In (CAI.cai_score res) [0; 25 # 100; 5 # 10; 75 # 100; 1].
Proof.
  cbv zeta. unfold CAI.analyze, valid_anchors.
  destruct (found_texts t) as (bs & ans & hs & -> & Hb & Ha & Hh).
  cbn [CAI.found CAI.total_valid_anchors CAI.boundary_count CAI.analogy_count
       CAI.hypothesis_count CAI.cai_score CAI.count_of find map fold_left].
  rewrite <- Hb, <- Ha, <- Hh, !length_map.
  split; [exists bs, ans, hs; repeat split|].
  do 3 (split; [reflexivity|]).
  set (n := (0 + List.length bs + List.length ans + List.length hs)%nat).
  replace (List.length bs + List.length ans + List.length hs)%nat with n
    by (unfold n; lia).
  split; [reflexivity|]. split; [unfold n; lia|].
  destruct n as [|[|[|[|k]]]]; cbn; auto 10.
Qed.

End WithEngine.

End Anchors.

(* ================================================================== *)
(** * CPS: detected and achieved levels                                *)
(* ================================================================== *)

Module Progression.
Import NumFacts Terms Samples.

Lemma round3_fifths l : round3 (inject_Z l / 5) == inject_Z l / 5.
Proof.
  assert (E : inject_Z l / 5 == inject_Z (200 * l) / 1000).
  { rewrite inject_Z_mult. field. }
  rewrite (round3_compat _ _ E), round3_fix. symmetry. exact E.
Qed.

(** C6: with a non-empty history, when base_level = max(user_level,
    ai_level) exceeds the highest level of the last three turns, the
    achieved level is base_level + 1, capped at 5, and the score is that
    level over 5; after three turns at level 2, a base level of 3 gives
    level 4 and score 4/5. *)
Theorem progression_bonus :
  (forall p r h,
      let base := Z.max (CPS._detect_user_level p) (CPS._detect_ai_level r) in
      h <> [] ->
      (PyMax.max_int 1 (map CPS.get_cps_level (last_n 3 h)) < base)%Z ->
      CPS.achieved_level (CPS.analyze p r h) = Z.min (base + 1) 5
      /\ CPS.cps_score (CPS.analyze p r h) == inject_Z (Z.min (base + 1) 5) / 5)
  /\ (forall p r h,
      map CPS.get_cps_level h = [2; 2; 2]%Z ->
      Z.max (CPS._detect_user_level p) (CPS._detect_ai_level r) = 3%Z ->
      CPS.achieved_level (CPS.analyze p r h) = 4%Z
      /\ CPS.cps_score (CPS.analyze p r h) == 4 # 5).
Proof.
  assert (General : forall p r h,
      let base := Z.max (CPS._detect_user_level p) (CPS._detect_ai_level r) in
      h <> [] ->
      (PyMax.max_int 1 (map CPS.get_cps_level (last_n 3 h)) < base)%Z ->
      CPS.achieved_level (CPS.analyze p r h) = Z.min (base + 1) 5
      /\ CPS.cps_score (CPS.analyze p r h) == inject_Z (Z.min (base + 1) 5) / 5).
  { intros p r h base Hh Hlt.
    assert (Hlevel : CPS._determine_achieved_level (CPS._detect_user_level p)
              (CPS._detect_ai_level r) h = Z.min (base + 1) 5).
    { unfold CPS._determine_achieved_level. fold base.
      destruct h as [|t h']; [congruence|].
      apply Z.ltb_lt in Hlt. rewrite Hlt. subst base. lia. }
    unfold CPS.analyze. cbn [CPS.achieved_level CPS.cps_score].
    rewrite Hlevel. split; [reflexivity | apply round3_fifths]. }
  split; [exact General|].
  intros p r h Hlevels Hbase.
  assert (Hh : h <> []) by (intros ->; discriminate).
  assert (Hmax : (PyMax.max_int 1 (map CPS.get_cps_level (last_n 3 h)) < 3)%Z).
  { assert (Hlen : List.length h = 3%nat)
      by (rewrite <- (length_map CPS.get_cps_level), Hlevels; reflexivity).
    unfold last_n. rewrite Hlen. cbn [Nat.sub skipn]. rewrite Hlevels.
    reflexivity. }
  destruct (General p r h Hh) as [Ha Hs]; [rewrite Hbase; exact Hmax|].
  rewrite Hbase in Ha, Hs. split; [exact Ha|].
  rewrite Hs. reflexivity.
Qed.

Lemma progression_bonus_witness :
  three_turns_at_level_2 <> []
  /\ map CPS.get_cps_level three_turns_at_level_2 = [2; 2; 2]%Z
  /\ Z.max (CPS._detect_user_level "how to apply this")
           (CPS._detect_ai_level "Sure.") = 3%Z
  /\ CPS.achieved_level
       (CPS.analyze "how to apply this" "Sure." three_turns_at_level_2)
     = Z.min (3 + 1) 5
  /\ CPS.achieved_level
       (CPS.analyze "how to apply this" "Sure." three_turns_at_level_2) = 4%Z
  /\ CPS.cps_score
       (CPS.analyze "how to apply this" "Sure." three_turns_at_level_2) == 4 # 5.
Proof.
  assert (H0 : three_turns_at_level_2 <> []) by discriminate.
  assert (H1 : map CPS.get_cps_level three_turns_at_level_2 = [2; 2; 2]%Z)
    by reflexivity.
  assert (H2 : Z.max (CPS._detect_user_level "how to apply this")
                     (CPS._detect_ai_level "Sure.") = 3%Z)
    by (vm_compute; reflexivity).
  assert (H3 : (PyMax.max_int 1 (map CPS.get_cps_level
                                   (last_n 3 three_turns_at_level_2))
                < Z.max (CPS._detect_user_level "how to apply this")
                        (CPS._detect_ai_level "Sure."))%Z)
    by (vm_compute; reflexivity).
  split; [exact H0|]. split; [exact H1|]. split; [exact H2|].
  split.
  - rewrite <- H2.
    exact (proj1 (proj1 progression_bonus "how to apply this" "Sure."
                        three_turns_at_level_2 H0 H3)).
  - exact (proj2 progression_bonus "how to apply this" "Sure."
                 three_turns_at_level_2 H1 H2).
Defined.

(** The first-maximum search over counts returns a largest count. *)
Lemma max_item_largest {K} (items : list (K * nat)) :
  forall best,
    (snd best <= snd (PyMax.max_item Nat.ltb best items))%nat
    /\ Forall (fun kv => (snd kv <= snd (PyMax.max_item Nat.ltb best items))%nat)
              items.
Proof.
  induction items as [|x rest IH]; intros best; cbn [PyMax.max_item].
  - split; [lia | constructor].
  - destruct (IH (if (snd best <? snd x)%nat then x else best)) as [Hb Hr].
    destruct (Nat.ltb_spec (snd best) (snd x)); cbn [snd] in *.
    + split; [lia|]. constructor; [exact Hb | exact Hr].
    + split; [exact Hb|]. constructor; [lia | exact Hr].
Qed.

(** C7.  The detected level is an argmax of the raw keyword counts of the
    five levels.  At a response without any level keyword every level
    counts 0 matches and the detected level is 1, not the documented
    default 2; the default branch can never run, as the score table is
    never empty. *)
Theorem ai_level_without_keywords_is_one :
  (forall r, exists n,
      In (CPS._detect_ai_level r, n) (CPS.ai_level_scores r)
      /\ Forall (fun kv => (snd kv <= n)%nat) (CPS.ai_level_scores r))
  /\ CPS.ai_level_scores plain_response
     = [(1%Z, 0%nat); (2%Z, 0%nat); (3%Z, 0%nat); (4%Z, 0%nat); (5%Z, 0%nat)]
  /\ CPS._detect_ai_level plain_response = 1%Z
  /\ CPS._detect_ai_level plain_response <> 2%Z
  /\ (forall r, PyMax.max_by_value Nat.ltb (CPS.ai_level_scores r) <> None).
Proof.
  split.
  { intros r. unfold CPS._detect_ai_level.
    destruct (PyMax.max_by_value Nat.ltb (CPS.ai_level_scores r)) as [[l n]|] eqn:E.
    - exists n. split; [exact (Ranges.max_by_value_in _ _ _ E)|].
      unfold PyMax.max_by_value in E.
      destruct (CPS.ai_level_scores r) as [|x rest]; [discriminate|].
      injection E as E.
      destruct (max_item_largest rest x) as [Hx Hrest].
      rewrite E in Hx, Hrest. constructor; [exact Hx | exact Hrest].
    - unfold CPS.ai_level_scores, CPS.levels in E. discriminate. }
  split; [vm_compute; reflexivity|].
  split; [vm_compute; reflexivity|].
  split; [vm_compute; discriminate|].
  intros r. unfold CPS.ai_level_scores, CPS.levels. cbn [map].
  unfold PyMax.max_by_value. discriminate.
Qed.

End Progression.

(* ================================================================== *)
(** * SAS: expectation_sync                                            *)
(* ================================================================== *)

Module Expectation.
Import NumFacts Ranges Terms Samples.

(** The loop counts at most the expectation words found in the prompt. *)
Lemma matches_fold_bound prompt_lower response_lower words :
  forall acc,
    (fold_left
       (fun matches word =>
          if Py.contains word prompt_lower then
            (if SAS.expectation_met word response_lower
             then S matches else matches)
          else matches)
       words acc
     <= acc + Py.count_present words prompt_lower)%nat.
Proof.
  unfold Py.count_present.
  induction words as [|w rest IH]; intros acc; cbn [fold_left filter].
  - cbn. lia.
  - destruct (Py.contains w prompt_lower); cbn [List.length].
    + destruct (SAS.expectation_met w response_lower).
      * pose proof (IH (S acc)). lia.
      * pose proof (IH acc). lia.
    + pose proof (IH acc). lia.
Qed.

(** C8 fails as stated: the prompt "give me a detailed list" contains the
    expectation words "list" and "detailed"; the response "ok" meets
    neither, and the score is 0.7, not 0.5. *)
Lemma unmet_expectation_scores_neutral :
  Py.any_present SAS.expectation_words (Py.lower detailed_list_prompt) = true
  /\ SAS.expectation_matches detailed_list_prompt "ok" = 0%nat
  /\ SAS._calculate_expectation_sync detailed_list_prompt "ok" == 7 # 10
  /\ ~ SAS._calculate_expectation_sync detailed_list_prompt "ok" == 5 # 10.
Proof.
  vm_compute. repeat split; intros; discriminate.
Qed.

(** C8, as the code has it: with [matches] the number of expectation words
    of the prompt that the response meets, expectation_sync is 0.7 for
    0 matches (no expectation word in the prompt, or none met), and
    min(0.5 + 0.2 matches, 1.0) otherwise, that is 0.7, 0.9, 1.0 for
    1, 2, 3 or more matches; [matches] is at most the number of
    expectation words in the prompt, and the score is never below 0.7. *)
Theorem expectation_sync_values p r :
  let matches := SAS.expectation_matches p r in
  SAS._calculate_expectation_sync p r
  == match matches with
     | 0%nat => 7 # 10
     | S _ => pymin ((5 # 10) + Qn matches * (2 # 10)) 1
     end
  /\ SAS._calculate_expectation_sync p r
     == match matches with
        | 0%nat | 1%nat => 7 # 10
        | 2%nat => 9 # 10
        | _ => 1
        end
  /\ (matches <= Py.count_present SAS.expectation_words (Py.lower p))%nat
  /\ (7 # 10) <= SAS._calculate_expectation_sync p r.
Proof.
  cbv zeta. unfold SAS._calculate_expectation_sync.
  assert (Hbound : (SAS.expectation_matches p r
                    <= Py.count_present SAS.expectation_words (Py.lower p))%nat).
  { unfold SAS.expectation_matches.
    apply (matches_fold_bound (Py.lower p) (Py.lower r) SAS.expectation_words 0). }
  revert Hbound. generalize (SAS.expectation_matches p r). intros m Hbound.
  assert (Hvalues :
    (if (0 <? m)%nat then pymin ((5 # 10) + Qn m * (2 # 10)) 1 else 7 # 10)
    == match m with
       | 0%nat | 1%nat => 7 # 10
       | 2%nat => 9 # 10
       | _ => 1
       end).
  { destruct m as [|[|[|k]]]; try (vm_compute; reflexivity).
    cbn [Nat.ltb Nat.leb].
    pose proof (Qn_le 3 (S (S (S k))) ltac:(lia)) as H3.
    change (Qn 3) with 3 in H3.
    unfold pymin. qcases; lra. }
  split; [destruct m; reflexivity|].
  split; [exact Hvalues|]. split; [exact Hbound|].
  rewrite Hvalues. destruct m as [|[|[|k]]]; lra.
Qed.

End Expectation.

(* ================================================================== *)
(** * AM: the multiplier that can be reached                           *)
(* ================================================================== *)

Module Alignment.
Import NumFacts Ranges Terms.

Lemma style_match_of_table c s i f u :
  AM.style_match_score u (style_table c s i f)
  = pymin ((match u with
            | AM.precision_seeker => 0 + c + s + 0 + 0
            | AM.strategic_explorer => 0 + f + 0 + s + 0
            | AM.co_creation_partner => 0 + i + 0 + 0 + 0
            end) / 4) 1.
Proof. destruct u; reflexivity. Qed.

Lemma undetected_of_table c s i f :
  Forall (fun name => AM.get (style_table c s i f) name 0 = 0) undetected_styles.
Proof. repeat constructor. Qed.

Lemma interactive_of_table c s i f :
  AM.get (style_table c s i f) "interactive" 0 = i.
Proof. reflexivity. Qed.

(** The multiplier over a table whose entries respect the detectors'
    maxima. *)
Lemma style_match_bound c s i f u :
  0 <= c <= (5 # 10) -> 0 <= s <= 1 -> 0 <= i <= (9 # 10) -> 0 <= f <= 1 ->
  AM.style_match_score u (style_table c s i f)
  <= match u with
     | AM.precision_seeker => 375 # 1000
     | AM.strategic_explorer => 5 # 10
     | AM.co_creation_partner => 225 # 1000
     end.
Proof.
  intros [? ?] [? ?] [? ?] [? ?]. rewrite style_match_of_table.
  destruct u; unfold pymin; qcases; qlra.
Qed.

(** The multiplier over a table whose entries respect the detectors'
    maxima. *)
Lemma am_of_table c s i f u r :
  0 <= c <= (5 # 10) -> 0 <= s <= 1 -> 0 <= i <= (9 # 10) -> 0 <= f <= 1 ->
  AM.style_match_score u (style_table c s i f) <= (5 # 10)
  /\ AM._calculate_am u (style_table c s i f) r
     <= match u with AM.precision_seeker => 9 # 10 | _ => 1 end.
Proof.
  intros Hc Hs Hi Hf.
  pose proof (style_match_bound c s i f u Hc Hs Hi Hf) as Hm.
  split; [destruct u; lra|].
  unfold AM._calculate_am. cbv zeta. rewrite interactive_of_table.
  revert Hm. generalize (AM.style_match_score u (style_table c s i f)).
  intros m Hm. destruct Hi as [_ Hi].
  destruct u; cbn [AM.uip_eqb andb];
    try destruct (300 <? Py.word_count r)%nat;
    qcases; unfold pymin, pymax; qcases; lra.
Qed.

Section WithEngine.
Context {engine : PyRe}.

Lemma pattern_fold_bounds text ps :
  forall acc,
    acc <= fold_left
             (fun score pattern =>
                if re_search NOFLAG pattern text
                then score + (3 # 10) else score) ps acc
    /\ fold_left
         (fun score pattern =>
            if re_search NOFLAG pattern text
            then score + (3 # 10) else score) ps acc
       <= acc + Qn (List.length ps) * (3 # 10).
Proof.
  induction ps as [|pat rest IH]; intros acc; cbn [fold_left List.length].
  - change (Qn 0) with 0. split; lra.
  - assert (Hn : Qn (S (List.length rest)) == Qn (List.length rest) + 1).
    { unfold Qn. rewrite Nat2Z.inj_succ, <- Z.add_1_r, inject_Z_plus.
      reflexivity. }
    rewrite Hn.
    destruct (re_search NOFLAG pat text);
      [destruct (IH (acc + (3 # 10))) | destruct (IH acc)]; split; lra.
Qed.

Lemma ai_style_is_table r :
  exists c s i f,
    AM._analyze_ai_style r = style_table c s i f
    /\ 0 <= c <= (5 # 10) /\ 0 <= s <= 1 /\ 0 <= i <= (9 # 10) /\ 0 <= f <= 1.
Proof.
  unfold AM._analyze_ai_style, AM.response_styles, style_table. cbn [map].
  eexists. eexists. eexists. eexists. split; [reflexivity|].
  unfold AM.style_score.
  cbn [String.eqb Ascii.eqb Bool.eqb andb AM.max_words AM.patterns].
  repeat split;
    try (destruct (Py.word_count r <=? 150)%nat; unfold pymin; qcases; lra);
    match goal with
    | |- context [fold_left ?f ?ps ?acc] =>
        destruct (pattern_fold_bounds (Py.lower r) ps acc) as [Hlo Hhi];
        cbn [List.length] in Hhi;
        change (Qn 5) with 5 in Hhi; change (Qn 4) with 4 in Hhi;
        change (Qn 3) with 3 in Hhi;
        set (x := fold_left f ps acc) in *; clearbody x;
        unfold pymin; qcases; lra
    end.
Qed.

(** C10: whatever the prompt and the response, the multiplier is at
    most 1.0, and at most 0.9 when the intent is precision_seeker; the
    preferred styles "bounded", "bullet points", "analogy", "overview",
    "iterative", "suggestive", "questioning" have no detector and score
    0, so the averaged style match is at most 0.5, below the 0.6 and
    0.8 thresholds of the 1.1 and 1.2 tiers, for every intent. *)
Theorem am_never_exceeds_one p r :
  let res := AM.analyze p r in
  AM.am_score res <= 1
  /\ AM.am_score res
     <= match AM.detected res with AM.precision_seeker => 9 # 10 | _ => 1 end
  /\ Forall (fun name => AM.get (AM._analyze_ai_style r) name 0 = 0)
            undetected_styles
  /\ (forall u, AM.style_match_score u (AM._analyze_ai_style r) <= (5 # 10))
  /\ (forall u, AM.style_match_score u (AM._analyze_ai_style r) < (6 # 10)).
Proof.
  cbv zeta. unfold AM.analyze. destruct (AM._detect_uip p) as [u conf].
  cbn [AM.am_score AM.detected].
  destruct (ai_style_is_table r) as (c & s & i & f & -> & Hc & Hs & Hi & Hf).
  assert (Htier : round3 (AM._calculate_am u (style_table c s i f) r)
                  <= match u with AM.precision_seeker => 9 # 10 | _ => 1 end).
  { pose proof (proj2 (am_of_table c s i f u r Hc Hs Hi Hf)) as H.
    destruct u.
    - apply (round3_between (8 # 10) _ 800 900); [reflexivity | reflexivity |].
      split; [apply am_calculate_range | exact H].
    - apply (round3_between (8 # 10) _ 800 1000); [reflexivity | reflexivity |].
      split; [apply am_calculate_range | exact H].
    - apply (round3_between (8 # 10) _ 800 1000); [reflexivity | reflexivity |].
      split; [apply am_calculate_range | exact H]. }
  split; [destruct u; lra|]. split; [exact Htier|].
  split; [apply undetected_of_table|].
  split; intros u'; pose proof (proj1 (am_of_table c s i f u' r Hc Hs Hi Hf));
    lra.
Qed.

End WithEngine.

End Alignment.

(* ================================================================== *)
(** * Worked examples of the primitives                                *)
(* ================================================================== *)

Module Checks.
Import Samples.

Example split_words :
  Py.split "What is  a for-loop?" = ["What"; "is"; "a"; "for-loop?"].
Proof. reflexivity. Qed.

Example split_sentences_keeps_empty_tail :
  split_sentences "Hi there. Ok?! Yes" = ["Hi there"; " Ok"; " Yes"]
  /\ split_sentences "Done." = ["Done"; ""].
Proof. split; reflexivity. Qed.

Example search_word_needs_boundaries :
  search_word "let's" "so let's go" = true
  /\ search_word "our" "your thoughts" = false
  /\ search_word "what is" "what is this" = true
  /\ search_word "model" "models" = false.
Proof. repeat split; reflexivity. Qed.

Example count_does_not_overlap : Py.count "..." "wait.... ok..." = 2%nat.
Proof. reflexivity. Qed.

Example round3_half_to_even :
  round3 (139 # 600) == 232 # 1000 /\ round3 (5 # 10000) == 0
  /\ round3 (15 # 10000) == 2 # 1000.
Proof. repeat split; reflexivity. Qed.

Example clean_anchor_text :
  CAI._clean_anchor_text "and  like a   river so" = "like a river"
  /\ CAI._validate_anchor "like a river" CAI.analogy_anchors = true
  /\ CAI._validate_anchor "suppose" CAI.hypothesis_anchors = false.
Proof. vm_compute. auto. Qed.

(** The components of IAI for "What is a for-loop?": one context keyword
    ("for"), four words in one sentence, a question mark. *)
Example iai_of_for_loop_prompt :
  let c := IAI.comps (IAI.analyze for_loop_prompt) in
  IAI.context_completeness c == 1 # 3
  /\ IAI.specificity_level c == 0
  /\ IAI.language_quality c == 3 # 10
  /\ IAI.structure_quality c == 2 # 10
  /\ IAI.information_sufficiency c == 1 # 10
  /\ IAI.tone_sentiment c == 6 # 10
  /\ IAI.iai_score (IAI.analyze for_loop_prompt) == 17 # 75.
Proof. vm_compute. repeat split. Qed.

Example expectation_sync_steps :
  SAS._calculate_expectation_sync "give me a brief list" "the list: a, b" == 9 # 10
  /\ SAS._calculate_expectation_sync "hello" "hi" == 7 # 10.
Proof. vm_compute. repeat split. Qed.

Example user_levels :
  CPS._detect_user_level "how to apply this" = 3%Z
  /\ CPS._detect_user_level "hello" = 1%Z
  /\ CPS._detect_ai_level "for instance, shall we" = 2%Z.
Proof. vm_compute. auto. Qed.

End Checks.

(* ================================================================== *)
(** * IAI: how far the score can go                                    *)
(* ================================================================== *)

Module InputQuality.
Import NumFacts Ranges Terms MoreTerms.

Lemma iai_language_tight p s n :
  (if (n =? 0)%nat then 0 else 2 # 10) <= IAI._score_language_quality p s n
  /\ IAI._score_language_quality p s n <= (8 # 10).
Proof.
  unfold IAI._score_language_quality.
  destruct (n =? 0)%nat; [split; lra|].
  generalize (Qn n / Qn (Nat.max s 1)). intros avg. qcases; split; lra.
Qed.

Lemma iai_sufficiency_tight n :
  (1 # 10) <= IAI._score_sufficiency n <= (9 # 10).
Proof.
  unfold IAI._score_sufficiency, IAI.optimal_word_count.
  change (Qn 20) with 20. change (Qn 150) with 150.
  change (150 - 20) with 130.
  natcases.
  - lra.
  - pose proof (Qn_lt _ _ H0) as Hlt. change (Qn 20) with 20 in Hlt.
    note_Qn. split; qlra.
  - pose proof (Qn_le _ _ H0) as Hge. change (Qn 20) with 20 in Hge.
    pose proof (Qn_le _ _ H1) as Hle. change (Qn 150) with 150 in Hle.
    split; qlra.
  - lra.
Qed.

Lemma iai_tone_tight p : (6 # 10) <= IAI._score_tone p <= 1.
Proof. unfold IAI._score_tone. unfold pymin. note_Qn. qcases; split; qlra. Qed.

(** The weighted sum of the six components, before the cap. *)
Lemma iai_raw_bounds p :
  let c := IAI.comps (IAI.analyze p) in
  let raw :=
    0 + IAI.context_completeness c * IAI.w_context_completeness
      + IAI.specificity_level c * IAI.w_specificity_level
      + IAI.language_quality c * IAI.w_language_quality
      + IAI.structure_quality c * IAI.w_structure_quality
      + IAI.information_sufficiency c * IAI.w_information_sufficiency
      + IAI.tone_sentiment c * IAI.w_tone_sentiment in
  (if (Py.word_count p =? 0)%nat then 7 # 100 else 11 # 100) <= raw
  /\ raw <= 95 # 100
  /\ IAI.iai_score (IAI.analyze p) = pymin raw 1.
Proof.
  cbv zeta. unfold IAI.analyze. cbn [IAI.iai_score IAI.comps
    IAI.context_completeness IAI.specificity_level IAI.language_quality
    IAI.structure_quality IAI.information_sufficiency IAI.tone_sentiment].
  pose proof (iai_context_range p) as [? ?].
  pose proof (iai_specificity_range p (Py.word_count p)) as [? ?].
  pose proof (iai_language_tight p
    (List.length (filter (fun s => Py.nonempty (Py.strip s)) (split_sentences p)))
    (Py.word_count p)) as [? ?].
  pose proof (iai_structure_range p) as [? ?].
  pose proof (iai_sufficiency_tight (Py.word_count p)) as [? ?].
  pose proof (iai_tone_tight p) as [? ?].
  unfold IAI.w_context_completeness, IAI.w_specificity_level,
    IAI.w_language_quality, IAI.w_structure_quality,
    IAI.w_information_sufficiency, IAI.w_tone_sentiment.
  split; [|split; [|reflexivity]].
  - destruct (Py.word_count p =? 0)%nat; lra.
  - lra.
Qed.


Lemma iai_tight p :
  (7 # 100) <= IAI.iai_score (IAI.analyze p) <= (95 # 100).
Proof.
  destruct (iai_raw_bounds p) as (Hlo & Hhi & ->).
  revert Hlo Hhi. cbv zeta.
  match goal with
  | |- context [pymin ?raw 1] => generalize raw
  end.
  intros raw Hlo Hhi.
  destruct (Py.word_count p =? 0)%nat; unfold pymin; qcases; split; lra.
Qed.

(** The four regimes of the sufficiency score. *)
Lemma sufficiency_regimes n :
  ((n < 5)%nat /\ IAI._score_sufficiency n = 1 # 10)
  \/ ((5 <= n < 20)%nat /\ 5 <= Qn n /\ Qn n < 20
      /\ IAI._score_sufficiency n = (3 # 10) + (Qn n / 20) * (3 # 10))
  \/ ((20 <= n <= 150)%nat /\ 20 <= Qn n /\ Qn n <= 150
      /\ IAI._score_sufficiency n
         = (6 # 10) + ((Qn n - 20) / 130) * (3 # 10))
  \/ ((150 < n)%nat /\ IAI._score_sufficiency n = 9 # 10).
Proof.
  unfold IAI._score_sufficiency, IAI.optimal_word_count.
  change (Qn 20) with 20. change (Qn 150) with 150.
  change (150 - 20) with 130.
  destruct (Nat.ltb_spec n 5) as [H5|H5]; [left; now split|].
  destruct (Nat.ltb_spec n 20) as [H20|H20].
  { right; left. split; [lia|].
    pose proof (Qn_le 5 n H5) as Ha. change (Qn 5) with 5 in Ha.
    pose proof (Qn_lt n 20 H20) as Hb. change (Qn 20) with 20 in Hb.
    now repeat split. }
  destruct (Nat.leb_spec n 150) as [H150|H150].
  { right; right; left. split; [lia|].
    pose proof (Qn_le 20 n H20) as Ha. change (Qn 20) with 20 in Ha.
    pose proof (Qn_le n 150 H150) as Hb. change (Qn 150) with 150 in Hb.
    now repeat split. }
  right; right; right. now split.
Qed.

(** More words never lower the sufficiency score. *)
Theorem sufficiency_monotone n m :
  (n <= m)%nat -> IAI._score_sufficiency n <= IAI._score_sufficiency m.
Proof.
  intros Hnm. pose proof (Qn_le n m Hnm) as Hq.
  destruct (sufficiency_regimes n)
    as [[Hn ->]|[(Hn & ? & ? & ->)|[(Hn & ? & ? & ->)|[Hn ->]]]];
    destruct (sufficiency_regimes m)
      as [[Hm ->]|[(Hm & ? & ? & ->)|[(Hm & ? & ? & ->)|[Hm ->]]]];
    try lia; qlra.
Qed.

Lemma sufficiency_monotone_witness :
  (19 <= 20)%nat /\ IAI._score_sufficiency 19 <= IAI._score_sufficiency 20.
Proof.
  assert (H : (19 <= 20)%nat) by lia.
  split; [exact H | exact (sufficiency_monotone 19 20 H)].
Defined.

End InputQuality.

(* ================================================================== *)
(** * PAS and SAS: the values that can occur                           *)
(* ================================================================== *)

Module ResponseQuality.
Import NumFacts Ranges Terms MoreTerms.

Lemma pas_collaboration_floor t : (1 # 10) <= PAS._analyze_collaboration t.
Proof. unfold PAS._analyze_collaboration. natcases; lra. Qed.

Lemma sas_goal_tight p r :
  (6 # 10) <= SAS._calculate_goal_sync p r <= (9 # 10).
Proof.
  unfold SAS._calculate_goal_sync.
  destruct (negb _); [lra|]. destruct (Py.any_present _ _); lra.
Qed.

Lemma sas_expectation_tight p r :
  (7 # 10) <= SAS._calculate_expectation_sync p r <= 1.
Proof.
  unfold SAS._calculate_expectation_sync.
  destruct (0 <? SAS.expectation_matches p r)%nat eqn:E; [|lra].
  apply Nat.ltb_lt in E.
  pose proof (Qn_le 1 _ E) as H. change (Qn 1) with 1 in H.
  unfold pymin. qcases; lra.
Qed.

Lemma sas_depth_tight p r :
  (4 # 10) <= SAS._calculate_depth_sync p r <= (9 # 10).
Proof.
  unfold SAS._calculate_depth_sync. repeat (destruct (_ && _)); lra.
Qed.

Ltac qn_consts :=
  repeat match goal with
  | H : context [Qn (S ?k)] |- _ =>
      let c := eval vm_compute in (Qn (S k)) in
      change (Qn (S k)) with c in H
  | |- context [Qn (S ?k)] =>
      let c := eval vm_compute in (Qn (S k)) in
      change (Qn (S k)) with c
  end.

Ltac nat_to_Q :=
  repeat match goal with
  | H : (_ <= _)%nat |- _ => apply Qn_le in H
  | H : (_ < _)%nat |- _ => apply Qn_lt in H
  end; qn_consts.

(** depth_sync as windows of response length: a prompt under 10 words
    wants 35 to 65 words for 0.9 and 20 to 80 words for 0.7; a prompt under
    30 words wants 70 to 130 and 40 to 160; a longer prompt wants 140 to
    260 and 80 to 320; any other length, an empty response included,
    scores 0.4. *)
Theorem depth_sync_windows p r :
  SAS._calculate_depth_sync p r
  == let '(best, fair) := depth_windows (Py.word_count p) in
     if within best (Py.word_count r) then 9 # 10
     else if within fair (Py.word_count r) then 7 # 10
     else 4 # 10.
Proof.
  unfold SAS._calculate_depth_sync, depth_windows, within.
  generalize (Py.word_count p) (Py.word_count r). intros pw rw.
  destruct (pw <? 10)%nat; [|destruct (pw <? 30)%nat];
    cbn [fst snd];
    try change (0 <? 50)%nat with true;
    try change (0 <? 100)%nat with true;
    try change (0 <? 200)%nat with true;
    cbv iota; qn_consts;
    repeat match goal with
    | |- context [Nat.leb ?a ?b] => destruct (Nat.leb_spec a b)
    end;
    nat_to_Q; qcases; cbn [andb]; qlra.
Qed.

Section WithEngine.
Context {engine : PyRe}.

Lemma pas_raw_bounds t :
  (25 # 1000)
  <= PAS._analyze_chunking t * PAS.w_chunking
     + PAS._analyze_structure t * PAS.w_structure
     + PAS._analyze_collaboration t * PAS.w_collaboration
     + PAS._analyze_rhythm t * PAS.w_rhythm
  <= 1.
Proof.
  pose proof (pas_chunking_range t) as [? ?].
  pose proof (pas_structure_range t) as [? ?].
  pose proof (pas_collaboration_range t) as [? ?].
  pose proof (pas_collaboration_floor t).
  pose proof (pas_rhythm_range t) as [? ?].
  unfold PAS.w_chunking, PAS.w_structure, PAS.w_collaboration, PAS.w_rhythm.
  split; lra.
Qed.

(** The PAS score of a response is never below 0.025: neutral text still
    earns the base collaboration score 0.1 with weight 0.25. *)
Theorem pas_score_at_least_0025 t :
  (25 # 1000) <= PAS.pas_score (PAS.analyze t) <= 1.
Proof.
  unfold PAS.analyze. cbn [PAS.pas_score].
  apply (round3_between _ _ 25 1000); [reflexivity | reflexivity |].
  apply pas_raw_bounds.
Qed.

Lemma sas_raw_bounds p r :
  (370 # 1000)
  <= SAS._calculate_style_sync (SAS._analyze_user_style p)
                               (SAS._analyze_user_style r) * SAS.w_style_sync
     + SAS._calculate_goal_sync p r * SAS.w_goal_sync
     + SAS._calculate_expectation_sync p r * SAS.w_expectation_sync
     + SAS._calculate_depth_sync p r * SAS.w_depth_sync
  <= (955 # 1000).
Proof.
  pose proof (sas_style_sync_range _ _ (sas_style_unit p) (sas_style_unit r))
    as [? ?].
  pose proof (sas_goal_tight p r) as [? ?].
  pose proof (sas_expectation_tight p r) as [? ?].
  pose proof (sas_depth_tight p r) as [? ?].
  unfold SAS.w_style_sync, SAS.w_goal_sync, SAS.w_expectation_sync,
    SAS.w_depth_sync.
  split; lra.
Qed.

(** The SAS score always lies between 0.37 and 0.955: goal_sync is at
    least 0.6 and at most 0.9, expectation_sync at least 0.7, depth_sync
    between 0.4 and 0.9. *)
Theorem sas_score_between_037_and_0955 p r :
  (370 # 1000) <= SAS.sas_score (SAS.analyze p r) <= (955 # 1000).
Proof.
  unfold SAS.analyze. cbn [SAS.sas_score].
  apply (round3_between _ _ 370 955); [reflexivity | reflexivity |].
  apply sas_raw_bounds.
Qed.

(** The style dict always has the five families, in order. *)
Lemma user_style_shape t :
  exists v1 v2 v3 v4 v5,
    SAS._analyze_user_style t
    = [("formal", v1); ("informal", v2); ("direct", v3); ("narrative", v4);
       ("data_driven", v5)].
Proof.
  unfold SAS._analyze_user_style, SAS.style_patterns. cbn [map].
  do 5 eexists. reflexivity.
Qed.

(** Against a dict that returns each of its values, every family is fully
    similar. *)
Lemma similarity_of_equal_styles ai us :
  Forall (fun kv => SAS.item ai (fst kv) == snd kv) us ->
  forall acc,
    fold_left
      (fun acc '(style, user_value) =>
         let similarity := 1 - SAS.pyabs (user_value - SAS.item ai style) in
         acc + similarity * (2 # 10))
      us acc
    == acc + Qn (List.length us) * (2 # 10).
Proof.
  induction 1 as [|[k v] us Hkv _ IH]; intros acc; cbn [fold_left List.length].
  - change (Qn 0) with 0. lra.
  - rewrite IH. cbn [fst snd] in Hkv.
    assert (Hn : Qn (S (List.length us)) == Qn (List.length us) + 1).
    { unfold Qn. rewrite Nat2Z.inj_succ, <- Z.add_1_r, inject_Z_plus.
      reflexivity. }
    rewrite Hn. unfold SAS.pyabs. qcases; lra.
Qed.

(** [max] over a style dict: the value returned is one of the five and
    none is larger. *)
Lemma dominant_of_five v1 v2 v3 v4 v5 :
  exists dom,
    PyMax.max_by_value Qltb
      [("formal", v1); ("informal", v2); ("direct", v3); ("narrative", v4);
       ("data_driven", v5)] = Some dom
    /\ v1 <= snd dom /\ v2 <= snd dom /\ v3 <= snd dom /\ v4 <= snd dom
    /\ v5 <= snd dom
    /\ (snd dom = v1 \/ snd dom = v2 \/ snd dom = v3 \/ snd dom = v4
        \/ snd dom = v5).
Proof.
  unfold PyMax.max_by_value. cbn [PyMax.max_item snd]. eexists.
  split; [reflexivity|].
  destruct (Qltb v1 v2) eqn:H2; cbn [snd];
    destruct (Qltb _ v3) eqn:H3; cbn [snd];
    destruct (Qltb _ v4) eqn:H4; cbn [snd];
    destruct (Qltb _ v5) eqn:H5; cbn [snd];
    repeat match goal with
    | H : Qltb _ _ = true |- _ => apply Qltb_true in H
    | H : Qltb _ _ = false |- _ => apply Qltb_false in H
    end;
    repeat match goal with |- _ /\ _ => split end;
    try lra; auto 6.
Qed.

(** The score of a family before the cap: a tenth per match. *)
Lemma style_score_of_matches text patterns acc :
  fold_left
    (fun score pattern =>
       let matches := re_findall IGNORECASE pattern text in
       score + Qn matches * (1 # 10))
    patterns acc
  == acc
     + Qn (list_sum (map (fun pattern => re_findall IGNORECASE pattern text)
                         patterns)) * (1 # 10).
Proof.
  revert acc. induction patterns as [|pattern rest IH]; intros acc;
    cbn [fold_left map list_sum fold_right].
  - change (Qn 0) with 0. lra.
  - rewrite IH. cbv zeta. unfold Qn, list_sum.
    rewrite Nat2Z.inj_add, inject_Z_plus. lra.
Qed.

(** Each intensity of the style dict is a tenth per match of its family,
    capped at 1. *)
Lemma user_style_intensities t :
  exists v1 v2 v3 v4 v5 ps1 ps2 ps3 ps4 ps5,
    SAS.style_patterns
    = [("formal", ps1); ("informal", ps2); ("direct", ps3);
       ("narrative", ps4); ("data_driven", ps5)]
    /\ SAS._analyze_user_style t
       = [("formal", v1); ("informal", v2); ("direct", v3); ("narrative", v4);
          ("data_driven", v5)]
    /\ v1 == pymin (Qn (style_matches ps1 t) * (1 # 10)) 1
    /\ v2 == pymin (Qn (style_matches ps2 t) * (1 # 10)) 1
    /\ v3 == pymin (Qn (style_matches ps3 t) * (1 # 10)) 1
    /\ v4 == pymin (Qn (style_matches ps4 t) * (1 # 10)) 1
    /\ v5 == pymin (Qn (style_matches ps5 t) * (1 # 10)) 1.
Proof.
  unfold SAS._analyze_user_style, SAS.style_patterns. cbn [map].
  do 10 eexists. split; [reflexivity|]. split; [reflexivity|].
  assert (Hcap : forall a b, a == b -> pymin a 1 == pymin b 1).
  { intros a b E. unfold pymin. qcases; lra. }
  repeat match goal with |- _ /\ _ => split end;
    apply Hcap; unfold style_matches;
    rewrite style_score_of_matches; lra.
Qed.

(** Equal counts for every pattern give the same style dict. *)
Lemma style_of_same_counts p r :
  same_style_counts p r ->
  SAS._analyze_user_style p = SAS._analyze_ai_style r.
Proof.
  unfold same_style_counts, SAS._analyze_ai_style, SAS._analyze_user_style.
  rewrite Forall_forall. intros H. apply map_ext_in.
  intros [name patterns] Hin. f_equal. f_equal.
  assert (Hps : forall pattern, In pattern patterns ->
            re_findall IGNORECASE pattern (Py.lower p)
            = re_findall IGNORECASE pattern (Py.lower r)).
  { intros pattern Hp. apply H. apply in_flat_map.
    exists (name, patterns). split; [exact Hin | exact Hp]. }
  clear H Hin. generalize 0.
  induction patterns as [|pattern rest IH]; intros acc; [reflexivity|].
  cbn [fold_left]. cbv zeta. rewrite (Hps pattern (or_introl eq_refl)).
  apply IH. intros q Hq. apply Hps. right. exact Hq.
Qed.

(** A dict against itself: full similarity, so the score is 0.6 plus the
    bonus of the dominant style. *)
Lemma style_sync_against_itself v1 v2 v3 v4 v5 dom :
  let d := [("formal", v1); ("informal", v2); ("direct", v3);
            ("narrative", v4); ("data_driven", v5)] in
  PyMax.max_by_value Qltb d = Some dom ->
  SAS._calculate_style_sync d d
  == if (3 # 10) <? snd dom then 1 else 6 # 10.
Proof.
  intros d E. unfold SAS._calculate_style_sync. rewrite E.
  rewrite String.eqb_refl. cbn [andb]. cbv zeta.
  match goal with
  | |- context [fold_left ?f d 0] =>
      assert (Hsim : fold_left f d 0 == 1);
      [ rewrite (similarity_of_equal_styles d d);
        [ vm_compute; reflexivity
        | unfold d; repeat constructor; cbn; reflexivity ]
      | revert Hsim; generalize (fold_left f d 0); intros sim Hsim ]
  end.
  assert (Hcap : pymin sim (6 # 10) == 6 # 10)
    by (unfold pymin; qcases; lra).
  revert Hcap. generalize (pymin sim (6 # 10)). intros capped Hcap.
  destruct ((3 # 10) <? snd dom); unfold pymin; qcases; lra.
Qed.

Lemma intensity_of_four n : (4 <= n)%nat -> (4 # 10) <= pymin (Qn n * (1 # 10)) 1.
Proof.
  intros H. apply Qn_le in H. change (Qn 4) with 4 in H.
  unfold pymin. qcases; lra.
Qed.

Lemma intensity_of_two n : (n <= 2)%nat -> pymin (Qn n * (1 # 10)) 1 <= (2 # 10).
Proof.
  intros H. apply Qn_le in H. change (Qn 2) with 2 in H.
  unfold pymin. qcases; lra.
Qed.

(** When prompt and response match every style pattern equally often,
    style_sync is 1.0 if some style family has four matches or more in the
    prompt, and 0.6 if every family has two matches at most.  With exactly
    three matches the intensity of the dominant style sits on the
    threshold 0.3 of the bonus, where the float sum decides; that case is
    left out. *)
Theorem style_sync_of_equal_styles p r :
  same_style_counts p r ->
  (Exists (fun family => (4 <= style_matches (snd family) p)%nat)
          SAS.style_patterns ->
   SAS.style_sync (SAS.analyze p r) == 1)
  /\ (Forall (fun family => (style_matches (snd family) p <= 2)%nat)
             SAS.style_patterns ->
      SAS.style_sync (SAS.analyze p r) == 6 # 10).
Proof.
  intros Hsame. unfold SAS.analyze. cbn [SAS.style_sync].
  rewrite <- (style_of_same_counts p r Hsame).
  destruct (user_style_intensities p)
    as (v1 & v2 & v3 & v4 & v5 & ps1 & ps2 & ps3 & ps4 & ps5
        & -> & -> & E1 & E2 & E3 & E4 & E5).
  destruct (dominant_of_five v1 v2 v3 v4 v5)
    as (dom & Hdom & L1 & L2 & L3 & L4 & L5 & Hone).
  rewrite (style_sync_against_itself v1 v2 v3 v4 v5 dom Hdom).
  split.
  - intros Hex.
    assert (Hbig : (4 # 10) <= snd dom).
    { repeat match goal with
      | H : Exists _ (_ :: _) |- _ => apply Exists_cons in H; destruct H as [H|H]
      | H : Exists _ [] |- _ => apply Exists_nil in H; contradiction
      end; cbn [snd] in *;
      match goal with
      | H : (4 <= _)%nat |- _ => apply intensity_of_four in H
      end; lra. }
    destruct ((3 # 10) <? snd dom) eqn:T; [reflexivity|].
    apply Qltb_false in T. lra.
  - intros Hall.
    assert (Hsmall : snd dom <= (2 # 10)).
    { repeat match goal with
      | H : Forall _ (_ :: _) |- _ =>
          let H1 := fresh "Hn" in
          apply Forall_cons_iff in H; destruct H as [H1 H];
          cbn [snd] in H1; apply intensity_of_two in H1
      end.
      destruct Hone as [->|[->|[->|[->| ->]]]]; lra. }
    destruct ((3 # 10) <? snd dom) eqn:T; [|reflexivity].
    apply Qltb_true in T. lra.
Qed.

End WithEngine.

Lemma style_sync_of_equal_styles_witness :
  @same_style_counts literal_engine four_data_prompt four_data_response
  /\ Exists (fun family =>
               (4 <= @style_matches literal_engine (snd family)
                       four_data_prompt)%nat)
            SAS.style_patterns
  /\ @SAS.style_sync
       (@SAS.analyze literal_engine four_data_prompt four_data_response) == 1.
Proof.
  assert (H : @same_style_counts literal_engine four_data_prompt
                four_data_response).
  { unfold same_style_counts. repeat constructor. }
  assert (H4 : Exists (fun family =>
                 (4 <= @style_matches literal_engine (snd family)
                         four_data_prompt)%nat)
               SAS.style_patterns).
  { unfold SAS.style_patterns. do 4 apply Exists_cons_tl.
    apply Exists_cons_hd. vm_compute. repeat constructor. }
  split; [exact H|]. split; [exact H4|].
  exact (proj1 (@style_sync_of_equal_styles literal_engine four_data_prompt
                  four_data_response H) H4).
Defined.

End ResponseQuality.

(* ================================================================== *)
(** * CPS: levels                                                      *)
(* ================================================================== *)

Module Levels.
Import NumFacts Ranges Terms MoreTerms.

(** The history can only raise the achieved level, and by at most one:
    the level lies between max(user, ai) and max(user, ai) + 1, both capped
    at 5, and without history it is max(user, ai) capped at 5. *)
Theorem achieved_level_between u a h :
  (Z.min (Z.max u a) 5 <= CPS._determine_achieved_level u a h)%Z
  /\ (CPS._determine_achieved_level u a h <= Z.min (Z.max u a + 1) 5)%Z
  /\ CPS._determine_achieved_level u a [] = Z.min (Z.max u a) 5.
Proof.
  unfold CPS._determine_achieved_level.
  split; [|split]; try lia;
    (destruct h as [|t h']; [lia|]; destruct (_ <? _)%Z; lia).
Qed.

(** The five weighted scores, in the order of the levels: each is the
    number of the level's keywords found, times 1 + 0.1 level. *)
Lemma user_level_scores_shape p :
  CPS.user_level_scores p
  = [(1%Z, level_weight 1 p); (2%Z, level_weight 2 p); (3%Z, level_weight 3 p);
     (4%Z, level_weight 4 p); (5%Z, level_weight 5 p)].
Proof. reflexivity. Qed.

Lemma levels_one_to_five k :
  (1 <= k <= 5)%Z -> k = 1%Z \/ k = 2%Z \/ k = 3%Z \/ k = 4%Z \/ k = 5%Z.
Proof. lia. Qed.

(** [max] over a table of five levels returns the first level of the
    largest value. *)
Lemma first_maximum_of_five (w : Z -> Q) :
  let level :=
    match PyMax.max_by_value Qltb
            [(1%Z, w 1%Z); (2%Z, w 2%Z); (3%Z, w 3%Z); (4%Z, w 4%Z);
             (5%Z, w 5%Z)] with
    | Some (level, _) => level
    | None => 1%Z
    end in
  (1 <= level <= 5)%Z
  /\ (forall k, (1 <= k <= 5)%Z -> w k <= w level)
  /\ (forall k, (1 <= k < level)%Z -> w k < w level).
Proof.
  cbv zeta. unfold PyMax.max_by_value. cbn [PyMax.max_item snd].
  remember (w 1%Z) as s1 eqn:E1. remember (w 2%Z) as s2 eqn:E2.
  remember (w 3%Z) as s3 eqn:E3. remember (w 4%Z) as s4 eqn:E4.
  remember (w 5%Z) as s5 eqn:E5.
  destruct (Qltb s1 s2) eqn:H2; cbn [snd];
    destruct (Qltb _ s3) eqn:H3; cbn [snd];
    destruct (Qltb _ s4) eqn:H4; cbn [snd];
    destruct (Qltb _ s5) eqn:H5; cbn [snd];
    repeat match goal with
    | H : Qltb _ _ = true |- _ => apply Qltb_true in H
    | H : Qltb _ _ = false |- _ => apply Qltb_false in H
    end;
    (split; [lia|]); split; intros k Hk;
    (destruct (levels_one_to_five k ltac:(lia))
       as [->|[->|[->|[->| ->]]]]);
    try lia; rewrite <- ?E1, <- ?E2, <- ?E3, <- ?E4, <- ?E5; lra.
Qed.

(** More keywords, or as many at a higher level, weigh more. *)
Lemma level_weight_increases j k p :
  (1 <= j < k)%Z ->
  user_keyword_count j p = user_keyword_count k p ->
  (0 < user_keyword_count k p)%nat ->
  level_weight j p < level_weight k p.
Proof.
  intros Hjk Hc Hpos. unfold level_weight. rewrite Hc.
  apply Qn_pos in Hpos.
  assert (Hq : inject_Z j < inject_Z k) by (rewrite <- Zlt_Qlt; lia).
  revert Hpos Hq.
  generalize (Qn (user_keyword_count k p)) (inject_Z j) (inject_Z k).
  intros c a b Hc0 Hab.
  setoid_replace (c * (1 + b * (1 # 10)))
    with (c * (1 + a * (1 # 10)) + c * ((b - a) * (1 # 10))) by ring.
  assert (0 < c * ((b - a) * (1 # 10))); [|lra].
  apply Qmult_lt_0_compat; lra.
Qed.

(** The detected user level is the first level of the largest weight,
    where the weight of a level is the number of its keywords found in the
    prompt times 1 + 0.1 level: the table that is maximised holds these
    weights, no level weighs more than the detected one and every lower
    level weighs strictly less.  Hence a prompt without any keyword is at
    level 1, and of two levels with the same positive number of keywords
    the lower one is never detected. *)
Theorem user_level_is_first_weighted_maximum p :
  let level := CPS._detect_user_level p in
  (1 <= level <= 5)%Z
  /\ (forall k, (1 <= k <= 5)%Z ->
        score_at (CPS.user_level_scores p) k == level_weight k p)
  /\ (forall k, (1 <= k <= 5)%Z -> level_weight k p <= level_weight level p)
  /\ (forall k, (1 <= k < level)%Z -> level_weight k p < level_weight level p)
  /\ ((forall k, (1 <= k <= 5)%Z -> user_keyword_count k p = 0%nat) ->
      level = 1%Z)
  /\ (forall j k, (1 <= j < k)%Z -> (k <= 5)%Z ->
        user_keyword_count j p = user_keyword_count k p ->
        (0 < user_keyword_count k p)%nat ->
        level <> j).
Proof.
  cbv zeta.
  assert (Hmax :
    (1 <= CPS._detect_user_level p <= 5)%Z
    /\ (forall k, (1 <= k <= 5)%Z ->
          level_weight k p <= level_weight (CPS._detect_user_level p) p)
    /\ (forall k, (1 <= k < CPS._detect_user_level p)%Z ->
          level_weight k p < level_weight (CPS._detect_user_level p) p)).
  { unfold CPS._detect_user_level. rewrite user_level_scores_shape.
    exact (first_maximum_of_five (fun k => level_weight k p)). }
  destruct Hmax as (Hrange & Hle & Hlt).
  split; [exact Hrange|]. split.
  { intros k Hk. rewrite user_level_scores_shape.
    destruct (levels_one_to_five k Hk) as [->|[->|[->|[->| ->]]]];
      reflexivity. }
  split; [exact Hle|]. split; [exact Hlt|]. split.
  - intros Hnone.
    destruct (Z.eq_dec (CPS._detect_user_level p) 1) as [|Hne]; [assumption|].
    exfalso. specialize (Hlt 1%Z ltac:(lia)). unfold level_weight in Hlt.
    rewrite (Hnone 1%Z), (Hnone (CPS._detect_user_level p)) in Hlt by lia.
    change (Qn 0) with 0 in Hlt. lra.
  - intros j k Hjk Hk Hc Hpos Hlevel.
    pose proof (level_weight_increases j k p Hjk Hc Hpos) as Hw.
    specialize (Hle k ltac:(lia)). rewrite Hlevel in Hle. lra.
Qed.

End Levels.

(* ================================================================== *)
(** * CSS: levels                                                      *)
(* ================================================================== *)

Module Safety.
Import NumFacts Ranges Terms MoreTerms.

(** Raising any of the three sub-scores never lowers the CSS level. *)
Theorem css_level_monotone s s' c c' x x' :
  s <= s' -> c <= c' -> x <= x' ->
  (CSS._determine_css_level s c x <= CSS._determine_css_level s' c' x')%Z.
Proof.
  intros Hs Hc Hx. unfold CSS._determine_css_level.
  qcases; try lia; exfalso; lra.
Qed.

Lemma css_level_monotone_witness :
  (5 # 10) <= (9 # 10) /\ (5 # 10) <= (5 # 10) /\ (7 # 10) <= (7 # 10)
  /\ (CSS._determine_css_level (5 # 10) (5 # 10) (7 # 10)
      <= CSS._determine_css_level (9 # 10) (5 # 10) (7 # 10))%Z.
Proof.
  assert (H1 : (5 # 10) <= (9 # 10)) by discriminate.
  assert (H2 : (5 # 10) <= (5 # 10)) by discriminate.
  assert (H3 : (7 # 10) <= (7 # 10)) by discriminate.
  split; [exact H1|]. split; [exact H2|]. split; [exact H3|].
  exact (css_level_monotone _ _ _ _ _ _ H1 H2 H3).
Defined.

Lemma css_context_values d :
  (5 # 10) <= CSS._analyze_context d <= (8 # 10).
Proof.
  unfold CSS._analyze_context.
  destruct (_ && _); [|vm_compute; split; discriminate].
  generalize (Qn (CSS.get (CSS.response_length d) 0)
              / Qn (CSS.get (CSS.user_prompt_length d) 0)).
  intros ratio.
  destruct (5 <? ratio); [vm_compute; split; discriminate|].
  destruct (ratio <? (5 # 10)); vm_compute; split; discriminate.
Qed.

Lemma level_of_neutral_scores a u ctx :
  a == 5 # 10 -> u == 5 # 10 -> (5 # 10) <= ctx <= (8 # 10) ->
  CSS._determine_css_level a u ctx = 2%Z.
Proof.
  intros Ha Hu [Hlo Hhi]. unfold CSS._determine_css_level.
  qcases; try reflexivity; exfalso; lra.
Qed.

Lemma user_comfort_neutral p :
  Py.count_present CSS.comfortable_signals (Py.lower p) = 0%nat ->
  Py.count_present CSS.uncomfortable_signals (Py.lower p) = 0%nat ->
  CSS._analyze_user_comfort p == 5 # 10.
Proof.
  intros H1 H2. unfold CSS._analyze_user_comfort. rewrite H1, H2.
  vm_compute. reflexivity.
Qed.

Section WithEngine.
Context {engine : PyRe}.

Lemma ai_safety_neutral r :
  CSS.count_matching CSS.positive_signals (Py.lower r) = 0%nat ->
  CSS.count_matching CSS.collaborative_language (Py.lower r) = 0%nat ->
  CSS.count_matching CSS.empowerment_signals (Py.lower r) = 0%nat ->
  CSS.count_matching CSS.negative_signals (Py.lower r) = 0%nat ->
  CSS._analyze_ai_safety r == 5 # 10.
Proof.
  intros H1 H2 H3 H4. unfold CSS._analyze_ai_safety.
  rewrite H1, H2, H3, H4. vm_compute. reflexivity.
Qed.

(** A neutral exchange is rated level 2: when the response matches none of
    the safety patterns and the prompt holds no comfort or discomfort
    word, the CSS level is 2 and the score 0.4, whatever the lengths of
    prompt and response. *)
Theorem neutral_exchange_is_level_two p r d :
  CSS.count_matching CSS.positive_signals (Py.lower r) = 0%nat ->
  CSS.count_matching CSS.collaborative_language (Py.lower r) = 0%nat ->
  CSS.count_matching CSS.empowerment_signals (Py.lower r) = 0%nat ->
  CSS.count_matching CSS.negative_signals (Py.lower r) = 0%nat ->
  Py.count_present CSS.comfortable_signals (Py.lower p) = 0%nat ->
  Py.count_present CSS.uncomfortable_signals (Py.lower p) = 0%nat ->
  CSS.css_level (CSS.analyze p r d) = 2%Z
  /\ CSS.css_score (CSS.analyze p r d) == 4 # 10.
Proof.
  intros H1 H2 H3 H4 H5 H6.
  assert (Hlevel : CSS._determine_css_level (CSS._analyze_ai_safety r)
                     (CSS._analyze_user_comfort p) (CSS._analyze_context d)
                   = 2%Z).
  { apply level_of_neutral_scores.
    - now apply ai_safety_neutral.
    - now apply user_comfort_neutral.
    - apply css_context_values. }
  unfold CSS.analyze. cbn [CSS.css_level CSS.css_score].
  rewrite Hlevel. split; [reflexivity|]. vm_compute. reflexivity.
Qed.

(** CPS and CSS score on a five-step scale: the score is the level over
    5, the level lies between 1 and 5, so the score is one of 0.2, 0.4,
    0.6, 0.8, 1.0 and never 0. *)
Theorem cps_and_css_scores_are_fifths p r h d :
  CPS.cps_score (CPS.analyze p r h)
  == inject_Z (CPS.achieved_level (CPS.analyze p r h)) / 5
  /\ (1 <= CPS.achieved_level (CPS.analyze p r h) <= 5)%Z
  /\ CSS.css_score (CSS.analyze p r d)
     == inject_Z (CSS.css_level (CSS.analyze p r d)) / 5
  /\ (1 <= CSS.css_level (CSS.analyze p r d) <= 5)%Z.
Proof.
  unfold CPS.analyze, CSS.analyze.
  cbn [CPS.cps_score CPS.achieved_level CSS.css_score CSS.css_level].
  split; [apply Progression.round3_fifths|].
  split; [apply determine_achieved_level_range, detect_user_level_range|].
  split; [apply Progression.round3_fifths | apply css_level_range].
Qed.

End WithEngine.

Lemma neutral_exchange_is_level_two_witness :
  @CSS.css_level (@CSS.analyze silent_engine "What is a for-loop?" "A loop."
     {| CSS.response_length := Some 2%nat;
        CSS.user_prompt_length := Some 4%nat;
        CSS.has_ai_response := Some true |}) = 2%Z.
Proof.
  exact (proj1 (@neutral_exchange_is_level_two silent_engine
                  "What is a for-loop?" "A loop."
                  {| CSS.response_length := Some 2%nat;
                     CSS.user_prompt_length := Some 4%nat;
                     CSS.has_ai_response := Some true |}
                  eq_refl eq_refl eq_refl eq_refl eq_refl eq_refl)).
Defined.

End Safety.

(* ================================================================== *)
(** * AM: intents and multipliers                                      *)
(* ================================================================== *)

Module Intent.
Import NumFacts Ranges Terms MoreTerms Interpretation.

(** The loop of [_detect_uip], one intent after the other. *)
Lemma detect_uip_steps p :
  AM._detect_uip p
  = let '(b1, s1) :=
      if (0 <? uip_count AM.precision_seeker p)%nat
      then (AM.precision_seeker, uip_count AM.precision_seeker p)
      else (AM.precision_seeker, 0%nat) in
    let '(b2, s2) :=
      if (s1 <? uip_count AM.strategic_explorer p)%nat
      then (AM.strategic_explorer, uip_count AM.strategic_explorer p)
      else (b1, s1) in
    let '(b3, s3) :=
      if (s2 <? uip_count AM.co_creation_partner p)%nat
      then (AM.co_creation_partner, uip_count AM.co_creation_partner p)
      else (b2, s2) in
    (b3, pymin (Qn s3 / 3) 1).
Proof.
  cbv beta iota zeta delta [AM._detect_uip uip_count keywords_of
    AM.uip_patterns fold_left find AM.uip_eqb AM.keywords].
  repeat match goal with
  | |- context [Nat.ltb ?a ?b] => destruct (Nat.ltb a b)
  end; reflexivity.
Qed.

(** The detected intent is the first one, in the order precision_seeker,
    strategic_explorer, co_creation_partner, with the most keywords in the
    prompt; the confidence is that count over 3, capped at 1; a prompt
    without any keyword is a precision_seeker of confidence 0. *)
Theorem detected_intent_is_first_maximum p :
  let u := fst (AM._detect_uip p) in
  (forall v, (uip_count v p <= uip_count u p)%nat)
  /\ (forall v, (uip_rank v < uip_rank u)%nat ->
                (uip_count v p < uip_count u p)%nat)
  /\ snd (AM._detect_uip p) = pymin (Qn (uip_count u p) / 3) 1
  /\ (if (uip_count u p =? 0)%nat
      then u = AM.precision_seeker /\ snd (AM._detect_uip p) == 0
      else 0 < snd (AM._detect_uip p)).
Proof.
  cbv zeta. rewrite detect_uip_steps.
  remember (uip_count AM.precision_seeker p) as n1 eqn:E1.
  remember (uip_count AM.strategic_explorer p) as n2 eqn:E2.
  remember (uip_count AM.co_creation_partner p) as n3 eqn:E3.
  destruct (Nat.ltb_spec 0 n1); cbv beta iota zeta;
    match goal with
    | |- context [Nat.ltb ?a n2] => destruct (Nat.ltb_spec a n2)
    end; cbv beta iota zeta;
    match goal with
    | |- context [Nat.ltb ?a n3] => destruct (Nat.ltb_spec a n3)
    end; cbv beta iota zeta; cbn [fst snd];
    rewrite <- ?E1, <- ?E2, <- ?E3;
    (split; [intros v; destruct v; rewrite <- ?E1, <- ?E2, <- ?E3; lia|]);
    (split; [intros v; destruct v; cbn [uip_rank];
             rewrite <- ?E1, <- ?E2, <- ?E3; lia|]);
    (split; [try reflexivity; replace n1 with 0%nat by lia; reflexivity|]);
    match goal with
    | |- context [Nat.eqb ?n 0] =>
        destruct (Nat.eqb_spec n 0) as [Hz|Hz];
        [ first [ lia
                | split; [reflexivity|];
                  try rewrite Hz; vm_compute; reflexivity ]
        | first [ lia
                | assert (Hone : (1 <= n)%nat) by lia;
                  apply Qn_le in Hone; change (Qn 1) with 1 in Hone;
                  unfold pymin; qcases; qlra ] ]
    end.
Qed.

(** Over a style table within the detectors' maxima, the multiplier
    before rounding is 0.8, 0.9 or 1.0. *)
Lemma am_of_table_values c s i f u r :
  0 <= c <= (5 # 10) -> 0 <= s <= 1 -> 0 <= i <= (9 # 10) -> 0 <= f <= 1 ->
  AM._calculate_am u (style_table c s i f) r == 8 # 10
  \/ AM._calculate_am u (style_table c s i f) r == 9 # 10
  \/ AM._calculate_am u (style_table c s i f) r == 1.
Proof.
  intros Hc Hs Hi Hf.
  pose proof (Alignment.style_match_bound c s i f u Hc Hs Hi Hf) as Hm.
  unfold AM._calculate_am. cbv zeta. rewrite Alignment.interactive_of_table.
  revert Hm. generalize (AM.style_match_score u (style_table c s i f)).
  intros m Hm. destruct Hi as [_ Hi].
  destruct u; cbn [AM.uip_eqb andb];
    try destruct (300 <? Py.word_count r)%nat;
    qcases;
    first [ exfalso; lra
          | left; vm_compute; reflexivity
          | right; left; vm_compute; reflexivity
          | right; right; vm_compute; reflexivity ].
Qed.

(** For a precision_seeker, a table whose "concise" entry is 0 and a
    response over 300 words give 0.8 before rounding. *)
Lemma am_of_long_response c s i f r :
  c == 0 -> 0 <= s <= 1 ->
  (300 < Py.word_count r)%nat ->
  AM._calculate_am AM.precision_seeker (style_table c s i f) r == 8 # 10.
Proof.
  intros Hc Hs Hlong.
  unfold AM._calculate_am. cbv zeta.
  rewrite Alignment.interactive_of_table, Alignment.style_match_of_table.
  cbn [AM.uip_eqb andb].
  apply Nat.ltb_lt in Hlong. rewrite Hlong.
  assert (Hm : pymin ((0 + c + s + 0 + 0) / 4) 1 <= 25 # 100)
    by (unfold pymin; qcases; qlra).
  revert Hm. generalize (pymin ((0 + c + s + 0 + 0) / 4) 1). intros m Hm.
  qcases;
    first [ exfalso; lra | vm_compute; reflexivity ].
Qed.

Lemma round3_tenths :
  round3 (8 # 10) == 8 # 10 /\ round3 (9 # 10) == 9 # 10 /\ round3 1 == 1.
Proof. repeat split; vm_compute; reflexivity. Qed.

Section WithEngine.
Context {engine : PyRe}.

(** The style dict of a response, with the exact "concise" entry. *)
Lemma ai_style_with_concise r :
  exists s i f,
    AM._analyze_ai_style r = style_table (concise_score r) s i f
    /\ 0 <= s <= 1 /\ 0 <= i <= (9 # 10) /\ 0 <= f <= 1.
Proof.
  destruct (Alignment.ai_style_is_table r) as (c & s & i & f & E & _ & Hs & Hi & Hf).
  exists s, i, f. split; [|now repeat split].
  rewrite E. unfold style_table. f_equal. f_equal.
  assert (Hc : AM.get (AM._analyze_ai_style r) "concise" 0 = c)
    by (rewrite E; reflexivity).
  rewrite <- Hc. reflexivity.
Qed.

Lemma am_score_values_helper p r :
  AM.am_score (AM.analyze p r) == 8 # 10
  \/ AM.am_score (AM.analyze p r) == 9 # 10
  \/ AM.am_score (AM.analyze p r) == 1.
Proof.
  unfold AM.analyze. destruct (AM._detect_uip p) as [u conf].
  cbn [AM.am_score].
  destruct (Alignment.ai_style_is_table r) as (c & s & i & f & -> & Hc & Hs & Hi & Hf).
  destruct round3_tenths as (R8 & R9 & R1).
  destruct (am_of_table_values c s i f u r Hc Hs Hi Hf) as [E|[E|E]];
    [left | right; left | right; right];
    rewrite (round3_compat _ _ E); assumption.
Qed.

(** The multiplier takes three values only: 0.8, 0.9 and 1.0. *)
Theorem am_score_is_08_09_or_1 p r :
  AM.am_score (AM.analyze p r) == 8 # 10
  \/ AM.am_score (AM.analyze p r) == 9 # 10
  \/ AM.am_score (AM.analyze p r) == 1.
Proof.
  unfold AM.analyze. destruct (AM._detect_uip p) as [u conf].
  cbn [AM.am_score].
  destruct (Alignment.ai_style_is_table r) as (c & s & i & f & -> & Hc & Hs & Hi & Hf).
  destruct round3_tenths as (R8 & R9 & R1).
  destruct (am_of_table_values c s i f u r Hc Hs Hi Hf) as [E|[E|E]];
    [left | right; left | right; right];
    rewrite (round3_compat _ _ E); assumption.
Qed.

(** A precision_seeker who receives more than 300 words always gets the
    lowest multiplier, 0.8. *)
Theorem long_answer_to_precision_seeker_is_08 p r :
  fst (AM._detect_uip p) = AM.precision_seeker ->
  (300 < Py.word_count r)%nat ->
  AM.am_score (AM.analyze p r) == 8 # 10.
Proof.
  intros Hu Hlong. unfold AM.analyze.
  destruct (AM._detect_uip p) as [u conf]. cbn [fst] in Hu. subst u.
  cbn [AM.am_score].
  destruct (ai_style_with_concise r) as (s & i & f & -> & Hs & _ & _).
  assert (Hc : concise_score r == 0).
  { unfold concise_score.
    assert (Hleb : (Py.word_count r <=? 150)%nat = false)
      by (apply Nat.leb_gt; lia).
    rewrite Hleb. vm_compute. reflexivity. }
  rewrite (round3_compat _ _
             (am_of_long_response (concise_score r) s i f r Hc Hs Hlong)).
  apply round3_tenths.
Qed.

(** The interpretation of the multiplier is always one of the three
    lower texts: "Excellent alignment" and "Good alignment" are never
    produced. *)
Theorem am_interpretation_is_never_good p r :
  let u := fst (AM._detect_uip p) in
  In (am_interpretation p r)
     [ "AM: Neutral alignment - Basic " ++ uip_name u ++ " understanding";
       "AM: Slight misalignment - Some " ++ uip_name u ++ " style mismatches";
       "AM: Significant misalignment - Poor " ++ uip_name u
         ++ " style matching" ].
Proof.
  cbv zeta. unfold am_interpretation.
  destruct (AM._detect_uip p) as [u conf]. cbn [fst].
  destruct (Alignment.ai_style_is_table r) as (c & s & i & f & -> & Hc & Hs & Hi & Hf).
  pose proof (am_of_table_values c s i f u r Hc Hs Hi Hf) as Hv.
  revert Hv. generalize (AM._calculate_am u (style_table c s i f) r).
  intros am Hv. unfold am_generate_interpretation.
  qcases; cbn [In]; auto; exfalso; destruct Hv as [E|[E|E]]; lra.
Qed.

(** The interpretation of the SAS score is never the lowest text, "Very
    poor synchronization": the weighted sum is at least 0.37. *)
Theorem sas_interpretation_is_never_very_poor p r :
  In (sas_interpretation p r)
     [ "Excellent synchronization - AI perfectly matched your style";
       "Good synchronization - AI understood your approach";
       "Moderate synchronization - some style mismatches";
       "Poor synchronization - significant style differences" ].
Proof.
  unfold sas_interpretation, SAS.analyze.
  cbn [SAS.style_sync SAS.goal_sync SAS.expectation_sync SAS.depth_sync].
  pose proof (ResponseQuality.sas_raw_bounds p r) as [Hlo Hhi].
  unfold SAS._analyze_ai_style.
  revert Hlo Hhi.
  match goal with
  | |- context [sas_generate_interpretation ?raw] => generalize raw
  end.
  intros raw Hlo Hhi. unfold sas_generate_interpretation.
  qcases; cbn [In]; auto 6; exfalso; lra.
Qed.

End WithEngine.

Lemma long_answer_to_precision_seeker_is_08_witness :
  fst (AM._detect_uip "list the steps") = AM.precision_seeker
  /\ (300 < Py.word_count (words 301))%nat
  /\ @AM.am_score (@AM.analyze silent_engine "list the steps" (words 301))
     == 8 # 10.
Proof.
  assert (H1 : fst (AM._detect_uip "list the steps") = AM.precision_seeker)
    by (vm_compute; reflexivity).
  assert (H2 : (300 < Py.word_count (words 301))%nat)
    by (vm_compute; lia).
  split; [exact H1|]. split; [exact H2|].
  exact (@long_answer_to_precision_seeker_is_08 silent_engine
           "list the steps" (words 301) H1 H2).
Defined.

End Intent.

(* ================================================================== *)
(** * app.py: what a reply and the history carry                       *)
(* ================================================================== *)

Module Replies.
Import NumFacts Ranges Terms Samples MoreTerms.

(** Rounding a rounded number changes nothing. *)
Lemma round3_idempotent x : round3 (round3 x) == round3 x.
Proof. unfold round3 at 2 3. apply round3_fix. Qed.

Lemma last_of_last_n {A} k (l : list A) (x d : A) :
  (0 < k)%nat -> last (last_n k (l ++ [x])) d = x.
Proof.
  intros Hk. unfold last_n. rewrite length_app. cbn [List.length].
  rewrite skipn_app.
  replace (List.length l + 1 - k - List.length l)%nat with 0%nat by lia.
  cbn [skipn]. apply last_last.
Qed.

Section WithEngine.
Context {engine : PyRe}.

Lemma cai_score_is_round t :
  round3 (CAI.cai_score (CAI.analyze t)) == CAI.cai_score (CAI.analyze t).
Proof.
  unfold CAI.analyze. cbn [CAI.cai_score].
  natcases; vm_compute; reflexivity.
Qed.

(** The projections of the reply to a request that carries a response. *)
Lemma reply_with_response h p r :
  let reply := App.build_response (locals_with_response h p r) in
  App.resonance_index reply
  = round3 (App.ri_score (IAI.iai_score (IAI.analyze p))
                         (CAI.cai_score (CAI.analyze r))
                         (PAS.pas_score (PAS.analyze r))
                         (SAS.sas_score (SAS.analyze p r))
                         (CPS.cps_score (CPS.analyze p r h))
                         (App.css_score (locals_with_response h p r))
                         (AM.am_score (AM.analyze p r)))
  /\ App.iai (App.scores reply) = round3 (IAI.iai_score (IAI.analyze p))
  /\ App.cai (App.scores reply) = round3 (CAI.cai_score (CAI.analyze r))
  /\ App.pas (App.scores reply) = round3 (PAS.pas_score (PAS.analyze r))
  /\ App.sas (App.scores reply) = round3 (SAS.sas_score (SAS.analyze p r))
  /\ App.cps (App.scores reply) = round3 (CPS.cps_score (CPS.analyze p r h))
  /\ App.css (App.scores reply)
     = round3 (App.css_score (locals_with_response h p r))
  /\ App.alignment_modulator reply = AM.am_score (AM.analyze p r)
  /\ App.cps_details (App.breakdown reply) = Some (CPS.analyze p r h).
Proof. cbv zeta. repeat split. Qed.

(** With a response present, the reply reports the CAI, PAS, SAS, CPS and
    CSS scores and the multiplier exactly as the analyzers return them (CSS
    on the word counts of prompt and response): the aggregator rounds
    scores that have three decimals already, which changes nothing.  The
    IAI score alone reaches the aggregator unrounded: the reply reports a
    number of three decimals within 0.0005 of it. *)
Theorem reported_scores_are_the_analyzers h p r :
  p <> "" -> r <> "" ->
  exists reply h',
    App.analyze_interaction h p r = (App.Success reply, h')
    /\ rounded_to_3 (IAI.iai_score (IAI.analyze p)) (App.iai (App.scores reply))
    /\ App.cai (App.scores reply) == CAI.cai_score (CAI.analyze r)
    /\ App.pas (App.scores reply) == PAS.pas_score (PAS.analyze r)
    /\ App.sas (App.scores reply) == SAS.sas_score (SAS.analyze p r)
    /\ App.cps (App.scores reply) == CPS.cps_score (CPS.analyze p r h)
    /\ App.css (App.scores reply)
       == CSS.css_score
            (CSS.analyze p r
               {| CSS.response_length := Some (Py.word_count r);
                  CSS.user_prompt_length := Some (Py.word_count p);
                  CSS.has_ai_response := Some (Py.nonempty (Py.strip r)) |})
    /\ App.alignment_modulator reply == AM.am_score (AM.analyze p r).
Proof.
  intros Hp Hr. exists (App.build_response (locals_with_response h p r)).
  eexists. split.
  { rewrite (Aggregation.analyze_interaction_success h p r Hp).
    rewrite (Aggregation.run_with_response h p r Hp Hr). reflexivity. }
  destruct (reply_with_response h p r)
    as (_ & -> & -> & -> & -> & -> & -> & -> & _).
  split; [apply round3_is_rounded, Qeq_refl|].
  split; [apply cai_score_is_round|].
  split; [apply round3_idempotent|]. split; [apply round3_idempotent|].
  split; [apply round3_idempotent|].
  split; [apply round3_idempotent | reflexivity].
Qed.

(** An answered request appends one turn, the last of the new history: it
    carries the prompt, the response and the achieved level that the reply
    reports, computed on the history as it was before the request. *)
Theorem answered_request_records_its_level h p r :
  p <> "" -> r <> "" ->
  exists reply h',
    App.analyze_interaction h p r = (App.Success reply, h')
    /\ h' = last_n 10 (h ++ [recorded h p r])
    /\ (forall d, last h' d = recorded h p r)
    /\ App.cps_details (App.breakdown reply) = Some (CPS.analyze p r h)
    /\ History.cps_level (recorded h p r)
       = Some (CPS.achieved_level (CPS.analyze p r h))
    /\ App.cps (App.scores reply)
       == inject_Z (CPS.achieved_level (CPS.analyze p r h)) / 5.
Proof.
  intros Hp Hr. exists (App.build_response (locals_with_response h p r)).
  exists (last_n 10 (h ++ [recorded h p r])). split.
  { rewrite (Aggregation.analyze_interaction_success h p r Hp).
    rewrite (Aggregation.run_with_response h p r Hp Hr). reflexivity. }
  split; [reflexivity|].
  split; [intros d; apply last_of_last_n; lia|].
  destruct (reply_with_response h p r)
    as (_ & _ & _ & _ & _ & -> & _ & _ & ->).
  split; [reflexivity|]. split; [reflexivity|].
  unfold CPS.analyze. cbn [CPS.cps_score CPS.achieved_level].
  eapply Qeq_trans; [apply round3_idempotent | apply Progression.round3_fifths].
Qed.

(** The resonance index of a request without response lies between
    0.192 and 0.413; with a response it lies between 0.094 and 0.981. *)
Theorem resonance_index_tight_ranges h p r :
  p <> "" ->
  exists reply h',
    App.analyze_interaction h p r = (App.Success reply, h')
    /\ (if Py.nonempty r then (94 # 1000) else (192 # 1000))
       <= App.resonance_index reply
    /\ App.resonance_index reply
       <= (if Py.nonempty r then (981 # 1000) else (413 # 1000)).
Proof.
  intros Hp. eexists. eexists.
  split; [apply Aggregation.analyze_interaction_success; exact Hp|].
  pose proof (InputQuality.iai_tight p) as [Hi0 Hi1].
  destruct (Aggregation.response_cases r) as [->|Hr].
  - rewrite Aggregation.run_without_response.
    rewrite Aggregation.fallback_reply_index. cbn [Py.nonempty].
    apply (round3_between _ _ 192 413); [reflexivity | reflexivity |].
    revert Hi0 Hi1. generalize (IAI.iai_score (IAI.analyze p)).
    intros q Hi0 Hi1. unfold App.ri_score. split; lra.
  - rewrite (Aggregation.run_with_response h p r Hp Hr).
    rewrite (Aggregation.nonempty_true r Hr).
    destruct (reply_with_response h p r) as (-> & _).
    apply (round3_between _ _ 94 981); [reflexivity | reflexivity |].
    pose proof (cai_range r) as [Hc0 Hc1].
    pose proof (ResponseQuality.pas_raw_bounds r) as Hpas.
    pose proof (ResponseQuality.sas_raw_bounds p r) as Hsas.
    assert (Hp' : (25 # 1000) <= PAS.pas_score (PAS.analyze r) <= 1).
    { unfold PAS.analyze. cbn [PAS.pas_score].
      apply (round3_between _ _ 25 1000); [reflexivity | reflexivity |].
      exact Hpas. }
    assert (Hs' : (370 # 1000) <= SAS.sas_score (SAS.analyze p r) <= (955 # 1000)).
    { unfold SAS.analyze. cbn [SAS.sas_score].
      apply (round3_between _ _ 370 955); [reflexivity | reflexivity |].
      exact Hsas. }
    pose proof (cps_range p r h) as [Hcp0 Hcp1].
    assert (Hcs : (1 # 5) <= App.css_score (locals_with_response h p r) <= 1)
      by apply css_range.
    assert (Ham : (8 # 10) <= AM.am_score (AM.analyze p r) <= 1).
    { split; [apply am_range|].
      destruct (Intent.am_score_values_helper p r) as [E|[E|E]]; rewrite E; lra. }
    revert Hi0 Hi1 Hc0 Hc1 Hp' Hs' Hcp0 Hcp1 Hcs Ham.
    generalize (IAI.iai_score (IAI.analyze p)) (CAI.cai_score (CAI.analyze r))
      (PAS.pas_score (PAS.analyze r)) (SAS.sas_score (SAS.analyze p r))
      (CPS.cps_score (CPS.analyze p r h))
      (App.css_score (locals_with_response h p r))
      (AM.am_score (AM.analyze p r)).
    intros a b c d e f m Ha0 Ha1 Hb0 Hb1 [Hc0' Hc1'] [Hd0 Hd1] He0 He1
      [Hf0 Hf1] [Hm0 Hm1].
    unfold App.ri_score.
    set (S := a * (25 # 100) + b * (20 # 100) + c * (20 # 100)
              + d * (15 # 100) + e * (10 # 100) + f * (10 # 100)).
    assert (HS : (118 # 1000) <= S <= (98075 # 100000))
      by (unfold S; split; lra).
    clearbody S. destruct HS as [HS0 HS1]. split.
    + apply Qle_trans with ((118 # 1000) * (8 # 10)); [lra|].
      apply Qle_trans with (S * (8 # 10)); [lra|].
      apply Qle_trans with (S * m); [|lra].
      rewrite (Qmult_comm S (8 # 10)), (Qmult_comm S m).
      apply Qmult_le_compat_r; lra.
    + apply Qle_trans with (S * 1); [|lra].
      rewrite (Qmult_comm S m), (Qmult_comm S 1).
      apply Qmult_le_compat_r; lra.
Qed.

End WithEngine.

Lemma reported_scores_are_the_analyzers_witness :
  for_loop_prompt <> "" /\ "A loop." <> ""
  /\ exists reply h',
       @App.analyze_interaction silent_engine [] for_loop_prompt "A loop."
       = (App.Success reply, h')
       /\ App.pas (App.scores reply)
          == PAS.pas_score (@PAS.analyze silent_engine "A loop.").
Proof.
  assert (H1 : for_loop_prompt <> "") by discriminate.
  assert (H2 : "A loop." <> "") by discriminate.
  split; [exact H1|]. split; [exact H2|].
  destruct (@reported_scores_are_the_analyzers silent_engine []
              for_loop_prompt "A loop." H1 H2)
    as (reply & h' & E & _ & _ & Hpas & _).
  exists reply, h'. split; [exact E | exact Hpas].
Defined.

Lemma answered_request_records_its_level_witness :
  for_loop_prompt <> "" /\ "A loop." <> ""
  /\ exists reply h',
       @App.analyze_interaction silent_engine [] for_loop_prompt "A loop."
       = (App.Success reply, h')
       /\ h' = last_n 10 ([] ++ [@recorded [] for_loop_prompt "A loop."]).
Proof.
  assert (H1 : for_loop_prompt <> "") by discriminate.
  assert (H2 : "A loop." <> "") by discriminate.
  split; [exact H1|]. split; [exact H2|].
  destruct (@answered_request_records_its_level silent_engine []
              for_loop_prompt "A loop." H1 H2)
    as (reply & h' & E & Hh & _).
  exists reply, h'. split; [exact E | exact Hh].
Defined.

Lemma resonance_index_tight_ranges_witness :
  for_loop_prompt <> ""
  /\ exists reply h',
       @App.analyze_interaction silent_engine [] for_loop_prompt ""
       = (App.Success reply, h')
       /\ App.resonance_index reply <= 413 # 1000.
Proof.
  assert (H1 : for_loop_prompt <> "") by discriminate.
  split; [exact H1|].
  destruct (@resonance_index_tight_ranges silent_engine [] for_loop_prompt "" H1)
    as (reply & h' & E & _ & Hhi).
  exists reply, h'. split; [exact E | exact Hhi].
Defined.

End Replies.

(* ================================================================== *)
(** * CAI: what the analysis records                                   *)
(* ================================================================== *)

Module RecordedAnchors.
Import Terms MoreTerms.

Lemma filter_nonempty_exists {A} (f : A -> bool) l :
  (List.length (filter f l) <? 1)%nat = false -> existsb f l = true.
Proof.
  induction l as [|x l IH]; cbn; [discriminate|].
  destruct (f x); [reflexivity | exact IH].
Qed.

Lemma validate_anchor_sound a ty :
  CAI._validate_anchor a ty = true -> meets_minimum a ty.
Proof.
  unfold CAI._validate_anchor, meets_minimum, Py.word_count,
    CAI.min_specificity_words.
  destruct (Nat.ltb_spec (List.length (Py.split a)) 1) as [|Hw]; [discriminate|].
  destruct (Py.any_present CAI.banned_vague_terms a); [discriminate|].
  intros Hv. split; [exact Hw|]. split.
  { intros ->. cbn in Hw. lia. }
  split; [reflexivity|].
  destruct ty.
  - exact I.
  - apply filter_nonempty_exists. apply negb_true_iff. exact Hv.
  - apply negb_true_iff, Nat.ltb_ge in Hv. exact Hv.
Qed.

Section WithEngine.
Context {engine : PyRe}.

Lemma anchors_of_pattern_valid ty sentences pattern a :
  In a (CAI.anchors_of_pattern ty sentences pattern) ->
  CAI.valid a = true /\ CAI.type a = ty /\ meets_minimum (CAI.text a) ty.
Proof.
  unfold CAI.anchors_of_pattern. intros Hin.
  apply in_flat_map in Hin. destruct Hin as (sentence & _ & Hin).
  destruct (Py.nonempty (Py.strip sentence)); [|contradiction].
  apply in_flat_map in Hin. destruct Hin as (group0 & _ & Hin).
  destruct (CAI._validate_anchor (CAI._clean_anchor_text group0) ty) eqn:Hv;
    [|contradiction].
  destruct Hin as [<-|[]]. cbn [CAI.valid CAI.type CAI.text].
  split; [reflexivity|]. split; [reflexivity|].
  now apply validate_anchor_sound.
Qed.

(** Every anchor that the analysis records is a validated one of its
    family: it is flagged valid, filed under its own type, has at least one
    word, holds no banned vague term, and meets the minimum of its family
    (two words for a hypothesis, a word of three letters or more for an
    analogy). *)
Theorem recorded_anchors_are_valid t :
  Forall (fun entry =>
            Forall (fun a =>
                      CAI.valid a = true
                      /\ CAI.type a = fst entry
                      /\ meets_minimum (CAI.text a) (fst entry))
                   (snd entry))
         (CAI.found (CAI.analyze t)).
Proof.
  unfold CAI.analyze. cbn [CAI.found]. unfold CAI.anchors_found.
  apply Forall_forall. intros [ty anchors] Hin.
  apply in_map_iff in Hin. destruct Hin as ([ty' patterns] & E & _).
  inversion E; subst. cbn [fst snd].
  apply Forall_forall. intros a Ha.
  apply in_flat_map in Ha. destruct Ha as (pattern & _ & Ha).
  exact (anchors_of_pattern_valid _ _ _ _ Ha).
Qed.

End WithEngine.

End RecordedAnchors.

(* ================================================================== *)
(** * app.py: feedback records                                         *)
(* ================================================================== *)

Module FeedbackFacts.

Lemma take_is_prefix n :
  forall s,
    String.length (Feedback.take n s) = Nat.min n (String.length s)
    /\ exists rest, s = Feedback.take n s ++ rest.
Proof.
  unfold Feedback.take.
  induction n as [|n IH]; intros s.
  - destruct s; cbn; (split; [reflexivity|]); eexists; reflexivity.
  - destruct s as [|c s']; cbn.
    + split; [reflexivity|]. exists "". reflexivity.
    + destruct (IH s') as [Hlen [rest Hrest]].
      split; [now rewrite Hlen|].
      exists rest. now rewrite <- Hrest.
Qed.

Lemma take_short n s : (String.length s <= n)%nat -> Feedback.take n s = s.
Proof.
  unfold Feedback.take. revert s.
  induction n as [|n IH]; intros s Hs.
  - destruct s; [reflexivity | cbn in Hs; lia].
  - destruct s as [|c s']; [reflexivity|].
    cbn in *. rewrite IH by lia. reflexivity.
Qed.

Section WithResults.
Variable results : Type.
Variable empty_results : results.

(** Both feedback records keep a prefix of the prompt of at most 500
    characters and a prefix of the response of at most 1000 characters,
    the whole text when it is that short.  Missing fields read as empty,
    except the e-mail of a submitted feedback, which reads as
    anonymous@example.com. *)
Theorem feedback_texts_are_truncated (data : Feedback.request results) :
  let submitted := Feedback.submit_feedback results empty_results data in
  let downloaded := Feedback.download_feedback results empty_results data in
  let prompt := Feedback.get (Feedback.req_user_prompt results data) "" in
  let response := Feedback.get (Feedback.req_ai_response results data) "" in
  let kept_prompt :=
    Feedback.user_prompt results (Feedback.interaction results submitted) in
  let kept_response :=
    Feedback.ai_response results (Feedback.interaction results submitted) in
  String.length kept_prompt = Nat.min 500 (String.length prompt)
  /\ (exists rest, prompt = kept_prompt ++ rest)
  /\ String.length kept_response = Nat.min 1000 (String.length response)
  /\ (exists rest, response = kept_response ++ rest)
  /\ (if (String.length prompt <=? 500)%nat
      then kept_prompt = prompt else True)
  /\ Feedback.interaction results downloaded
     = Feedback.interaction results submitted
  /\ Feedback.user_email results submitted
     = Feedback.get (Feedback.req_user_email results data)
                    "anonymous@example.com"
  /\ Feedback.user_email results downloaded
     = Feedback.get (Feedback.req_user_email results data) "".
Proof.
  cbv zeta. unfold Feedback.submit_feedback, Feedback.download_feedback.
  cbn [Feedback.interaction Feedback.user_prompt Feedback.ai_response
       Feedback.user_email].
  generalize (Feedback.get (Feedback.req_user_prompt results data) "").
  generalize (Feedback.get (Feedback.req_ai_response results data) "").
  intros response prompt.
  destruct (take_is_prefix 500 prompt) as [Hp1 Hp2].
  destruct (take_is_prefix 1000 response) as [Hr1 Hr2].
  repeat (split; [assumption || reflexivity|]).
  split; [|repeat split].
  destruct (Nat.leb_spec (String.length prompt) 500); [|exact I].
  now apply take_short.
Qed.

End WithResults.

End FeedbackFacts.
